(** * make-it-heavy: the orchestrator pipeline and the agent loop

    A shallow embedding of [src/agent.py] (class [UniversalAgent]) and
    [src/orchestrator.py] (class [TaskOrchestrator]), followed by the
    properties of the decomposition / fan-out / synthesis pipeline.

    Everything outside the two classes is a collaborator whose behaviour
    is a parameter: the chat-completions client of an agent, the tools,
    the construction of agents from the configuration file, the JSON
    codec and [str.format] of the Python runtime, and the arrival order
    of the worker futures. *)

From Stdlib Require Import ZArith QArith Qround List String Ascii Lia Sorted.
From stdpp Require Import base option list gmap strings pretty.
From Equations Require Import Equations.

Local Open Scope Z_scope.
Local Open Scope string_scope.
Local Set Warnings "-register-all".

(** ** The Python runtime *)

Module Py.

(** Exception classes that occur in the two source files, with the one
    subclass relation the code dispatches on: [json.JSONDecodeError] is a
    [ValueError].  Only subclasses of [Exception] are modelled, so
    [except Exception] catches every [exn]. *)
Inductive exn_class : Set :=
  | Exception
  | ValueError
  | JSONDecodeError
  | TypeError
  | KeyError
  | IndexError
  | AttributeError
  | OSError
  | TimeoutError
  | ConfigurationError
  | ProviderError
  | DeepSeekAPIError
  | OpenRouterAPIError.

(** An exception object: its class and [str(e)]. *)
Record exn : Set := mk_exn { exn_cls : exn_class; exn_str : string }.

Definition is_ValueError (e : exn) : bool :=
  match exn_cls e with
  | ValueError | JSONDecodeError => true
  | _ => false
  end.

Definition is_JSONDecodeError (e : exn) : bool :=
  match exn_cls e with
  | JSONDecodeError => true
  | _ => false
  end.

Definition is_Exception (e : exn) : bool := true.

(** The outcome of evaluating an expression: a value or a raised exception. *)
Inductive result (A : Type) : Type :=
  | Ok (a : A)
  | Raise (e : exn).
Arguments Ok {A} a.
Arguments Raise {A} e.

Definition is_ok {A} (r : result A) : bool :=
  match r with Ok _ => true | Raise _ => false end.

(** Values of the JSON fragment of Python: what [json.loads] returns and
    what tools receive and return.  A [dict] has unique string keys. *)
Inductive json : Type :=
  | JNull
  | JBool (b : bool)
  | JInt (n : Z)
  | JFloat (q : Q)
  | JStr (s : string)
  | JArr (l : list json)
  | JObj (o : gmap string json).

Definition type_name (v : json) : string :=
  match v with
  | JNull => "NoneType"
  | JBool _ => "bool"
  | JInt _ => "int"
  | JFloat _ => "float"
  | JStr _ => "str"
  | JArr _ => "list"
  | JObj _ => "dict"
  end.

(** The collaborators from the Python standard library whose results the
    code consumes: [json.loads], [json.dumps] and [str.format] with keyword
    arguments. *)
Record Runtime : Type := {
  json_loads : string -> result json;
  json_dumps : json -> string;
  str_format : string -> list (string * string) -> result string
}.

Definition nl : string := String (ascii_of_nat 10) EmptyString.

Definition and_then {A B} (r : result A) (k : A -> result B) : result B :=
  match r with
  | Ok a => k a
  | Raise e => Raise e
  end.

(** [l[0]] *)
Definition first_item {A} (l : list A) : result A :=
  match l with
  | x :: _ => Ok x
  | [] => Raise (mk_exn IndexError "list index out of range")
  end.

(** A string is the UTF-8 encoding of its characters (a string with a
    lone surrogate has none and is outside the model).  The bytes 128 to
    191 continue a character. *)
Definition is_continuation (c : ascii) : bool :=
  let n := nat_of_ascii c in
  (128 <=? n)%nat && (n <=? 191)%nat.

(** The characters of a string, each as the string of its bytes. *)
Fixpoint chars (s : string) : list string :=
  match s with
  | EmptyString => []
  | String c s' =>
      let continued :=
        match s' with
        | String c' _ => is_continuation c'
        | EmptyString => false
        end in
      match chars s' with
      | first :: rest =>
          if continued then String c first :: rest
          else String c EmptyString :: first :: rest
      | [] => [String c EmptyString]
      end
  end.

(** [len(s)] on a string: the number of its characters. *)
Definition str_len (s : string) : nat := List.length (chars s).

(** [len(v)] *)
Definition len (v : json) : result Z :=
  match v with
  | JStr s => Ok (Z.of_nat (str_len s))
  | JArr l => Ok (Z.of_nat (List.length l))
  | JObj o => Ok (Z.of_nat (size o))
  | _ => Raise (mk_exn TypeError
                  ("object of type '" ++ type_name v ++ "' has no len()"))
  end.

Definition bytes (l : list nat) : string :=
  foldr (fun n s => String (ascii_of_nat n) s) EmptyString l.

(** The characters for which [str.isspace] holds: U+0009 to U+000D,
    U+001C to U+0020, U+0085, U+00A0, U+1680, U+2000 to U+200A, U+2028,
    U+2029, U+202F, U+205F and U+3000. *)
Definition whitespace : list string :=
  ((fun n => bytes [n]) <$> [9; 10; 11; 12; 13; 28; 29; 30; 31; 32])%nat
  ++ [ bytes [194; 133]; bytes [194; 160]; bytes [225; 154; 128] ]%nat
  ++ ((fun n => bytes [226; 128; n]) <$> seq 128 11)%nat
  ++ [ bytes [226; 128; 168]; bytes [226; 128; 169]; bytes [226; 128; 175];
       bytes [226; 129; 159]; bytes [227; 128; 128] ]%nat.

Definition is_space (ch : string) : bool := existsb (String.eqb ch) whitespace.

Fixpoint drop_while {A} (f : A -> bool) (l : list A) : list A :=
  match l with
  | [] => []
  | x :: l' => if f x then drop_while f l' else l
  end.

Definition lstrip_chars (l : list string) : list string := drop_while is_space l.
Definition rstrip_chars (l : list string) : list string :=
  rev (drop_while is_space (rev l)).

(** [str.strip()]: the whitespace characters at both ends removed. *)
Definition strip (s : string) : string :=
  foldr String.append EmptyString (rstrip_chars (lstrip_chars (chars s))).

(** [str.lower()], as far as the ASCII text of the result goes: the ASCII
    letters, and the two characters beyond ASCII whose lower case holds an
    ASCII letter, U+212A (to [k]) and U+0130 (to [i] and U+0307).  The other
    characters are left as they are; the result is only searched for ASCII
    text. *)
Definition lower_ascii (c : ascii) : ascii :=
  let n := nat_of_ascii c in
  if ((65 <=? n)%nat && (n <=? 90)%nat) then ascii_of_nat (n + 32) else c.

Definition lower_char (ch : string) : string :=
  match ch with
  | String c EmptyString => String (lower_ascii c) EmptyString
  | _ =>
      if (ch =? bytes [226; 132; 170]%nat)%string then "k"
      else if (ch =? bytes [196; 176]%nat)%string then "i" ++ bytes [204; 135]%nat
      else ch
  end.

Definition lower (s : string) : string :=
  foldr String.append EmptyString (lower_char <$> chars s).

(** [needle in haystack] on strings. *)
Fixpoint contains (needle haystack : string) : bool :=
  String.prefix needle haystack ||
  match haystack with
  | EmptyString => false
  | String _ h' => contains needle h'
  end.

(** [sep.join(items)] on strings. *)
Fixpoint join (sep : string) (items : list string) : string :=
  match items with
  | [] => EmptyString
  | [x] => x
  | x :: rest => x ++ sep ++ join sep rest
  end.

(** [sep.join(items)] when the items are arbitrary values: a [TypeError]
    unless every item is a [str]. *)
Fixpoint strs_of (i : nat) (items : list json) : result (list string) :=
  match items with
  | [] => Ok []
  | JStr s :: rest =>
      match strs_of (S i) rest with
      | Ok l => Ok (s :: l)
      | Raise e => Raise e
      end
  | v :: _ =>
      Raise (mk_exn TypeError
               ("sequence item " ++ pretty i ++ ": expected str instance, "
                ++ type_name v ++ " found"))
  end.

Definition join_values (sep : string) (items : list json) : result string :=
  match strs_of 0 items with
  | Ok l => Ok (join sep l)
  | Raise e => Raise e
  end.

(** [l[:n]] for an integer [n]: a negative bound counts from the end. *)
Definition slice_to {A} (n : Z) (l : list A) : list A :=
  if (0 <=? n)%Z then take (Z.to_nat n) l
  else take (List.length l - Z.to_nat (- n))%nat l.

(** [range(n)] *)
Definition range (n : Z) : list Z := (fun i : nat => Z.of_nat i) <$> seq 0 (Z.to_nat n).

(** *** Computations that issue requests

    A computation yields a [result] together with the requests it sent,
    oldest first; a raised exception keeps the requests sent before it. *)
Section Logged.
Context {E : Type}.

Definition M (A : Type) : Type := (result A * list E)%type.

Definition ret {A} (a : A) : M A := (Ok a, []).
Definition raise {A} (e : exn) : M A := (Raise e, []).
Definition lift {A} (r : result A) : M A := (r, []).
Definition emit (ev : E) : M unit := (Ok tt, [ev]).

Definition bind {A B} (m : M A) (k : A -> M B) : M B :=
  match m with
  | (Ok a, l) => let '(r, l') := k a in (r, (l ++ l')%list)
  | (Raise e, l) => (Raise e, l)
  end.

(** [try: m  except <classes selected by catches> as e: h e] *)
Definition try_except {A} (m : M A) (catches : exn -> bool) (h : exn -> M A) : M A :=
  match m with
  | (Ok a, l) => (Ok a, l)
  | (Raise e, l) =>
      if catches e then let '(r, l') := h e in (r, (l ++ l')%list) else (Raise e, l)
  end.

Definition value {A} (m : M A) : result A := fst m.
Definition requests {A} (m : M A) : list E := snd m.
End Logged.
Arguments M : clear implicits.

End Py.

Declare Scope py_scope.
Delimit Scope py_scope with py.
Notation "'do' x <- m ; k" := (Py.bind m (fun x => k))
  (at level 10, x name, m at level 100, k at level 200) : py_scope.
Notation "'exec' m ; k" := (Py.bind m (fun _ => k))
  (at level 10, m at level 100, k at level 200) : py_scope.
Local Open Scope py_scope.

(** ** [agent.py]: class [UniversalAgent] *)

Module Agent.
Import Py.

(** A tool description in the OpenAI function format.  The code reads
    [tool.get('function', {}).get('name')], so both levels may be absent. *)
Record ToolFunction : Type := {
  fn_name : option string;
  fn_description : string;
  fn_parameters : json
}.

Record Tool : Type := {
  tool_type : string;
  tool_function : option ToolFunction
}.

Definition tool_name (t : Tool) : option string :=
  match tool_function t with
  | Some f => fn_name f
  | None => None
  end.

(** [tool_call.id], [tool_call.function.name], [tool_call.function.arguments] *)
Record ToolCall : Type := {
  tc_id : string;
  tc_name : string;
  tc_arguments : string
}.

(** [response.choices[k].message]: [content] may be [None]; an absent or
    [None] [tool_calls] is the empty list (the code only tests it for
    truth and iterates over it). *)
Record AssistantMessage : Type := {
  content : option string;
  tool_calls : list ToolCall
}.

Record ChatCompletion : Type := { choices : list AssistantMessage }.

(** The dictionaries appended to [messages]. *)
Inductive Message : Type :=
  | SystemMessage (text : string)
  | UserMessage (text : json)
  | AssistantTurn (text : option string) (calls : option (list ToolCall))
  | ToolMessage (tool_call_id name text : string).

(** [api_params]: the keyword arguments of [chat.completions.create];
    the key ["tools"] is optional. *)
Record ApiParams : Type := {
  p_model : string;
  p_messages : list Message;
  p_tools : option (list Tool)
}.

(** The state of an agent after [__init__]: the parts of the loaded
    configuration that [run] reads, the discovered tools, and the client. *)
Record UniversalAgent : Type := {
  provider_type : string;
  model : string;
  system_prompt : string;
  agent_max_iterations : option Z;
  tools : list Tool;
  tool_mapping : gmap string (gmap string json -> result json);
  client : ApiParams -> result ChatCompletion
}.

Definition dummy_tool : Tool :=
  {| tool_type := "function";
     tool_function := Some
       {| fn_name := Some "dummy_tool";
          fn_description := "A dummy tool that does nothing";
          fn_parameters :=
            JObj (<["type" := JStr "object"]>
                  (<["properties" := JObj ∅]>
                   (<["required" := JArr []]> ∅))) |} |}.

Definition hint_prefix : string := nl ++ "💡 ".

Definition build_api_params (self : UniversalAgent) (messages : list Message) : ApiParams :=
  {| p_model := model self;
     p_messages := messages;
     p_tools :=
       if (provider_type self =? "deepseek")%string then
         match tools self with
         | [] => Some [dummy_tool]
         | ts => Some ts
         end
       else
         match tools self with
         | [] => None
         | ts => Some ts
         end |}.

(** The handler of [call_llm]: the provider-specific exception. *)
Definition llm_error (self : UniversalAgent) (e : exn) : exn :=
  let msg := exn_str e in
  if (provider_type self =? "deepseek")%string then
    let error_msg := "DeepSeek API call failed: " ++ msg in
    let error_msg :=
      if contains "api_key" (lower msg) then
        error_msg ++ hint_prefix ++ "Check your DeepSeek API key in the configuration file"
      else if contains "rate" (lower msg) then
        error_msg ++ hint_prefix ++
        "DeepSeek rate limit reached. Try again later or during off-peak hours (16:30-00:30 UTC)"
      else error_msg in
    mk_exn DeepSeekAPIError error_msg
  else if (provider_type self =? "openrouter")%string then
    let error_msg := "OpenRouter API call failed: " ++ msg in
    let error_msg :=
      if contains "api_key" (lower msg) then
        error_msg ++ hint_prefix ++ "Check your OpenRouter API key in the configuration file"
      else error_msg in
    mk_exn OpenRouterAPIError error_msg
  else mk_exn Exception ("LLM call failed: " ++ msg).

Definition call_llm (self : UniversalAgent) (messages : list Message)
  : M ApiParams ChatCompletion :=
  try_except
    (let api_params := build_api_params self messages in
     exec emit api_params;
     lift (client self api_params))
    is_Exception
    (fun e => raise (llm_error self e)).

(** Calling a tool with the parsed arguments unpacked as keyword
    arguments: the unpacked value must be a mapping.  (CPython puts the
    name of the callee before the text of this error.) *)
Definition call_with_kwargs (f : gmap string json -> result json) (tool_args : json)
  : result json :=
  match tool_args with
  | JObj kwargs => f kwargs
  | v => Raise (mk_exn TypeError
                  ("argument after ** must be a mapping, not " ++ type_name v))
  end.

Definition error_object (msg : string) : json := JObj (<["error" := JStr msg]> ∅).

Definition mark_task_complete : string := "mark_task_complete".

Section WithRuntime.
Variable rt : Runtime.

Definition handle_tool_call (self : UniversalAgent) (tool_call : ToolCall) : Message :=
  let tool_name := tc_name tool_call in
  let attempt :=
    and_then (json_loads rt (tc_arguments tool_call)) (fun tool_args =>
    and_then
      (match tool_mapping self !! tool_name with
       | Some f => call_with_kwargs f tool_args
       | None => Ok (error_object ("Unknown tool: " ++ tool_name))
       end) (fun tool_result =>
    Ok (json_dumps rt tool_result))) in
  match attempt with
  | Ok text => ToolMessage (tc_id tool_call) tool_name text
  | Raise e =>
      ToolMessage (tc_id tool_call) tool_name
        (json_dumps rt (error_object ("Tool execution failed: " ++ exn_str e)))
  end.

(** The block
    [try: args = json.loads(arguments); if 'completion_message' in args: ...
     elif 'task_summary' in args: ...  except: pass]
    as the items it appends.  When [args] is not a dict, either the [in]
    test or the subscript raises a [TypeError], or both tests are false:
    nothing is appended. *)
Definition completion_text (tool_call : ToolCall) : list json :=
  match json_loads rt (tc_arguments tool_call) with
  | Ok (JObj args) =>
      match args !! "completion_message" with
      | Some v => [v]
      | None =>
          match args !! "task_summary" with
          | Some v => [v]
          | None => []
          end
      end
  | _ => []
  end.

(** The first [for tool_call in assistant_message.tool_calls] of an
    iteration, entered when the content is empty. *)
Definition capture_from_tool_calls (calls : list ToolCall) : list json :=
  flat_map (fun tool_call =>
              if (tc_name tool_call =? mark_task_complete)%string
              then completion_text tool_call else []) calls.

Definition capture (assistant_message : AssistantMessage) (full : list json) : list json :=
  match content assistant_message with
  | Some (String c s) => (full ++ [JStr (String c s)])%list
  | _ => (full ++ capture_from_tool_calls (tool_calls assistant_message))%list
  end.

(** The second [for tool_call in assistant_message.tool_calls]: each call
    is handled and its result appended; the loop is left at the first
    [mark_task_complete].  The flag says whether that happened. *)
Fixpoint handle_tool_calls (self : UniversalAgent) (calls : list ToolCall)
    (messages : list Message) (full : list json)
  : list Message * list json * bool :=
  match calls with
  | [] => (messages, full, false)
  | tool_call :: rest =>
      let messages := (messages ++ [handle_tool_call self tool_call])%list in
      if (tc_name tool_call =? mark_task_complete)%string then
        (messages, (full ++ completion_text tool_call)%list, true)
      else handle_tool_calls self rest messages full
  end.

(** What one pass through the body of the [while] loop leads to. *)
Inductive step : Type :=
  | Return (answer : string)
  | Continue (messages : list Message) (full : list json).

Definition sep2 : string := nl ++ nl.

Definition iteration_body (self : UniversalAgent)
    (messages : list Message) (full : list json) : M ApiParams step :=
  do response <- call_llm self messages;
  do assistant_message <- lift (first_item (choices response));
  let message_dict :=
    AssistantTurn (content assistant_message)
      (match tool_calls assistant_message with
       | [] => None
       | calls => Some calls
       end) in
  let messages := (messages ++ [message_dict])%list in
  let full := capture assistant_message full in
  match handle_tool_calls self (tool_calls assistant_message) messages full with
  | (_, full, true) =>
      do answer <- lift (join_values sep2 full);
      ret (Return answer)
  | (messages, full, false) => ret (Continue messages full)
  end.

Definition stuck_message : string :=
  "Maximum iterations reached. The agent may be stuck in a loop.".

(** [return sep.join(full) if full else "Maximum iterations reached. ..."] *)
Definition final_answer (full : list json) : M ApiParams string :=
  match full with
  | [] => ret stuck_message
  | _ => lift (join_values sep2 full)
  end.

(** [while iteration < max_iterations: iteration += 1; ...] *)
Equations? run_loop (self : UniversalAgent) (max_iterations iteration : Z)
    (messages : list Message) (full : list json) : M ApiParams string
  by wf (Z.to_nat (max_iterations - iteration)) lt :=
  run_loop self max_iterations iteration messages full
    with decide (iteration < max_iterations) := {
    | left _ =>
        do s <- iteration_body self messages full;
        match s with
        | Return answer => ret answer
        | Continue messages full =>
            run_loop self max_iterations (iteration + 1) messages full
        end
    | right _ => final_answer full }.
Proof. lia. Qed.

Definition max_iterations (self : UniversalAgent) : Z :=
  default 10 (agent_max_iterations self).

Definition run (self : UniversalAgent) (user_input : json) : M ApiParams string :=
  let messages := [SystemMessage (system_prompt self); UserMessage user_input] in
  run_loop self (max_iterations self) 0 messages [].

End WithRuntime.

(** *** Observations on a run

    Each request of a run is answered by the client of the agent; these
    read the answer off a request. *)

(** The assistant message of the answer, if the call returned one. *)
Definition answer (self : UniversalAgent) (p : ApiParams) : option AssistantMessage :=
  match client self p with
  | Ok response => head (choices response)
  | Raise _ => None
  end.

(** The message holds a call of the completion tool. *)
Definition asks_completion (m : AssistantMessage) : bool :=
  existsb (fun tool_call => (tc_name tool_call =? mark_task_complete)%string)
          (tool_calls m).

(** The answer to the request holds a call of the completion tool, which
    the loop then handles. *)
Definition completes (self : UniversalAgent) (p : ApiParams) : bool :=
  match answer self p with
  | Some m => asks_completion m
  | None => false
  end.

(** The answer carries on: a message without a call of the completion tool. *)
Definition carries_on (self : UniversalAgent) (p : ApiParams) : bool :=
  match answer self p with
  | Some m => negb (asks_completion m)
  | None => false
  end.

(** The non-empty content of the answer. *)
Definition said (self : UniversalAgent) (p : ApiParams) : option string :=
  match answer self p with
  | Some m =>
      match content m with
      | Some (String c s) => Some (String c s)
      | _ => None
      end
  | None => None
  end.

(** What the loop appends to the collected content for an answer that
    carries on. *)
Definition heard (self : UniversalAgent) (p : ApiParams) : list json :=
  match said self p with
  | Some s => [JStr s]
  | None => []
  end.

End Agent.

(** ** [orchestrator.py]: class [TaskOrchestrator] *)

Module Orchestrator.
Import Py Agent.

(** The [orchestrator] block of the YAML document, as the record of its
    optional keys; a key that is present holds a value of the type the
    configuration format gives it. *)
Record OrchestratorBlock : Type := {
  parallel_agents : option Z;
  task_timeout_key : option Q;
  aggregation_strategy_key : option string;
  question_generation_prompt : option string;
  synthesis_prompt : option string;
  budget_limit_key : option Q
}.

Record Config : Type := { orchestrator : option OrchestratorBlock }.

(** [d[key]] on a dictionary whose key may be absent. *)
Definition subscript {A} (key : string) (entry : option A) : result A :=
  match entry with
  | Some v => Ok v
  | None => Raise (mk_exn KeyError ("'" ++ key ++ "'"))
  end.

(** [model_config/data_models.py]: [AgentModelConfig] *)
Record AgentModelConfig : Type := {
  agent_0_model : string;
  agent_1_model : string;
  agent_2_model : string;
  agent_3_model : string;
  synthesis_model : string;
  default_model : string
}.

Definition get_agent_model (c : AgentModelConfig) (agent_id : Z) : string :=
  if (agent_id =? 0)%Z then agent_0_model c
  else if (agent_id =? 1)%Z then agent_1_model c
  else if (agent_id =? 2)%Z then agent_2_model c
  else if (agent_id =? 3)%Z then agent_3_model c
  else default_model c.

(** [config_manager.py]: the fields of [ProviderConfig] that are read. *)
Record ProviderConfig : Type := {
  pc_provider_type : string;
  pc_model : string
}.

(** [ModelInfo]: the fields read by the cost estimate. *)
Record ModelInfo : Type := {
  mi_id : string;
  input_cost_per_1m : option Q;
  output_cost_per_1m : option Q
}.

(** The state of an orchestrator after [__init__]. *)
Record TaskOrchestrator : Type := {
  config : Config;
  num_agents : Z;
  task_timeout : Q;
  aggregation_strategy : string;
  silent : bool;
  multi_model_config : option AgentModelConfig;
  budget_limit : option Q
}.

(** Where an agent is constructed with [UniversalAgent(config_path, silent=True)]. *)
Inductive site : Type :=
  | QuestionAgent
  | ModelAgent (agent_id : Z)
  | DefaultAgent (agent_id : Z)
  | SynthesisDefaultAgent.

(** The collaborators of an orchestrator. *)
Record World : Type := {
  (** constructing an agent from the configuration file, per call site *)
  new_agent : site -> result UniversalAgent;
  (** [self.config_manager.get_provider_config()] *)
  get_provider_config : result ProviderConfig;
  (** [self.model_config_manager.get_available_models()] *)
  get_available_models : result (list ModelInfo);
  (** [provider.type] of the configuration file as read again during synthesis *)
  file_provider_type : result string;
  (** the workers whose futures complete before the batch deadline, in
      completion order *)
  arrival : list Z;
  (** the wall-clock duration of a worker's run *)
  elapsed : Z -> Q
}.

(** A worker result; the record built for a failed future has neither a
    model nor a cost. *)
Inductive Status : Set := success | error | timeout.

Definition status_str (s : Status) : string :=
  match s with
  | success => "success"
  | error => "error"
  | timeout => "timeout"
  end.

Record AgentResult : Type := {
  agent_id : Z;
  status : Status;
  response : string;
  execution_time : Q;
  result_model : option string;
  estimated_cost : option Q
}.

Definition is_success (r : AgentResult) : bool :=
  match status r with success => true | _ => false end.

(** [__init__]: [yaml_load] is the outcome of opening and parsing the
    file, [manager_load] of [ConfigurationManager.load_config], and
    [multi_model] of [load_agent_configuration], whose exceptions
    [_load_multi_model_config] turns into [None].  The cost monitor exists
    when the block has a [budget_limit]. *)
Definition __init__ (yaml_load : result Config) (manager_load : result unit)
    (multi_model : result (option AgentModelConfig)) (silent : bool)
  : M ApiParams TaskOrchestrator :=
  do config <- lift yaml_load;
  do num_agents <- lift (and_then (subscript "orchestrator" (orchestrator config))
                           (fun o => subscript "parallel_agents" (parallel_agents o)));
  do task_timeout <- lift (and_then (subscript "orchestrator" (orchestrator config))
                             (fun o => subscript "task_timeout" (task_timeout_key o)));
  do aggregation_strategy <-
     lift (and_then (subscript "orchestrator" (orchestrator config))
             (fun o => subscript "aggregation_strategy" (aggregation_strategy_key o)));
  exec lift manager_load;
  let multi_model_config :=
    match multi_model with
    | Ok c => c
    | Raise _ => None
    end in
  ret {| config := config;
         num_agents := num_agents;
         task_timeout := task_timeout;
         aggregation_strategy := aggregation_strategy;
         silent := silent;
         multi_model_config := multi_model_config;
         budget_limit :=
           match orchestrator config with
           | Some o => budget_limit_key o
           | None => None
           end |}.

(** The same orchestrator with another value of [aggregation_strategy]. *)
Definition with_aggregation_strategy (self : TaskOrchestrator) (strategy : string)
  : TaskOrchestrator :=
  {| config := config self;
     num_agents := num_agents self;
     task_timeout := task_timeout self;
     aggregation_strategy := strategy;
     silent := silent self;
     multi_model_config := multi_model_config self;
     budget_limit := budget_limit self |}.

Definition nonempty (s : string) : bool :=
  match s with EmptyString => false | _ => true end.

Section WithWorld.
Variable rt : Runtime.
Variable w : World.
Variable self : TaskOrchestrator.

Definition provider_model_or_default : string :=
  match get_provider_config w with
  | Ok pc => pc_model pc
  | Raise _ => "deepseek-chat"
  end.

Definition _get_agent_model (agent_id : Z) : string :=
  match multi_model_config self with
  | Some mm =>
      let agent_model := get_agent_model mm agent_id in
      if nonempty agent_model then agent_model else provider_model_or_default
  | None => provider_model_or_default
  end.

Definition _get_synthesis_model : string :=
  match multi_model_config self with
  | Some mm => synthesis_model mm
  | None => provider_model_or_default
  end.

Definition with_model (agent : UniversalAgent) (m : string) : UniversalAgent :=
  {| provider_type := provider_type agent;
     model := m;
     system_prompt := system_prompt agent;
     agent_max_iterations := agent_max_iterations agent;
     tools := tools agent;
     tool_mapping := tool_mapping agent;
     client := client agent |}.

(** The update of [temp_config] writes into a dictionary that no
    modelled function reads afterwards; only the exception that
    [get_provider_config] may raise is kept. *)
Definition _create_agent_with_model (agent_id : Z) (m : string)
  : M ApiParams UniversalAgent :=
  try_except
    (do _ <- lift (get_provider_config w);
     do agent <- lift (new_agent w (ModelAgent agent_id));
     ret (with_model agent m))
    is_Exception
    (fun _ => lift (new_agent w (DefaultAgent agent_id))).

(** The two comprehensions that remove the completion tool. *)
Definition without_completion_tool (agent : UniversalAgent) : UniversalAgent :=
  {| provider_type := provider_type agent;
     model := model agent;
     system_prompt := system_prompt agent;
     agent_max_iterations := agent_max_iterations agent;
     tools := filter (fun t => tool_name t <> Some mark_task_complete) (tools agent);
     tool_mapping := delete mark_task_complete (tool_mapping agent);
     client := client agent |}.

Definition fallback_questions (user_input : string) : list json :=
  [ JStr ("Research comprehensive information about: " ++ user_input);
    JStr ("Analyze and provide insights about: " ++ user_input);
    JStr ("Find alternative perspectives on: " ++ user_input);
    JStr ("Verify and cross-check facts about: " ++ user_input) ].

Definition orchestrator_key {A} (key : string) (field : OrchestratorBlock -> option A)
  : result A :=
  and_then (subscript "orchestrator" (orchestrator (config self)))
           (fun o => subscript key (field o)).

Definition decompose_task (user_input : string) (num_agents : Z) : M ApiParams json :=
  do question_agent <- lift (new_agent w QuestionAgent);
  do prompt_template <-
     lift (orchestrator_key "question_generation_prompt" question_generation_prompt);
  do generation_prompt <-
     lift (str_format rt prompt_template
             [("user_input", user_input); ("num_agents", pretty num_agents)]);
  let question_agent := without_completion_tool question_agent in
  try_except
    (do response <- run rt question_agent (JStr generation_prompt);
     do questions <- lift (json_loads rt (strip response));
     do n <- lift (len questions);
     if negb (n =? num_agents)%Z then
       raise (mk_exn ValueError
                ("Expected " ++ pretty num_agents ++ " questions, got " ++ pretty n))
     else ret questions)
    (fun e => is_JSONDecodeError e || is_ValueError e)
    (fun _ => ret (JArr (slice_to num_agents (fallback_questions user_input)))).

(** [subtask[:50]], evaluated for the progress line of a worker when the
    orchestrator is not silent.  (Slicing a dict raises a [KeyError]
    instead from Python 3.12 on.) *)
Definition slice_check (v : json) : result unit :=
  match v with
  | JStr _ | JArr _ => Ok tt
  | JObj _ => Raise (mk_exn TypeError "unhashable type: 'slice'")
  | _ => Raise (mk_exn TypeError
                  ("'" ++ type_name v ++ "' object is not subscriptable"))
  end.

Definition truthy_cost (c : option Q) : option Q :=
  match c with
  | Some q => if Qeq_bool q 0 then None else Some q
  | None => None
  end.

(** The estimate in exact rationals; the per-agent ledger and the cost
    monitor it also feeds are not read back by the pipeline.  Every
    exception inside it is caught and gives 0.0. *)
Definition _estimate_agent_cost (agent_id : Z) (m : string)
    (input_length output_length : Z) : Q :=
  match get_available_models w with
  | Raise _ => 0%Q
  | Ok available_models =>
      match List.find (fun mi => (mi_id mi =? m)%string) available_models with
      | Some model_info =>
          match truthy_cost (input_cost_per_1m model_info),
                truthy_cost (output_cost_per_1m model_info) with
          | Some input_cost_per_1m, Some output_cost_per_1m =>
              let input_tokens := (input_length / 4)%Z in
              let output_tokens := (output_length / 4)%Z in
              let input_cost :=
                ((inject_Z input_tokens / inject_Z 1000000) * input_cost_per_1m)%Q in
              let output_cost :=
                ((inject_Z output_tokens / inject_Z 1000000) * output_cost_per_1m)%Q in
              (input_cost + output_cost)%Q
          | _, _ => 0%Q
          end
      | None => 0%Q
      end
  end.

(** The record returned by the handler of [run_agent_parallel];
    [agent_model] is [None] until the assignment inside the [try]. *)
Definition error_result (agent_id : Z) (agent_model : option string) (e : exn)
  : AgentResult :=
  let named := match agent_model with
               | Some m => if nonempty m then Some m else None
               | None => None
               end in
  let error_msg := "Agent " ++ pretty agent_id ++ " error" in
  let error_msg := match named with
                   | Some m => error_msg ++ " (model: " ++ m ++ ")"
                   | None => error_msg
                   end in
  let error_msg := error_msg ++ ": " ++ exn_str e in
  {| agent_id := agent_id;
     status := error;
     response := error_msg;
     execution_time := 0%Q;
     result_model := Some (default "unknown" named);
     estimated_cost := Some 0%Q |}.

Definition run_agent_parallel (agent_id : Z) (subtask : json) : M ApiParams AgentResult :=
  match (if silent self then Ok tt else slice_check subtask) with
  | Raise e => ret (error_result agent_id None e)
  | Ok _ =>
      let agent_model := _get_agent_model agent_id in
      try_except
        (do agent <- _create_agent_with_model agent_id agent_model;
         do response <- run rt agent subtask;
         let execution_time := elapsed w agent_id in
         do input_length <- lift (len subtask);
         let estimated_cost :=
           _estimate_agent_cost agent_id agent_model input_length
             (Z.of_nat (str_len response)) in
         ret {| agent_id := agent_id;
                status := success;
                response := response;
                execution_time := execution_time;
                result_model := Some agent_model;
                estimated_cost := Some estimated_cost |})
        is_Exception
        (fun e => ret (error_result agent_id (Some agent_model) e))
  end.

(** The section of the synthesis prompt that lists the responses. *)
Definition agent_responses_text (responses : list string) : string :=
  foldr String.append ""
    (imap (fun (i : nat) response =>
             "=== AGENT " ++ pretty (S i) ++ " RESPONSE ===" ++ nl ++ response ++ nl ++ nl)
          responses).

(** The fallback of the synthesis step. *)
Definition combined (responses : list string) : list string :=
  concat (imap (fun (i : nat) response =>
                  ["=== Agent " ++ pretty (S i) ++ " Response ==="; response; ""])
               responses).

Definition with_tools (agent : UniversalAgent) (ts : list Tool) : UniversalAgent :=
  {| provider_type := provider_type agent;
     model := model agent;
     system_prompt := system_prompt agent;
     agent_max_iterations := agent_max_iterations agent;
     tools := ts;
     tool_mapping := tool_mapping agent;
     client := client agent |}.

(** [_aggregate_consensus] from the choice of the synthesis model up to
    the last [try]: the synthesis agent as it is when [run] is called,
    and the formatted prompt. *)
Definition prepare_synthesis (responses : list string)
  : M ApiParams (UniversalAgent * string) :=
  let synthesis_model := _get_synthesis_model in
  do synthesis_agent <-
     try_except (_create_agent_with_model (-1) synthesis_model)
       is_Exception
       (fun _ => lift (new_agent w SynthesisDefaultAgent));
  let text := agent_responses_text responses in
  do synthesis_prompt_template <-
     lift (orchestrator_key "synthesis_prompt" synthesis_prompt);
  do prompt <-
     lift (str_format rt synthesis_prompt_template
             [("num_responses", pretty (List.length responses));
              ("agent_responses", text)]);
  let synthesis_agent := without_completion_tool synthesis_agent in
  do synthesis_agent <-
     match tools synthesis_agent with
     | [] =>
         do file_type <- lift (file_provider_type w);
         ret (if (file_type =? "deepseek")%string
              then with_tools synthesis_agent [dummy_tool]
              else synthesis_agent)
     | _ => ret synthesis_agent
     end;
  ret (synthesis_agent, prompt).

Definition _aggregate_consensus (responses : list string) (results : list AgentResult)
  : M ApiParams string :=
  match responses with
  | [only] => ret only
  | _ =>
      do prepared <- prepare_synthesis responses;
      try_except
        (run rt (fst prepared) (JStr (snd prepared)))
        is_Exception
        (fun _ => ret (join nl (combined responses)))
  end.

Definition all_failed_message : string :=
  "All agents failed to provide results. Please try again.".

Definition aggregate_results (agent_results : list AgentResult) : M ApiParams string :=
  let successful_results := List.filter is_success agent_results in
  match successful_results with
  | [] => ret all_failed_message
  | _ =>
      let responses := List.map response successful_results in
      if (aggregation_strategy self =? "consensus")%string
      then _aggregate_consensus responses successful_results
      else _aggregate_consensus responses successful_results
  end.

(** [log_execution_summary]: console output only, but the line that
    formats [budget_remaining] raises when the cost monitor holds a
    budget limit of zero, for which that entry of the summary is [None]. *)
Definition log_execution_summary : result unit :=
  if silent self then Ok tt
  else match budget_limit self with
       | Some b =>
           if Qeq_bool b 0
           then Raise (mk_exn TypeError
                         "unsupported format string passed to NoneType.__format__")
           else Ok tt
       | None => Ok tt
       end.

(** [subtasks[i]] *)
Definition item (v : json) (i : Z) : result json :=
  match v with
  | JArr l =>
      let n := Z.of_nat (List.length l) in
      let k := if (i <? 0)%Z then (n + i)%Z else i in
      match (if (k <? 0)%Z then None else l !! Z.to_nat k) with
      | Some x => Ok x
      | None => Raise (mk_exn IndexError "list index out of range")
      end
  | JStr s =>
      let n := Z.of_nat (str_len s) in
      let k := if (i <? 0)%Z then (n + i)%Z else i in
      match (if (k <? 0)%Z then None else chars s !! Z.to_nat k) with
      | Some c => Ok (JStr c)
      | None => Raise (mk_exn IndexError "string index out of range")
      end
  | JObj _ => Raise (mk_exn KeyError (pretty i))
  | _ => Raise (mk_exn TypeError
                  ("'" ++ type_name v ++ "' object is not subscriptable"))
  end.

(** The comprehension that submits one worker per index: the futures
    submitted so far, and the exception that stopped it, if any.  A
    future is the computation of its worker. *)
Fixpoint submit_all (subtasks : json) (ids : list Z)
  : list (Z * M ApiParams AgentResult) * option exn :=
  match ids with
  | [] => ([], None)
  | i :: rest =>
      match item subtasks i with
      | Raise e => ([], Some e)
      | Ok subtask =>
          let '(futures, e) := submit_all subtasks rest in
          ((i, run_agent_parallel i subtask) :: futures, e)
      end
  end.

(** The record appended when [future.result()] raises. *)
Definition timeout_result (agent_id : Z) (e : exn) : AgentResult :=
  {| agent_id := agent_id;
     status := timeout;
     response := "Agent " ++ pretty (agent_id + 1)%Z ++ " timed out or failed: "
                 ++ exn_str e;
     execution_time := task_timeout self;
     result_model := None;
     estimated_cost := None |}.

Definition future_of (futures : list (Z * M ApiParams AgentResult)) (i : Z)
  : option (M ApiParams AgentResult) :=
  snd <$> List.find (fun f => (fst f =? i)%Z) futures.

(** [for future in as_completed(future_to_agent, timeout=...)]: the
    futures that complete before the deadline are handed to the body in
    completion order; if some are left, the iterator raises
    [TimeoutError] in the [for] statement itself. *)
Definition collect (futures : list (Z * M ApiParams AgentResult))
  : result (list AgentResult) :=
  let finished :=
    omap (fun i => (fun m => (i, m)) <$> future_of futures i)
         (remove_dups (arrival w)) in
  let agent_results :=
    List.map (fun '(i, m) =>
                match value m with
                | Ok r => r
                | Raise e => timeout_result i e
                end) finished in
  let total := List.length futures in
  let pending := (total - List.length finished)%nat in
  if (0 <? pending)%nat then
    Raise (mk_exn TimeoutError
             (pretty pending ++ " (of " ++ pretty total ++ ") futures unfinished"))
  else Ok agent_results.

(** The [with ThreadPoolExecutor(max_workers=self.num_agents)] block.
    Leaving the block waits for every submitted worker, so the requests
    of all of them are sent whatever the outcome; they are listed by
    worker index. *)
Definition fan_out (subtasks : json) : M ApiParams (list AgentResult) :=
  if (num_agents self <=? 0)%Z then
    raise (mk_exn ValueError "max_workers must be greater than 0")
  else
    let '(futures, e) := submit_all subtasks (range (num_agents self)) in
    let sent := concat (List.map (fun f => requests (snd f)) futures) in
    match e with
    | Some e => (Raise e, sent)
    | None => (collect futures, sent)
    end.

(** [agent_results.sort(key=lambda x: x["agent_id"])]: a stable sort. *)
Fixpoint insert_by_agent_id (r : AgentResult) (l : list AgentResult) : list AgentResult :=
  match l with
  | [] => [r]
  | x :: l' =>
      if (agent_id r <=? agent_id x)%Z then r :: l
      else x :: insert_by_agent_id r l'
  end.

Definition sort_by_agent_id (l : list AgentResult) : list AgentResult :=
  foldr insert_by_agent_id [] l.

(** The order the sort establishes. *)
Definition by_agent_id (x y : AgentResult) : Prop := (agent_id x <= agent_id y)%Z.

(** [orchestrate]; the [finally] clause only stops the cost monitor. *)
Definition orchestrate (user_input : string) : M ApiParams string :=
  do subtasks <- decompose_task user_input (num_agents self);
  do agent_results <- fan_out subtasks;
  let agent_results := sort_by_agent_id agent_results in
  do final_result <- aggregate_results agent_results;
  exec lift log_execution_summary;
  ret final_result.

End WithWorld.

End Orchestrator.

(** ** Concrete collaborators

    Small runtimes, agents and worlds on which the pipeline is evaluated. *)

Module Scenarios.
Import Py Agent Orchestrator.

Definition dq : string := String (ascii_of_nat 34) EmptyString.

(** The text [["a", "b"]] of a JSON array of two strings. *)
Definition two_questions_text : string :=
  "[" ++ dq ++ "a" ++ dq ++ ", " ++ dq ++ "b" ++ dq ++ "]".

(** [json.loads] on the texts used below: the array above parses, every
    other text used ("not json", the worker answers) is not JSON. *)
Definition loads (s : string) : result json :=
  if (s =? two_questions_text)%string then Ok (JArr [JStr "a"; JStr "b"])
  else Raise (mk_exn JSONDecodeError "Expecting value: line 1 column 1 (char 0)").

(** [str.format] on templates without replacement fields. *)
Definition plain_format (template : string) (kwargs : list (string * string))
  : result string := Ok template.

Definition runtime : Runtime :=
  {| json_loads := loads;
     json_dumps := fun _ => "{}";
     str_format := plain_format |}.

(** A completion with one choice that carries text and no tool call. *)
Definition says (text : string) : ApiParams -> result ChatCompletion :=
  fun _ => Ok {| choices := [ {| content := Some text; tool_calls := [] |} ] |}.

(** A client whose every call fails. *)
Definition fails (msg : string) : ApiParams -> result ChatCompletion :=
  fun _ => Raise (mk_exn Exception msg).

Definition agent_with (provider : string) (iterations : option Z)
    (c : ApiParams -> result ChatCompletion) : UniversalAgent :=
  {| provider_type := provider;
     model := "deepseek-chat";
     system_prompt := "You are a helpful assistant.";
     agent_max_iterations := iterations;
     tools := [];
     tool_mapping := ∅;
     client := c |}.

Definition block : OrchestratorBlock :=
  {| parallel_agents := Some 2;
     task_timeout_key := Some (300 # 1);
     aggregation_strategy_key := Some "consensus";
     question_generation_prompt := Some "Generate questions. Return JSON array.";
     synthesis_prompt := Some "Synthesize the responses.";
     budget_limit_key := None |}.

(** A block without the key [aggregation_strategy]. *)
Definition block_without_strategy : OrchestratorBlock :=
  {| parallel_agents := Some 2;
     task_timeout_key := Some (300 # 1);
     aggregation_strategy_key := None;
     question_generation_prompt := Some "Generate questions. Return JSON array.";
     synthesis_prompt := Some "Synthesize the responses.";
     budget_limit_key := None |}.

Definition orchestrator_for (n : Z) : TaskOrchestrator :=
  {| config := {| orchestrator := Some block |};
     num_agents := n;
     task_timeout := 300 # 1;
     aggregation_strategy := "consensus";
     silent := true;
     multi_model_config := None;
     budget_limit := None |}.

(** A world given by the agent built at each site and the arrival order. *)
Definition world_of (agents : site -> result UniversalAgent) (order : list Z) : World :=
  {| new_agent := agents;
     get_provider_config :=
       Ok {| pc_provider_type := "deepseek"; pc_model := "deepseek-chat" |};
     get_available_models := Ok [];
     file_provider_type := Ok "deepseek";
     arrival := order;
     elapsed := fun _ => 1 # 1 |}.

(** The decomposition model is unreachable. *)
Definition provider_down : World :=
  world_of (fun _ => Ok (agent_with "deepseek" (Some 1) (fails "boom"))) [0; 1].

(** The decomposition model answers with text that is not JSON. *)
Definition malformed : World :=
  world_of (fun _ => Ok (agent_with "deepseek" (Some 1) (says "not json"))) [0; 1].

(** Decomposition yields two questions; the agent of worker 0 cannot reach
    its model, worker 1 answers; what completes in time is [order]. *)
Definition two_workers (order : list Z) : World :=
  world_of (fun s =>
              match s with
              | QuestionAgent => Ok (agent_with "deepseek" (Some 1) (says two_questions_text))
              | ModelAgent 0 => Ok (agent_with "deepseek" (Some 1) (fails "rate limit"))
              | _ => Ok (agent_with "deepseek" (Some 1) (says "Answer 2"))
              end) order.

(** Both workers answer; the synthesis model is unreachable. *)
Definition synthesis_down : World :=
  world_of (fun s =>
              match s with
              | QuestionAgent => Ok (agent_with "deepseek" (Some 1) (says two_questions_text))
              | ModelAgent 0 => Ok (agent_with "deepseek" (Some 1) (says "Answer 1"))
              | ModelAgent 1 => Ok (agent_with "deepseek" (Some 1) (says "Answer 2"))
              | _ => Ok (agent_with "deepseek" (Some 1) (fails "boom"))
              end) [1; 0].

End Scenarios.

(** ** Further observations

    Definitions used to state properties of the pipeline as a whole. *)

Module Observations.
Import Py Agent Orchestrator.

(** The same world with another order of completion. *)
Definition with_arrival (w : World) (order : list Z) : World :=
  {| new_agent := new_agent w;
     get_provider_config := get_provider_config w;
     get_available_models := get_available_models w;
     file_provider_type := file_provider_type w;
     arrival := order;
     elapsed := elapsed w |}.

(** The request offers a tool of the given name to the model. *)
Definition offers (name : string) (p : ApiParams) : bool :=
  match p_tools p with
  | Some ts => existsb (fun t => bool_decide (tool_name t = Some name)) ts
  | None => false
  end.

(** The number of calls the second loop over the tool calls handles: all
    those before the first call of the completion tool, and that call. *)
Fixpoint handled (calls : list ToolCall) : nat :=
  match calls with
  | [] => 0
  | tool_call :: rest =>
      if (tc_name tool_call =? mark_task_complete)%string then 1
      else S (handled rest)
  end.

(** The records of the workers by index: that of worker [i], run on the
    sub-question [i], at position [i]. *)
Definition worker_records (rt : Runtime) (w : World) (self : TaskOrchestrator)
    (questions : list json) : list AgentResult :=
  imap (fun (i : nat) question =>
          match value (run_agent_parallel rt w self (Z.of_nat i) question) with
          | Ok r => r
          | Raise e => timeout_result self (Z.of_nat i) e
          end) questions.

End Observations.

(** * Provider configuration and agent construction

    [config_manager.py], [provider_factory.py] and [UniversalAgent.__init__]
    of [agent.py].  The YAML document is a mapping with string keys, or
    [None] for an empty file; the values under the keys are arbitrary. *)

Module Provider.
Import Py.

(** [bool(v)] *)
Definition truthy (v : json) : bool :=
  match v with
  | JNull => false
  | JBool b => b
  | JInt n => negb (n =? 0)%Z
  | JFloat q => negb (Qeq_bool q 0)
  | JStr s => match s with EmptyString => false | _ => true end
  | JArr l => match l with [] => false | _ => true end
  | JObj o => negb (size o =? 0)%nat
  end.

(** [v[key]] for a string key.  (The message for a string is the one of
    Python 3.11 and later.) *)
Definition getitem (v : json) (key : string) : result json :=
  match v with
  | JObj o =>
      match o !! key with
      | Some x => Ok x
      | None => Raise (mk_exn KeyError ("'" ++ key ++ "'"))
      end
  | JStr _ => Raise (mk_exn TypeError "string indices must be integers, not 'str'")
  | JArr _ => Raise (mk_exn TypeError "list indices must be integers or slices, not str")
  | _ => Raise (mk_exn TypeError ("'" ++ type_name v ++ "' object is not subscriptable"))
  end.

(** [v == s] for a string [s] *)
Definition eq_str (v : json) (s : string) : bool :=
  match v with
  | JStr t => (t =? s)%string
  | _ => false
  end.

(** [v in strings] *)
Definition in_strs (v : json) (strings : list string) : bool :=
  existsb (eq_str v) strings.

Definition SUPPORTED_PROVIDERS : list string := ["openrouter"; "deepseek"].

Record ProviderConfig : Type := {
  provider_type : string;
  api_key : json;
  base_url : json;
  model : json;
  additional_params : gmap string json
}.

Section WithRepr.
(** [str(v)] of a float, a list or a dictionary *)
Variable repr : json -> string.

(** [str(v)], as an f-string formats a value *)
Definition str (v : json) : string :=
  match v with
  | JStr s => s
  | JNull => "None"
  | JBool true => "True"
  | JBool false => "False"
  | JInt n => pretty n
  | _ => repr v
  end.

(** [ProviderConfig(provider_type=t, api_key=section.get('api_key', ''), ...)] *)
Definition provider_config_of (t : string) (section : json) : result ProviderConfig :=
  match section with
  | JObj o =>
      Ok {| provider_type := t;
            api_key := default (JStr "") (o !! "api_key");
            base_url := default (JStr "") (o !! "base_url");
            model := default (JStr "") (o !! "model");
            additional_params := o |}
  | _ => Raise (mk_exn AttributeError
                  ("'" ++ type_name section ++ "' object has no attribute 'get'"))
  end.

(** [ConfigurationManager.get_provider_config] *)
Definition get_provider_config (config : option (gmap string json))
  : result ProviderConfig :=
  match config with
  | None => Raise (mk_exn ConfigurationError "Configuration not loaded")
  | Some config =>
      if (size config =? 0)%nat then
        Raise (mk_exn ConfigurationError "Configuration not loaded")
      else
        match config !! "provider" with
        | Some provider =>
            and_then (getitem provider "type")
              (fun provider_type =>
                 if negb (in_strs provider_type SUPPORTED_PROVIDERS) then
                   Raise (mk_exn ConfigurationError
                            ("Unsupported provider: " ++ str provider_type))
                 else
                   provider_config_of (str provider_type)
                     (default (JObj ∅) (config !! str provider_type)))
        | None =>
            match config !! "openrouter" with
            | Some openrouter_config => provider_config_of "openrouter" openrouter_config
            | None =>
                Raise (mk_exn ConfigurationError "No valid provider configuration found")
            end
        end
  end.

(** [ProviderConfig.validate] *)
Definition validate (self : ProviderConfig) : result bool :=
  if negb (truthy (api_key self)) then
    Raise (mk_exn ConfigurationError ("API key is required for " ++ provider_type self))
  else if negb (truthy (base_url self)) then
    Raise (mk_exn ConfigurationError ("Base URL is required for " ++ provider_type self))
  else if negb (truthy (model self)) then
    Raise (mk_exn ConfigurationError ("Model is required for " ++ provider_type self))
  else Ok true.

(** [ConfigurationManager.validate_provider_config] *)
Definition manager_validate_provider_config (config : option (gmap string json))
    (t : string) : result bool :=
  if negb (existsb (String.eqb t) SUPPORTED_PROVIDERS) then
    Raise (mk_exn ConfigurationError ("Unsupported provider: " ++ t))
  else
    and_then (get_provider_config config)
      (fun provider_config =>
         if negb (provider_type provider_config =? t)%string then
           Raise (mk_exn ConfigurationError
                    ("Expected " ++ t ++ ", got " ++ provider_type provider_config))
         else validate provider_config).

(** The loop over [required_fields]: the first field whose value is
    missing or false. *)
Fixpoint missing_field (config : gmap string json) (required_fields : list string)
  : option string :=
  match required_fields with
  | [] => None
  | field :: rest =>
      if negb (truthy (default JNull (config !! field))) then Some field
      else missing_field config rest
  end.

Definition required_fields : list string := ["api_key"; "base_url"; "model"].

Definition validate_deepseek_config (config : gmap string json) : result bool :=
  match missing_field config required_fields with
  | Some field =>
      Raise (mk_exn ConfigurationError
               ("DeepSeek configuration missing required field: " ++ field))
  | None =>
      and_then (getitem (JObj config) "base_url")
        (fun url =>
           if negb (eq_str url "https://api.deepseek.com") then
             Raise (mk_exn ConfigurationError
                      "DeepSeek base_url should be 'https://api.deepseek.com'")
           else
             and_then (getitem (JObj config) "model")
               (fun m =>
                  if negb (in_strs m ["deepseek-chat"; "deepseek-reasoner"]) then
                    Raise (mk_exn ConfigurationError
                             "DeepSeek model must be one of: ['deepseek-chat', 'deepseek-reasoner']")
                  else Ok true))
  end.

Definition validate_openrouter_config (config : gmap string json) : result bool :=
  match missing_field config required_fields with
  | Some field =>
      Raise (mk_exn ConfigurationError
               ("OpenRouter configuration missing required field: " ++ field))
  | None =>
      and_then (getitem (JObj config) "base_url")
        (fun url =>
           if negb (in_strs url ["https://openrouter.ai/api/v1";
                                 "https://openrouter.ai/api/v1/"]) then
             Raise (mk_exn ConfigurationError
                      "OpenRouter base_url should be 'https://openrouter.ai/api/v1'")
           else Ok true)
  end.

(** [ProviderClientFactory.validate_provider_config] *)
Definition validate_provider_config (t : string) (config : gmap string json)
  : result bool :=
  if negb (existsb (String.eqb t) SUPPORTED_PROVIDERS) then
    Raise (mk_exn ConfigurationError ("Unsupported provider: " ++ t))
  else if (t =? "deepseek")%string then validate_deepseek_config config
  else if (t =? "openrouter")%string then validate_openrouter_config config
  else Ok true.

Definition Client : Type := Agent.ApiParams -> result Agent.ChatCompletion.

(** [OpenAI(api_key=..., base_url=...)] *)
Variable OpenAI : json -> json -> result Client.

(** [ProviderClientFactory.create_client] *)
Definition create_client (provider_config : ProviderConfig) : result Client :=
  match and_then (validate_provider_config (provider_type provider_config)
                    (additional_params provider_config))
          (fun _ => OpenAI (api_key provider_config) (base_url provider_config)) with
  | Ok client => Ok client
  | Raise e =>
      let t := provider_type provider_config in
      if (t =? "deepseek")%string then
        Raise (mk_exn DeepSeekAPIError ("Failed to create DeepSeek client: " ++ exn_str e))
      else if (t =? "openrouter")%string then
        Raise (mk_exn OpenRouterAPIError
                 ("Failed to create OpenRouter client: " ++ exn_str e))
      else
        Raise (mk_exn ProviderError
                 ("Failed to create client for " ++ t ++ ": " ++ exn_str e))
  end.

(** [except (ConfigurationError, ProviderError)], with the subclasses of
    [ProviderError] *)
Definition is_ConfigurationError (e : exn) : bool :=
  match exn_cls e with
  | ConfigurationError => true
  | _ => false
  end.

Definition is_ProviderError (e : exn) : bool :=
  match exn_cls e with
  | ProviderError | DeepSeekAPIError | OpenRouterAPIError => true
  | _ => false
  end.

(** Keys of a dictionary are hashed when they are looked up. *)
Definition hash_check (v : json) : result unit :=
  match v with
  | JArr _ | JObj _ =>
      Raise (mk_exn TypeError ("unhashable type: '" ++ type_name v ++ "'"))
  | _ => Ok tt
  end.

Definition deepseek_model (name : string) (input output : Q) (features : list string)
  : gmap string json :=
  list_to_map
    [ ("name", JStr name);
      ("context_window", JInt 64000);
      ("supports_function_calling", JBool true);
      ("supports_json_output", JBool true);
      ("cost_per_1m_input_tokens", JFloat input);
      ("cost_per_1m_output_tokens", JFloat output);
      ("special_features", JArr (JStr <$> features)) ].

Definition openrouter_default : gmap string json :=
  list_to_map
    [ ("name", JStr "Various Models");
      ("context_window", JStr "Varies by model");
      ("supports_function_calling", JBool true);
      ("supports_json_output", JBool true);
      ("cost_per_1m_input_tokens", JStr "Varies by model");
      ("cost_per_1m_output_tokens", JStr "Varies by model");
      ("special_features", JArr [JStr "Multiple model access"]) ].

(** [ProviderClientFactory.get_model_info] *)
Definition get_model_info (t : string) (model_name : json) : result (gmap string json) :=
  let provider_models : gmap string (gmap string json) :=
    if (t =? "deepseek")%string then
      list_to_map
        [ ("deepseek-chat",
           deepseek_model "DeepSeek-V3" (27 # 100) (110 # 100)
             ["Context caching"; "Off-peak pricing"]);
          ("deepseek-reasoner",
           deepseek_model "DeepSeek-R1" (55 # 100) (219 # 100)
             ["Advanced reasoning"; "Context caching"; "Off-peak pricing"]) ]
    else if (t =? "openrouter")%string then
      list_to_map [ ("default", openrouter_default) ]
    else ∅ in
  and_then (hash_check model_name)
    (fun _ =>
       Ok (match model_name with
           | JStr name =>
               default (default ∅ (provider_models !! "default")) (provider_models !! name)
           | _ => default ∅ (provider_models !! "default")
           end)).

(** [ProviderClientFactory.get_provider_info] *)
Definition get_provider_info (t : string) : gmap string string :=
  if (t =? "deepseek")%string then
    list_to_map
      [ ("name", "DeepSeek");
        ("description", "DeepSeek AI API with competitive pricing");
        ("base_url", "https://api.deepseek.com");
        ("models", "deepseek-chat, deepseek-reasoner");
        ("features", "Function calling, JSON output, competitive pricing") ]
  else if (t =? "openrouter")%string then
    list_to_map
      [ ("name", "OpenRouter");
        ("description", "OpenRouter API with access to multiple models");
        ("base_url", "https://openrouter.ai/api/v1");
        ("models", "Various (GPT-4, Claude, Gemini, etc.)");
        ("features", "Multiple model access, function calling") ]
  else ∅.

(** The attributes set by [UniversalAgent.__init__]; [provider_type] is
    the one of the provider configuration. *)
Record Initialized : Type := {
  init_config : option (gmap string json);
  init_provider_config : ProviderConfig;
  init_client : Client;
  init_provider_info : gmap string string;
  init_model_info : gmap string json;
  init_tools : list Agent.Tool;
  init_tool_mapping : gmap string (gmap string json -> result json)
}.

(** [UniversalAgent.__init__]: [load_config] is the outcome of
    [ConfigurationManager.load_config], [discover_tools] the tool discovery
    with, per tool, its name, its schema and its [execute]. *)
Definition __init__
    (load_config : result (option (gmap string json)))
    (discover_tools :
       option (gmap string json) ->
       result (list (string * (Agent.Tool * (gmap string json -> result json)))))
  : result Initialized :=
  match
    and_then load_config (fun config =>
    and_then (get_provider_config config) (fun provider_config =>
    and_then (create_client provider_config) (fun client =>
    and_then (get_model_info (provider_type provider_config) (model provider_config))
      (fun model_info => Ok (config, provider_config, client, model_info)))))
  with
  | Raise e =>
      if is_ConfigurationError e || is_ProviderError e then
        Raise (mk_exn Exception ("Agent initialization failed: " ++ exn_str e))
      else Raise e
  | Ok (config, provider_config, client, model_info) =>
      and_then (discover_tools config)
        (fun discovered_tools =>
           Ok {| init_config := config;
                 init_provider_config := provider_config;
                 init_client := client;
                 init_provider_info := get_provider_info (provider_type provider_config);
                 init_model_info := model_info;
                 init_tools := (fun tool => fst (snd tool)) <$> discovered_tools;
                 init_tool_mapping :=
                   list_to_map ((fun tool => (fst tool, snd (snd tool)))
                                  <$> discovered_tools) |})
  end.

(** [UniversalAgent.get_provider_info] *)
Definition agent_get_provider_info (self : Initialized) : gmap string json :=
  let provider_config := init_provider_config self in
  list_to_map
    [ ("provider_type", JStr (provider_type provider_config));
      ("provider_name",
       JStr (default (provider_type provider_config) (init_provider_info self !! "name")));
      ("model", model provider_config);
      ("model_name", default (model provider_config) (init_model_info self !! "name"));
      ("base_url", base_url provider_config);
      ("supports_function_calling",
       default (JBool true) (init_model_info self !! "supports_function_calling"));
      ("context_window",
       default (JStr "Unknown") (init_model_info self !! "context_window")) ].

End WithRepr.

End Provider.

(** * The data models of the multi-model configuration

    [model_config/data_models.py]. *)

Module DataModels.
Import Py.

(** [ModelInfo]; [created] is left out, nothing below reads it. *)
Record ModelInfo : Type := {
  id : string;
  name : string;
  provider : string;
  supports_function_calling : bool;
  context_window : Z;
  input_cost_per_1m : option Q;
  output_cost_per_1m : option Q;
  description : string;
  capabilities : list string;
  max_tokens : option Z
}.

(** [ModelInfo.__post_init__] *)
Definition __post_init__ (self : ModelInfo) : result unit :=
  match id self with
  | EmptyString => Raise (mk_exn ValueError "Model ID cannot be empty")
  | _ =>
      match name self with
      | EmptyString => Raise (mk_exn ValueError "Model name cannot be empty")
      | _ =>
          match provider self with
          | EmptyString => Raise (mk_exn ValueError "Provider cannot be empty")
          | _ => Ok tt
          end
      end
  end.

(** [AgentModelConfig], with all its fields. *)
Record AgentModelConfig : Type := {
  agent_0_model : string;
  agent_1_model : string;
  agent_2_model : string;
  agent_3_model : string;
  synthesis_model : string;
  default_model : string;
  profile_name : string
}.

Definition get_agent_model (self : AgentModelConfig) (agent_id : Z) : string :=
  let agent_models : gmap Z string :=
    list_to_map [ (0, agent_0_model self); (1, agent_1_model self);
                  (2, agent_2_model self); (3, agent_3_model self) ] in
  default (default_model self) (agent_models !! agent_id).

Definition to_dict (self : AgentModelConfig) : gmap string string :=
  list_to_map
    [ ("agent_0_model", agent_0_model self);
      ("agent_1_model", agent_1_model self);
      ("agent_2_model", agent_2_model self);
      ("agent_3_model", agent_3_model self);
      ("synthesis_model", synthesis_model self);
      ("default_model", default_model self);
      ("profile_name", profile_name self) ].

Definition from_dict (data : gmap string string) : AgentModelConfig :=
  {| agent_0_model := default "" (data !! "agent_0_model");
     agent_1_model := default "" (data !! "agent_1_model");
     agent_2_model := default "" (data !! "agent_2_model");
     agent_3_model := default "" (data !! "agent_3_model");
     synthesis_model := default "" (data !! "synthesis_model");
     default_model := default "" (data !! "default_model");
     profile_name := default "custom" (data !! "profile_name") |}.

(** [ConfigurationProfile]; its fields [name] and [description] are
    [profile_title] and [profile_description] here. *)
Record ConfigurationProfile : Type := {
  profile_title : string;
  profile_description : string;
  config : AgentModelConfig;
  estimated_cost_per_query : option Q
}.

(** The configuration that every profile builds: one model in every slot. *)
Definition uniform (model profile : string) : AgentModelConfig :=
  {| agent_0_model := model;
     agent_1_model := model;
     agent_2_model := model;
     agent_3_model := model;
     synthesis_model := model;
     default_model := model;
     profile_name := profile |}.

(** A sort key: a cost, or [float('inf')] as [None]. *)
Definition key_lt (x y : option Q) : bool :=
  match x, y with
  | Some a, Some b => negb (Qle_bool b a)
  | Some _, None => true
  | None, _ => false
  end.

(** The order of the keys as a sort sees it: [x <= y] when [y < x] does
    not hold. *)
Definition key_le {A} (key : A -> option Q) (x y : A) : Prop :=
  key_lt (key y) (key x) = false.

(** [sorted(l, key=key)]: a stable sort that compares keys with [<]. *)
Fixpoint insert_sorted {A} (key : A -> option Q) (x : A) (l : list A) : list A :=
  match l with
  | [] => [x]
  | y :: l' =>
      if key_lt (key y) (key x) then y :: insert_sorted key x l'
      else x :: l
  end.

Definition sorted {A} (key : A -> option Q) (l : list A) : list A :=
  foldr (insert_sorted key) [] l.

(** [max(l, key=key)] on a list that is not empty: the first of the
    greatest elements. *)
Fixpoint max_by {A} (key : A -> option Q) (best : A) (l : list A) : A :=
  match l with
  | [] => best
  | y :: l' => max_by key (if key_lt (key best) (key y) then y else best) l'
  end.

Definition has_cost (m : ModelInfo) : bool :=
  match input_cost_per_1m m with Some _ => true | None => false end.

(** [x.input_cost_per_1m or float('inf')] *)
Definition budget_key (m : ModelInfo) : option Q :=
  match input_cost_per_1m m with
  | Some c => if Qeq_bool c 0 then None else Some c
  | None => None
  end.

Definition create_budget_profile (available_models : list ModelInfo)
  : result ConfigurationProfile :=
  let budget_models :=
    sorted budget_key
      (List.filter (fun m => supports_function_calling m && has_cost m)
         available_models) in
  match budget_models with
  | [] => Raise (mk_exn ValueError "No suitable models found for budget profile")
  | cheapest :: _ =>
      Ok {| profile_title := "Budget";
            profile_description :=
              "Cost-optimized configuration using the cheapest available models";
            config := uniform (id cheapest) "budget";
            estimated_cost_per_query := None |}
  end.

Definition create_balanced_profile (available_models : list ModelInfo)
  : result ConfigurationProfile :=
  let function_calling_models := List.filter supports_function_calling available_models in
  match function_calling_models with
  | [] => Raise (mk_exn ValueError "No suitable models found for balanced profile")
  | first :: _ =>
      let models_with_cost := List.filter has_cost function_calling_models in
      let balanced_model :=
        match models_with_cost with
        | [] => id first
        | m :: _ =>
            let models_with_cost := sorted input_cost_per_1m models_with_cost in
            let mid_index := (List.length models_with_cost / 2)%nat in
            id (nth mid_index models_with_cost m)
        end in
      Ok {| profile_title := "Balanced";
            profile_description :=
              "Balanced configuration optimizing cost and performance";
            config := uniform balanced_model "balanced";
            estimated_cost_per_query := None |}
  end.

Definition create_premium_profile (available_models : list ModelInfo)
  : result ConfigurationProfile :=
  let function_calling_models := List.filter supports_function_calling available_models in
  match function_calling_models with
  | [] => Raise (mk_exn ValueError "No suitable models found for premium profile")
  | first :: _ =>
      let models_with_cost := List.filter has_cost function_calling_models in
      let premium_model :=
        match models_with_cost with
        | [] => id first
        | m :: rest => id (max_by input_cost_per_1m m rest)
        end in
      Ok {| profile_title := "Premium";
            profile_description :=
              "High-performance configuration using the best available models";
            config := uniform premium_model "premium";
            estimated_cost_per_query := None |}
  end.

(** The configuration as the orchestrator holds it: the record of the
    module [Orchestrator] leaves out [profile_name], which it never
    reads. *)
Definition as_loaded (c : AgentModelConfig) : Orchestrator.AgentModelConfig :=
  {| Orchestrator.agent_0_model := agent_0_model c;
     Orchestrator.agent_1_model := agent_1_model c;
     Orchestrator.agent_2_model := agent_2_model c;
     Orchestrator.agent_3_model := agent_3_model c;
     Orchestrator.synthesis_model := synthesis_model c;
     Orchestrator.default_model := default_model c |}.

End DataModels.

(** * Progress tracking

    [update_agent_progress], [get_progress_status] and the updates that
    [run_agent_parallel] makes: the worker once more, logging its progress
    updates among its requests. *)

Module Progress.
Import Py Agent Orchestrator.

Inductive Event : Type :=
  | Request (p : ApiParams)
  | Update (agent_id : Z) (status : string).

(** A computation of the agent inside the worker. *)
Definition traced {A} (m : M ApiParams A) : M Event A :=
  (value m, Request <$> requests m).

(** [update_agent_progress] without a result: the assignment to
    [agent_progress[agent_id]]. *)
Definition update_agent_progress (agent_id : Z) (status : string) : M Event unit :=
  emit (Update agent_id status).

Definition run_agent_parallel (rt : Runtime) (w : World) (self : TaskOrchestrator)
    (agent_id : Z) (subtask : json) : M Event AgentResult :=
  match (if silent self then Ok tt else slice_check subtask) with
  | Raise e => ret (error_result agent_id None e)
  | Ok _ =>
      exec update_agent_progress agent_id "PROCESSING...";
      let agent_model := _get_agent_model w self agent_id in
      try_except
        (do agent <- traced (_create_agent_with_model w agent_id agent_model);
         do response <- traced (run rt agent subtask);
         let execution_time := elapsed w agent_id in
         exec update_agent_progress agent_id "COMPLETED";
         do input_length <- lift (len subtask);
         let estimated_cost :=
           _estimate_agent_cost w agent_id agent_model input_length
             (Z.of_nat (str_len response)) in
         ret {| agent_id := agent_id;
                status := success;
                response := response;
                execution_time := execution_time;
                result_model := Some agent_model;
                estimated_cost := Some estimated_cost |})
        is_Exception
        (fun e => ret (error_result agent_id (Some agent_model) e))
  end.

(** The requests among the events. *)
Definition sent (log : list Event) : list ApiParams :=
  omap (fun ev => match ev with Request p => Some p | Update _ _ => None end) log.

(** [get_progress_status()] after the events, from the dictionary
    [progress]. *)
Definition get_progress_status (progress : gmap Z string) (log : list Event)
  : gmap Z string :=
  foldl (fun progress ev =>
           match ev with
           | Update agent_id status => <[agent_id := status]> progress
           | Request _ => progress
           end) progress log.

End Progress.

(** * The callers of the orchestrator

    [make_it_heavy.py] ([OrchestratorCLI]) and [gui/agent_manager.py]
    ([AgentManager]). *)

Module Cli.
Import Py Agent Orchestrator.

(** [int(x)] on a number: truncation towards zero. *)
Definition int (x : Q) : Z := if Qle_bool 0 x then Qfloor x else Qceiling x.

(** [x // y] and [x % y] for a positive integer [y], on the numbers for
    which Python computes them exactly: the integers, and the floats below
    2^53 (the remainder of two floats is exact, and the difference that is
    divided is then an integer below 2^53).  From 2^53 on the float
    operations round and are not described. *)
Definition floordiv (x y : Q) : Q := inject_Z (Qfloor (x / y)).
Definition modulo (x y : Q) : Q := (x - y * floordiv x y)%Q.

(** [format_time]; [seconds] is the number the display passes, a
    difference of two clock readings, below 2^53. *)
Definition format_time (seconds : Q) : string :=
  if negb (Qle_bool 60 seconds) then
    pretty (int seconds) ++ "S"
  else if negb (Qle_bool 3600 seconds) then
    let minutes := int (floordiv seconds 60) in
    let secs := int (modulo seconds 60) in
    pretty minutes ++ "M" ++ pretty secs ++ "S"
  else
    let hours := int (floordiv seconds 3600) in
    let minutes := int (floordiv (modulo seconds 3600) 60) in
    pretty hours ++ "H" ++ pretty minutes ++ "M".

(** [run_task]: the progress thread and the display only print; [None]
    is the value returned by the handler. *)
Definition run_task (rt : Runtime) (w : World) (self : TaskOrchestrator)
    (user_input : string) : M ApiParams (option string) :=
  try_except
    (do result <- orchestrate rt w self user_input;
     ret (Some result))
    is_Exception
    (fun _ => ret None).

End Cli.

Module Gui.
Import Py Agent Orchestrator.

(** [run_single_agent]; [new] is the outcome of
    [UniversalAgent(config_path=self.config_path, silent=True)]. *)
Definition run_single_agent (rt : Runtime) (new : result UniversalAgent)
    (message : string) : M ApiParams string :=
  try_except
    (do agent <- lift new;
     run rt agent (JStr message))
    is_Exception
    (fun e => raise (mk_exn Exception ("Single agent execution failed: " ++ exn_str e))).

(** [run_heavy_mode] with no progress callback set; [new] is the outcome
    of [TaskOrchestrator(config_path=self.config_path, silent=True)].  The
    progress records it keeps are only handed to that callback. *)
Definition run_heavy_mode (rt : Runtime) (w : World) (new : M ApiParams TaskOrchestrator)
    (message : string) : M ApiParams string :=
  try_except
    (do orchestrator <- new;
     orchestrate rt w orchestrator message)
    is_Exception
    (fun e => raise (mk_exn Exception ("Heavy mode execution failed: " ++ exn_str e))).

(** [run_async]: what the background thread hands to the completion
    callback. *)
Definition run_async (rt : Runtime) (w : World) (current_mode : string)
    (new_agent : result UniversalAgent) (new_orchestrator : M ApiParams TaskOrchestrator)
    (message : string) : M ApiParams string :=
  try_except
    (if (current_mode =? "single")%string
     then run_single_agent rt new_agent message
     else run_heavy_mode rt w new_orchestrator message)
    is_Exception
    (fun e => ret ("Error: " ++ exn_str e)).

End Gui.

(** * Further concrete runs *)

Module Cases.
Import Py Agent Orchestrator.

(** A multi-model configuration that assigns a model to the workers 0
    and 1 only. *)
Definition models : AgentModelConfig :=
  {| agent_0_model := "model-a";
     agent_1_model := "model-b";
     agent_2_model := "";
     agent_3_model := "";
     synthesis_model := "model-s";
     default_model := "model-d" |}.

Definition orchestrator_with_models (n : Z) : TaskOrchestrator :=
  {| config := {| orchestrator := Some Scenarios.block |};
     num_agents := n;
     task_timeout := 300 # 1;
     aggregation_strategy := "consensus";
     silent := true;
     multi_model_config := Some models;
     budget_limit := None |}.

(** The configuration file cannot be opened when a worker builds its
    agent, and can when the fallback builds the default agent. *)
Definition transient_failure : World :=
  Scenarios.world_of
    (fun s =>
       match s with
       | ModelAgent _ =>
           Raise (mk_exn Exception
                    "Agent initialization failed: Error loading configuration: busy")
       | _ => Ok (Scenarios.agent_with "deepseek" (Some 1) (Scenarios.says "Answer"))
       end) [0; 1].

(** A configuration file for DeepSeek, in the format with a [provider]
    section. *)
Definition deepseek_section (url : string) : json :=
  JObj (list_to_map [ ("api_key", JStr "sk-1");
                      ("base_url", JStr url);
                      ("model", JStr "deepseek-chat") ]).

Definition deepseek_file (url : string) : option (gmap string json) :=
  Some (list_to_map
          [ ("provider", JObj (list_to_map [ ("type", JStr "deepseek") ]));
            ("deepseek", deepseek_section url) ]).

(** A file in the legacy format, with an [openrouter] section only. *)
Definition legacy_file : option (gmap string json) :=
  Some (list_to_map
          [ ("openrouter",
             JObj (list_to_map [ ("api_key", JStr "sk-2");
                                 ("base_url", JStr "https://openrouter.ai/api/v1");
                                 ("model", JStr "openai/gpt-4") ])) ]).

(** A [provider] section without the key [type]. *)
Definition untyped_file : option (gmap string json) :=
  Some (list_to_map [ ("provider", JObj ∅) ]).

Definition repr (v : json) : string := "...".

Definition OpenAI (api_key base_url : json) : result Provider.Client :=
  Ok (Scenarios.says "ok").

Definition no_tools (config : option (gmap string json))
  : result (list (string * (Tool * (gmap string json -> result json)))) := Ok [].

(** A model of the catalogue, by its id, its support for function calling
    and its cost per million tokens. *)
Definition model_info (model_id : string) (calls : bool) (cost : option Q)
  : DataModels.ModelInfo :=
  {| DataModels.id := model_id;
     DataModels.name := model_id;
     DataModels.provider := "openrouter";
     DataModels.supports_function_calling := calls;
     DataModels.context_window := 8192;
     DataModels.input_cost_per_1m := cost;
     DataModels.output_cost_per_1m := cost;
     DataModels.description := "";
     DataModels.capabilities := [];
     DataModels.max_tokens := None |}.

(** A free model and a paid one, both with function calling. *)
Definition catalogue : list DataModels.ModelInfo :=
  [ model_info "free" true (Some (0 # 1)); model_info "paid" true (Some (1 # 1)) ].

(** An orchestrator that prints, with a budget limit of zero. *)
Definition zero_budget : TaskOrchestrator :=
  {| config := {| orchestrator := Some Scenarios.block |};
     num_agents := 2;
     task_timeout := 300 # 1;
     aggregation_strategy := "consensus";
     silent := false;
     multi_model_config := None;
     budget_limit := Some (0 # 1) |}.

(** No provider configuration can be read. *)
Definition unconfigured : World :=
  {| new_agent := fun _ => Raise (mk_exn Exception "Agent initialization failed: x");
     get_provider_config :=
       Raise (mk_exn ConfigurationError "No valid provider configuration found");
     get_available_models := Ok [];
     file_provider_type := Ok "deepseek";
     arrival := [];
     elapsed := fun _ => 1 # 1 |}.

(** An orchestrator that has loaded the budget profile of the catalogue. *)
Definition budget_orchestrator : TaskOrchestrator :=
  {| config := {| orchestrator := Some Scenarios.block |};
     num_agents := 4;
     task_timeout := 300 # 1;
     aggregation_strategy := "consensus";
     silent := true;
     multi_model_config := Some (DataModels.as_loaded (DataModels.uniform "paid" "budget"));
     budget_limit := None |}.

(** The provider configuration names a model of its own. *)
Definition named_provider : World :=
  {| new_agent := fun _ => Ok (Scenarios.agent_with "openrouter" (Some 1)
                                 (Scenarios.says "Answer"));
     get_provider_config :=
       Ok {| pc_provider_type := "openrouter"; pc_model := "provider-model" |};
     get_available_models := Ok [];
     file_provider_type := Ok "openrouter";
     arrival := [0; 1];
     elapsed := fun _ => 1 # 1 |}.

(** The decomposition model answers with the array of two questions
    between two no-break spaces (U+00A0). *)
Definition padded : World :=
  Scenarios.world_of
    (fun _ => Ok (Scenarios.agent_with "deepseek" (Some 1)
                    (Scenarios.says (bytes [194; 160]%nat ++ Scenarios.two_questions_text
                                     ++ bytes [194; 160]%nat))))
    [0; 1].

End Cases.

(** * Properties of the pipeline *)

Import Py Agent Orchestrator.

(** ** Values and requests of composed computations *)

Section Computations.
Context {E A B : Type}.
Implicit Types (m : M E A) (k : A -> M E B).

Lemma value_bind m k :
  value (bind m k) =
  match value m with
  | Ok a => value (k a)
  | Raise e => Raise e
  end.
Proof. destruct m as [[a|e] l]; simpl; [destruct (k a)|]; reflexivity. Qed.

Lemma requests_bind m k :
  requests (bind m k) =
  (requests m ++ match value m with
                 | Ok a => requests (k a)
                 | Raise _ => []
                 end)%list.
Proof.
  destruct m as [[a|e] l]; simpl; [destruct (k a); reflexivity|].
  symmetry; apply app_nil_r.
Qed.

Lemma value_try_except m catches (h : exn -> M E A) :
  value (try_except m catches h) =
  match value m with
  | Ok a => Ok a
  | Raise e => if catches e then value (h e) else Raise e
  end.
Proof.
  destruct m as [[a|e] l]; simpl; [reflexivity|].
  destruct (catches e); [destruct (h e)|]; reflexivity.
Qed.

Lemma requests_try_except m catches (h : exn -> M E A) :
  requests (try_except m catches h) =
  (requests m ++ match value m with
                 | Ok _ => []
                 | Raise e => if catches e then requests (h e) else []
                 end)%list.
Proof.
  destruct m as [[a|e] l]; simpl; [symmetry; apply app_nil_r|].
  destruct (catches e); [destruct (h e); reflexivity|].
  symmetry; apply app_nil_r.
Qed.

End Computations.

(** ** Construction *)

(** C10. Construction reads the keys [parallel_agents], [task_timeout] and
    [aggregation_strategy] of the orchestrator block: when one of them is
    missing it raises a [KeyError] and no request has been sent, and a
    construction that succeeds has found all three.  The value of
    [aggregation_strategy] makes no difference to [aggregate_results]. *)
Theorem C10_construction_requires_three_keys
    (cfg : Config) (o : OrchestratorBlock) (manager_load : result unit)
    (multi_model : result (option AgentModelConfig)) (quiet : bool)
    (rt : Runtime) (w : World) (self : TaskOrchestrator) (rs : list AgentResult) :
  (orchestrator cfg = Some o ->
   parallel_agents o = None \/ task_timeout_key o = None
     \/ aggregation_strategy_key o = None ->
   exists msg,
     __init__ (Ok cfg) manager_load multi_model quiet
     = (Raise (mk_exn KeyError msg), []))
  /\ (forall built sent,
        __init__ (Ok cfg) manager_load multi_model quiet = (Ok built, sent) ->
        sent = []
        /\ exists block,
             orchestrator cfg = Some block
             /\ parallel_agents block = Some (num_agents built)
             /\ task_timeout_key block = Some (task_timeout built)
             /\ aggregation_strategy_key block = Some (aggregation_strategy built))
  /\ (forall strategy,
        aggregate_results rt w (with_aggregation_strategy self strategy) rs
        = aggregate_results rt w self rs).
Proof.
  split; [|split].
  - intros Ho Hmissing. unfold __init__. simpl. rewrite Ho. simpl.
    destruct (parallel_agents o) as [n|] eqn:Hn; simpl; [|eauto].
    destruct (task_timeout_key o) as [t|] eqn:Ht; simpl; [|eauto].
    destruct (aggregation_strategy_key o) as [s|] eqn:Hs; simpl; [|eauto].
    destruct Hmissing as [H|[H|H]]; discriminate.
  - intros built sent. unfold __init__. simpl.
    destruct (orchestrator cfg) as [block|] eqn:Hb; simpl; [|discriminate].
    destruct (parallel_agents block) as [n|] eqn:Hn; simpl; [|discriminate].
    destruct (task_timeout_key block) as [t|] eqn:Ht; simpl; [|discriminate].
    destruct (aggregation_strategy_key block) as [s|] eqn:Hs; simpl; [|discriminate].
    destruct manager_load as [[]|]; simpl; [|discriminate].
    intros [= <- <-]. split; [reflexivity|].
    exists block. simpl. auto.
  - intros strategy. unfold aggregate_results. simpl.
    destruct (List.filter is_success rs); [reflexivity|].
    destruct (_ =? _)%string, (_ =? _)%string; reflexivity.
Qed.

Lemma C10_witness :
  exists msg,
    __init__ (Ok {| orchestrator := Some Scenarios.block_without_strategy |})
      (Ok tt) (Ok None) true
    = (Raise (mk_exn KeyError msg), []).
Proof.
  apply (C10_construction_requires_three_keys
           {| orchestrator := Some Scenarios.block_without_strategy |}
           Scenarios.block_without_strategy (Ok tt) (Ok None) true
           Scenarios.runtime Scenarios.malformed (Scenarios.orchestrator_for 2) []).
  - reflexivity.
  - right; right; reflexivity.
Defined.

(** ** Decomposition *)

Lemma is_ValueError_catches (e : exn) :
  is_ValueError e = true -> is_JSONDecodeError e || is_ValueError e = true.
Proof. intros ->. apply orb_true_r. Qed.

Lemma slice_to_nonneg {A} (n : Z) (l : list A) :
  0 <= n -> slice_to n l = take (Z.to_nat n) l.
Proof.
  intros Hn. unfold slice_to.
  destruct (Z.leb_spec 0 n); [reflexivity | lia].
Qed.

Lemma slice_to_all {A} (n : Z) (l : list A) :
  Z.of_nat (List.length l) <= n -> slice_to n l = l.
Proof.
  intros Hn. rewrite slice_to_nonneg by lia.
  apply take_ge. lia.
Qed.

(** C3. With five agents requested and a decomposition answer that is not
    JSON, [decompose_task] returns the four templates: four sub-questions
    where five were asked for. *)
Lemma C3_fallback_returns_four_for_five :
  value (decompose_task Scenarios.runtime Scenarios.malformed
           (Scenarios.orchestrator_for 5) "q" 5)
  = Ok (JArr [ JStr "Research comprehensive information about: q";
               JStr "Analyze and provide insights about: q";
               JStr "Find alternative perspectives on: q";
               JStr "Verify and cross-check facts about: q" ])
  /\ item (JArr (fallback_questions "q")) 4
     = Raise (mk_exn IndexError "list index out of range").
Proof. split; vm_compute; reflexivity. Qed.

(** C4, as stated, fails: with two agents requested the fallback is the
    first two templates, not the list of four. *)
Lemma C4_fallback_for_two_is_not_the_four_templates :
  value (decompose_task Scenarios.runtime Scenarios.malformed
           (Scenarios.orchestrator_for 2) "q" 2)
  = Ok (JArr [ JStr "Research comprehensive information about: q";
               JStr "Analyze and provide insights about: q" ])
  /\ value (decompose_task Scenarios.runtime Scenarios.malformed
              (Scenarios.orchestrator_for 2) "q" 2)
     <> Ok (JArr (fallback_questions "q")).
Proof.
  assert (H : value (decompose_task Scenarios.runtime Scenarios.malformed
                       (Scenarios.orchestrator_for 2) "q" 2)
              = Ok (JArr [ JStr "Research comprehensive information about: q";
                           JStr "Analyze and provide insights about: q" ]))
    by (vm_compute; reflexivity).
  split; [exact H|]. rewrite H. unfold fallback_questions. intros Heq.
  inversion Heq.
Qed.

(** C4, amended. When the answer of the decomposition agent is not JSON,
    or is a JSON array, object or string whose length differs from the
    requested count, [decompose_task] returns the four templates cut to the
    requested count by the slice [[:num_agents]]: the first [n] of them for
    [n] from 0 to 4, all four from 4 on. *)
Theorem C4_fallback_is_the_templates_sliced
    (rt : Runtime) (w : World) (self : TaskOrchestrator)
    (user_input : string) (n : Z)
    (agent : UniversalAgent) (template prompt response : string) :
  new_agent w QuestionAgent = Ok agent ->
  orchestrator_key self "question_generation_prompt" question_generation_prompt
    = Ok template ->
  str_format rt template [("user_input", user_input); ("num_agents", pretty n)]
    = Ok prompt ->
  value (run rt (without_completion_tool agent) (JStr prompt)) = Ok response ->
  (exists e, json_loads rt (strip response) = Raise e /\ is_ValueError e = true)
  \/ (exists v k, json_loads rt (strip response) = Ok v /\ len v = Ok k /\ k <> n) ->
  value (decompose_task rt w self user_input n)
    = Ok (JArr (slice_to n (fallback_questions user_input)))
  /\ (0 <= n ->
      slice_to n (fallback_questions user_input)
      = take (Z.to_nat n) (fallback_questions user_input))
  /\ (4 <= n -> slice_to n (fallback_questions user_input) = fallback_questions user_input).
Proof.
  intros Hagent Htemplate Hprompt Hrun Hbad.
  split; [|split].
  - unfold decompose_task.
    rewrite value_bind, Hagent; cbn [lift value fst].
    rewrite value_bind, Htemplate; cbn [lift value fst].
    rewrite value_bind, Hprompt; cbn [lift value fst].
    rewrite value_try_except, value_bind, Hrun, value_bind.
    destruct Hbad as [(e & Hloads & He) | (v & k & Hloads & Hlen & Hk)];
      rewrite Hloads; cbn [lift value fst].
    + rewrite (is_ValueError_catches e He). reflexivity.
    + rewrite value_bind, Hlen. cbn [lift value fst].
      destruct (Z.eqb_spec k n) as [->|_]; [contradiction|].
      reflexivity.
  - apply slice_to_nonneg.
  - intros Hn. apply slice_to_all. simpl. lia.
Qed.

Lemma C4_witness :
  value (decompose_task Scenarios.runtime Scenarios.malformed
           (Scenarios.orchestrator_for 3) "q" 3)
  = Ok (JArr (slice_to 3 (fallback_questions "q"))).
Proof.
  apply (C4_fallback_is_the_templates_sliced
           Scenarios.runtime Scenarios.malformed (Scenarios.orchestrator_for 3) "q" 3
           (Scenarios.agent_with "deepseek" (Some 1) (Scenarios.says "not json"))
           "Generate questions. Return JSON array."
           "Generate questions. Return JSON array."
           "not json").
  - reflexivity.
  - reflexivity.
  - reflexivity.
  - vm_compute. reflexivity.
  - left. eexists. split; vm_compute; reflexivity.
Defined.

(** Characters beyond ASCII: [strip] removes the whitespace among them,
    and [len] counts characters, so an answer between no-break spaces is
    parsed, and a string of one accented letter has length 1. *)
Example strip_removes_unicode_whitespace :
  strip (bytes [194; 160]%nat ++ "[1]" ++ bytes [226; 128; 137; 10]%nat) = "[1]".
Proof. vm_compute. reflexivity. Qed.

Example len_counts_characters :
  len (JStr (bytes [195; 169]%nat)) = Ok 1
  /\ item (JStr ("a" ++ bytes [195; 169]%nat ++ "b")) 1 = Ok (JStr (bytes [195; 169]%nat)).
Proof. split; vm_compute; reflexivity. Qed.

Example decompose_task_parses_a_padded_answer :
  value (decompose_task Scenarios.runtime Cases.padded (Scenarios.orchestrator_for 2) "q" 2)
  = Ok (JArr [JStr "a"; JStr "b"]).
Proof. vm_compute. reflexivity. Qed.

(** ** Aggregation *)

(** C5. With no successful result [aggregate_results] returns the fixed
    failure text; with exactly one it returns the response of that result
    unchanged; in both cases it sends no request. *)
Theorem C5_zero_or_one_success
    (rt : Runtime) (w : World) (self : TaskOrchestrator) (rs : list AgentResult) :
  (List.length (List.filter is_success rs) = 0%nat ->
   aggregate_results rt w self rs
   = (Ok "All agents failed to provide results. Please try again.", []))
  /\ (List.length (List.filter is_success rs) = 1%nat ->
      exists r, List.filter is_success rs = [r]
                /\ List.In r rs /\ status r = success
                /\ aggregate_results rt w self rs = (Ok (response r), [])).
Proof.
  unfold aggregate_results. split; intros Hlen.
  - destruct (List.filter is_success rs); [reflexivity | discriminate].
  - destruct (List.filter is_success rs) as [|r [|r' l]] eqn:Hf; try discriminate.
    exists r. split; [reflexivity|].
    assert (Hin : List.In r (List.filter is_success rs)) by (rewrite Hf; left; reflexivity).
    apply filter_In in Hin as [Hin Hs].
    split; [exact Hin|]. split.
    + unfold is_success in Hs. destruct (status r); [reflexivity | discriminate..].
    + simpl. destruct (_ =? _)%string; reflexivity.
Qed.

Lemma C5_witness :
  exists r,
    List.filter is_success
      [error_result 0 None
         (mk_exn Exception "boom");
       {| agent_id := 1; status := success; response := "Answer 2";
          execution_time := 1 # 1; result_model := None; estimated_cost := None |}]
    = [r]
    /\ aggregate_results Scenarios.runtime Scenarios.malformed
         (Scenarios.orchestrator_for 2)
         [error_result 0 None
            (mk_exn Exception "boom");
          {| agent_id := 1; status := success; response := "Answer 2";
             execution_time := 1 # 1; result_model := None; estimated_cost := None |}]
       = (Ok (response r), []).
Proof.
  destruct (proj2 (C5_zero_or_one_success Scenarios.runtime Scenarios.malformed
                     (Scenarios.orchestrator_for 2)
                     [error_result 0 None
                        (mk_exn Exception "boom");
                      {| agent_id := 1; status := success; response := "Answer 2";
                         execution_time := 1 # 1; result_model := None;
                         estimated_cost := None |}]) eq_refl)
    as (r & Hf & _ & _ & Hagg).
  exists r. split; [exact Hf | exact Hagg].
Defined.

(** ** The agent loop *)

Section AgentLoop.
Variable rt : Runtime.
Variable a : UniversalAgent.

Lemma call_llm_eq (messages : list Message) :
  call_llm a messages
  = (match client a (build_api_params a messages) with
     | Ok response => Ok response
     | Raise e => Raise (llm_error a e)
     end, [build_api_params a messages]).
Proof.
  unfold call_llm, try_except, bind, emit, lift, raise, is_Exception.
  destruct (client a _); reflexivity.
Qed.

Lemma handle_tool_calls_flag (calls : list ToolCall) (messages : list Message)
    (full : list json) :
  (handle_tool_calls rt a calls messages full).2
  = existsb (fun tool_call => (tc_name tool_call =? mark_task_complete)%string) calls.
Proof.
  revert messages. induction calls as [|tc calls IH]; intros messages; simpl.
  - reflexivity.
  - destruct (tc_name tc =? mark_task_complete)%string; simpl; [reflexivity|].
    apply IH.
Qed.

Lemma run_loop_eq (max it : Z) (messages : list Message) (full : list json) :
  run_loop rt a max it messages full
  = if decide (it < max) then
      do s <- iteration_body rt a messages full;
      match s with
      | Return answer => ret answer
      | Continue messages full => run_loop rt a max (it + 1) messages full
      end
    else final_answer full.
Proof.
  rewrite run_loop_equation_1.
  destruct (decide (it < max)); reflexivity.
Qed.

Lemma handle_tool_calls_full (calls : list ToolCall) (messages : list Message)
    (full : list json) :
  existsb (fun tool_call => (tc_name tool_call =? mark_task_complete)%string) calls = false ->
  (handle_tool_calls rt a calls messages full).1.2 = full.
Proof.
  revert messages. induction calls as [|tc calls IH]; intros messages; simpl.
  - reflexivity.
  - destruct (tc_name tc =? mark_task_complete)%string; simpl; [discriminate|].
    apply IH.
Qed.

Lemma capture_from_tool_calls_none (calls : list ToolCall) :
  existsb (fun tool_call => (tc_name tool_call =? mark_task_complete)%string) calls = false ->
  capture_from_tool_calls rt calls = [].
Proof.
  unfold capture_from_tool_calls.
  induction calls as [|tc calls IH]; simpl; [reflexivity|].
  destruct (tc_name tc =? mark_task_complete)%string; simpl; [discriminate|].
  exact IH.
Qed.

Lemma capture_carries_on (m : AssistantMessage) (full : list json) (p : ApiParams) :
  answer a p = Some m -> asks_completion m = false ->
  capture rt m full = (full ++ heard a p)%list.
Proof.
  intros Hm Hno. unfold capture, heard, said. rewrite Hm.
  destruct (content m) as [[|c s]|]; try reflexivity;
    rewrite (capture_from_tool_calls_none _ Hno); reflexivity.
Qed.

(** One pass through the loop body sends exactly one request, and what it
    leads to is read off the answer to that request. *)
Lemma iteration_body_cases (messages : list Message) (full : list json) :
  let p := build_api_params a messages in
  exists v,
    iteration_body rt a messages full = (v, [p])
    /\ match v with
       | Ok (Continue _ full') =>
           carries_on a p = true /\ completes a p = false
           /\ full' = (full ++ heard a p)%list
       | Ok (Return _) => completes a p = true /\ carries_on a p = false
       | Raise _ => carries_on a p = false
       end.
Proof.
  intros p. unfold iteration_body. rewrite call_llm_eq. fold p.
  unfold carries_on, completes, answer.
  destruct (client a p) as [response|e] eqn:Hclient; simpl.
  2: { eexists. split; [reflexivity|]. reflexivity. }
  destruct (choices response) as [|m rest] eqn:Hchoices; simpl.
  1: { eexists. split; [reflexivity|]. reflexivity. }
  pose proof (handle_tool_calls_flag (tool_calls m)
                (messages ++ [AssistantTurn (content m)
                                (match tool_calls m with [] => None | t :: l => Some (t :: l) end)])
                (capture rt m full)) as Hflag.
  pose proof (handle_tool_calls_full (tool_calls m)
                (messages ++ [AssistantTurn (content m)
                                (match tool_calls m with [] => None | t :: l => Some (t :: l) end)])
                (capture rt m full)) as Hfull.
  destruct (handle_tool_calls rt a (tool_calls m) _ _) as [[messages' full'] flag].
  simpl in Hflag, Hfull. fold (asks_completion m) in Hflag, Hfull.
  destruct flag; simpl.
  - destruct (join_values sep2 full') as [answer|e]; simpl;
      (eexists; split; [reflexivity|]); rewrite <- Hflag; simpl; auto.
  - eexists. split; [reflexivity|]. rewrite <- Hflag. simpl.
    split; [reflexivity|]. split; [reflexivity|].
    rewrite Hfull by (symmetry; exact Hflag).
    apply capture_carries_on; [|symmetry; exact Hflag].
    unfold answer. rewrite Hclient, Hchoices. reflexivity.
Qed.

(** The loop, by induction on the number of iterations left. *)
Lemma run_loop_spec (max : Z) (n : nat) :
  forall (it : Z) (messages : list Message) (full : list json),
    Z.to_nat (max - it) = n ->
    let m := run_loop rt a max it messages full in
    (List.length (requests m) <= n)%nat
    /\ (forall i p, requests m !! i = Some p -> completes a p = true ->
                    S i = List.length (requests m))
    /\ (forall i p, requests m !! i = Some p -> (S i < List.length (requests m))%nat ->
                    carries_on a p = true)
    /\ (forall s, value m = Ok s -> (List.length (requests m) < n)%nat ->
                  exists p, last (requests m) = Some p /\ completes a p = true)
    /\ (Forall (fun p => carries_on a p = true) (requests m) ->
        List.length (requests m) = n
        /\ value m
           = value (final_answer (full ++ concat (heard a <$> requests m))%list)).
Proof.
  induction n as [|n IH]; intros it messages full Hn m; subst m;
    rewrite run_loop_eq; destruct (decide (it < max)) as [Hlt|Hge]; try lia.
  - assert (Hreq : requests (final_answer full) = []).
    { unfold final_answer. destruct full; reflexivity. }
    rewrite Hreq. simpl.
    repeat split; try lia; try (intros i p Hi; destruct i; discriminate).
    rewrite app_nil_r. reflexivity.
  - destruct (iteration_body_cases messages full) as (v & Hbody & Hv).
    set (p := build_api_params a messages) in *.
    rewrite Hbody. destruct v as [[answer|messages' full']|e].
    + destruct Hv as [Hc Hno]. simpl.
      split; [lia|]. split; [|split; [|split]].
      * intros [|i] q Hi Hq; [reflexivity|destruct i; discriminate].
      * intros [|i] q Hi Hlen; simpl in Hlen; lia.
      * intros s _ _. exists p. split; [reflexivity|exact Hc].
      * intros H. inversion H; subst. congruence.
    + destruct Hv as (Hon & Hnc & Hfull). subst full'.
      destruct (IH (it + 1) messages' (full ++ heard a p)%list ltac:(lia))
        as (B1 & B2 & B3 & B4 & B5).
      cbn [bind].
      destruct (run_loop rt a max (it + 1) messages' (full ++ heard a p)%list)
        as [r log] eqn:Hrest.
      cbn [value requests fst snd app] in *.
      split; [simpl; lia|]. split; [|split; [|split]].
      * intros [|i] q Hi Hq; simpl in Hi.
        -- inversion Hi; subst. congruence.
        -- simpl. f_equal. eapply B2; eauto.
      * intros [|i] q Hi Hlen; simpl in Hi, Hlen.
        -- inversion Hi; subst. exact Hon.
        -- eapply B3; eauto. lia.
      * intros s Hs Hlen. simpl in Hlen.
        destruct (B4 s Hs ltac:(lia)) as (q & Hlast & Hq).
        exists q. split; [|exact Hq].
        rewrite last_cons, Hlast. reflexivity.
      * intros H. inversion H as [|? ? _ Hrestall]; subst.
        destruct (B5 Hrestall) as [Hlen ->]. split; [simpl; lia|].
        rewrite fmap_cons. simpl. rewrite <- app_assoc. reflexivity.
    + simpl.
      split; [lia|]. split; [|split; [|split]].
      * intros [|i] q Hi Hq; [reflexivity|destruct i; discriminate].
      * intros [|i] q Hi Hlen; simpl in Hlen; lia.
      * intros s Hs. discriminate.
      * intros H. inversion H; subst. congruence.
Qed.

Lemma heard_said (log : list ApiParams) :
  concat (heard a <$> log) = JStr <$> omap (said a) log.
Proof.
  induction log as [|p log IH]; [reflexivity|].
  change (concat (heard a <$> p :: log))
    with (heard a p ++ concat (heard a <$> log))%list.
  change (omap (said a) (p :: log))
    with (match said a p with
          | Some s => s :: omap (said a) log
          | None => omap (said a) log
          end).
  rewrite IH. unfold heard. destruct (said a p); reflexivity.
Qed.

Lemma strs_of_strings (texts : list string) (i : nat) :
  strs_of i (JStr <$> texts) = Ok texts.
Proof.
  revert i. induction texts as [|t texts IH]; intros i; [reflexivity|].
  rewrite fmap_cons. cbn [strs_of]. rewrite IH. reflexivity.
Qed.

Lemma final_answer_strings (texts : list string) :
  value (final_answer (JStr <$> texts))
  = Ok (match texts with
        | [] => stuck_message
        | _ => join sep2 texts
        end).
Proof.
  destruct texts as [|t texts]; [reflexivity|].
  unfold final_answer. rewrite fmap_cons. cbn [lift value fst].
  unfold join_values. rewrite <- fmap_cons, strs_of_strings. reflexivity.
Qed.

(** Every request of a run is built by [build_api_params] of the agent. *)
Lemma run_loop_requests_built (max : Z) (n : nat) :
  forall (it : Z) (messages : list Message) (full : list json),
    Z.to_nat (max - it) = n ->
    Forall (fun p => exists ms, p = build_api_params a ms)
           (requests (run_loop rt a max it messages full)).
Proof.
  induction n as [|n IH]; intros it messages full Hn;
    rewrite run_loop_eq; destruct (decide (it < max)) as [Hlt|Hge]; try lia.
  - unfold final_answer. destruct full; constructor.
  - destruct (iteration_body_cases messages full) as (v & Hbody & _).
    rewrite Hbody. destruct v as [[answer|messages' full']|e]; cbn [bind ret].
    + repeat constructor. eauto.
    + specialize (IH (it + 1) messages' full' ltac:(lia)).
      destruct (run_loop rt a max (it + 1) messages' full') as [r log].
      cbn [requests snd app] in *. constructor; eauto.
    + repeat constructor. eauto.
Qed.

Lemma run_requests_built (user_input : json) :
  Forall (fun p => exists ms, p = build_api_params a ms) (requests (run rt a user_input)).
Proof. unfold run. eapply run_loop_requests_built. reflexivity. Qed.

End AgentLoop.

Lemma build_api_params_deepseek (a : UniversalAgent) (messages : list Message) :
  provider_type a = "deepseek" ->
  exists ts, p_tools (build_api_params a messages) = Some ts /\ ts <> [].
Proof.
  intros Hp. unfold build_api_params. rewrite Hp. simpl.
  destruct (tools a) as [|t ts]; eexists; (split; [reflexivity|discriminate]).
Qed.

(** C8. The loop of [run] sends one request per iteration and at most
    [max_iterations] of them (10 when the key is absent), so it always
    terminates.  A call of the completion tool ends it: the request it
    answers is the last one, and a normal return before the cap comes from
    such a call.  When every answer carries on, without a completion call and
    without an exception, all [max_iterations] iterations run and [run]
    returns the collected content joined by blank lines, or the fixed text
    when there is none; a worker running that agent on a sub-question
    reports success with that text. *)
Theorem C8_run_stops_at_the_cap_or_on_completion
    (rt : Runtime) (a : UniversalAgent) (user_input : json) :
  let r := run rt a user_input in
  (agent_max_iterations a = None -> max_iterations a = 10)
  /\ (List.length (requests r) <= Z.to_nat (max_iterations a))%nat
  /\ (forall i p, requests r !! i = Some p -> completes a p = true ->
                  S i = List.length (requests r))
  /\ (forall s, value r = Ok s ->
                (List.length (requests r) < Z.to_nat (max_iterations a))%nat ->
                exists p, last (requests r) = Some p /\ completes a p = true)
  /\ (Forall (fun p => carries_on a p = true) (requests r) ->
      List.length (requests r) = Z.to_nat (max_iterations a)
      /\ value r = Ok (match omap (said a) (requests r) with
                      | [] => "Maximum iterations reached. The agent may be stuck in a loop."
                      | texts => join (nl ++ nl) texts
                      end)
      /\ forall (w : World) (self : TaskOrchestrator) (agent_id : Z) (q : string),
           user_input = JStr q ->
           value (_create_agent_with_model w agent_id (_get_agent_model w self agent_id))
             = Ok a ->
           exists res,
             value (run_agent_parallel rt w self agent_id (JStr q)) = Ok res
             /\ status res = success
             /\ value r = Ok (response res)).
Proof.
  intros r. subst r. unfold run.
  destruct (run_loop_spec rt a (max_iterations a) (Z.to_nat (max_iterations a - 0)) 0
              [SystemMessage (system_prompt a); UserMessage user_input] []
              eq_refl) as (B1 & B2 & B3 & B4 & B5).
  rewrite Z.sub_0_r in *.
  split; [intros Hnone; unfold max_iterations; rewrite Hnone; reflexivity|].
  split; [exact B1|]. split; [exact B2|]. split; [exact B4|].
  intros Hall. destruct (B5 Hall) as [Hlen Hval].
  rewrite app_nil_l, heard_said, final_answer_strings in Hval.
  assert (Hval' :
    value (run_loop rt a (max_iterations a) 0
             [SystemMessage (system_prompt a); UserMessage user_input] [])
    = Ok (match omap (said a)
                  (requests (run_loop rt a (max_iterations a) 0
                     [SystemMessage (system_prompt a); UserMessage user_input] [])) with
          | [] => "Maximum iterations reached. The agent may be stuck in a loop."
          | texts => join (nl ++ nl) texts
          end)).
  { rewrite Hval. destruct (omap _ _); reflexivity. }
  split; [exact Hlen|]. split; [exact Hval'|].
  intros w self agent_id q -> Hcreate.
  unfold run_agent_parallel.
  assert (Hprogress : (if silent self then Ok tt else slice_check (JStr q)) = Ok tt)
    by (destruct (silent self); reflexivity).
  rewrite Hprogress.
  rewrite value_try_except, value_bind, Hcreate, value_bind.
  unfold run. rewrite Hval'. cbn [len lift bind ret value fst].
  eexists. split; [reflexivity|]. split; reflexivity.
Qed.

Lemma C8_witness :
  List.length (requests (run Scenarios.runtime
                           (Scenarios.agent_with "deepseek" (Some 3) (Scenarios.says "partial"))
                           (JStr "q"))) = 3%nat
  /\ value (run Scenarios.runtime
              (Scenarios.agent_with "deepseek" (Some 3) (Scenarios.says "partial"))
              (JStr "q"))
     = Ok (join (nl ++ nl) ["partial"; "partial"; "partial"]).
Proof.
  destruct (C8_run_stops_at_the_cap_or_on_completion Scenarios.runtime
              (Scenarios.agent_with "deepseek" (Some 3) (Scenarios.says "partial"))
              (JStr "q")) as (_ & _ & _ & _ & Hcap).
  destruct Hcap as (Hlen & Hval & _).
  - vm_compute. repeat constructor.
  - split; [exact Hlen | exact Hval].
Defined.

(** ** Workers *)

Lemma create_agent_eq (w : World) (agent_id : Z) (m : string) :
  _create_agent_with_model w agent_id m
  = (match get_provider_config w, new_agent w (ModelAgent agent_id) with
     | Ok _, Ok agent => Ok (with_model agent m)
     | _, _ => new_agent w (DefaultAgent agent_id)
     end, []).
Proof.
  unfold _create_agent_with_model.
  destruct (get_provider_config w); [|reflexivity].
  destruct (new_agent w (ModelAgent agent_id)); reflexivity.
Qed.

(** C7. [run_agent_parallel] returns a record whatever happens while the
    agent is created and run.  The record has status "success" with the text
    returned by the agent's run, or status "error" with a response that ends
    in the message of the exception raised, execution time 0 and estimated
    cost 0.0; the exception is the one raised by the progress line, by the
    creation of the agent, by its run, or by measuring the sub-question. *)
Theorem C7_worker_returns_a_record
    (rt : Runtime) (w : World) (self : TaskOrchestrator) (i : Z) (subtask : json) :
  let created := value (_create_agent_with_model w i (_get_agent_model w self i)) in
  exists r,
    value (run_agent_parallel rt w self i subtask) = Ok r
    /\ agent_id r = i
    /\ ((status r = success
         /\ exists agent, created = Ok agent
                          /\ value (run rt agent subtask) = Ok (response r))
        \/ (status r = error
            /\ execution_time r = 0%Q
            /\ estimated_cost r = Some 0%Q
            /\ exists e prefix,
                 response r = prefix ++ ": " ++ exn_str e
                 /\ ((if silent self then Ok tt else slice_check subtask) = Raise e
                     \/ created = Raise e
                     \/ exists agent,
                          created = Ok agent
                          /\ (value (run rt agent subtask) = Raise e
                              \/ len subtask = Raise e)))).
Proof.
  intros created. subst created. unfold run_agent_parallel.
  destruct (if silent self then Ok tt else slice_check subtask) as [[]|e] eqn:Hprogress.
  2: { eexists. split; [reflexivity|]. split; [reflexivity|]. right.
       repeat (split; [reflexivity|]). exists e. eexists. split; [reflexivity|].
       left. reflexivity. }
  rewrite value_try_except, value_bind.
  destruct (value (_create_agent_with_model w i (_get_agent_model w self i)))
    as [agent|e] eqn:Hcreate.
  2: { eexists. split; [reflexivity|]. split; [reflexivity|]. right.
       repeat (split; [reflexivity|]). exists e. eexists. split; [reflexivity|].
       right. left. reflexivity. }
  rewrite value_bind.
  destruct (value (run rt agent subtask)) as [text|e] eqn:Hrun.
  2: { eexists. split; [reflexivity|]. split; [reflexivity|]. right.
       repeat (split; [reflexivity|]). exists e. eexists. split; [reflexivity|].
       right. right. exists agent. split; [reflexivity|]. left. exact Hrun. }
  rewrite value_bind.
  destruct (len subtask) as [k|e] eqn:Hlen; cbn [lift value fst ret is_Exception].
  2: { eexists. split; [reflexivity|]. split; [reflexivity|]. right.
       repeat (split; [reflexivity|]). exists e. eexists. split; [reflexivity|].
       right. right. exists agent. split; [reflexivity|]. right. reflexivity. }
  eexists. split; [reflexivity|]. split; [reflexivity|]. left.
  split; [reflexivity|]. exists agent. split; [reflexivity|exact Hrun].
Qed.

(** ** Requests of the whole pipeline *)

Section RequestsOf.
Context {E : Type} (P : E -> Prop).

Lemma Forall_requests_bind {A B} (m : M E A) (k : A -> M E B) :
  Forall P (requests m) ->
  (forall x, value m = Ok x -> Forall P (requests (k x))) ->
  Forall P (requests (bind m k)).
Proof.
  intros Hm Hk. rewrite requests_bind. apply Forall_app. split; [exact Hm|].
  destruct (value m) as [x|e]; [apply Hk; reflexivity | constructor].
Qed.

Lemma Forall_requests_try_except {A} (m : M E A) (catches : exn -> bool)
    (h : exn -> M E A) :
  Forall P (requests m) ->
  (forall e, value m = Raise e -> Forall P (requests (h e))) ->
  Forall P (requests (try_except m catches h)).
Proof.
  intros Hm Hh. rewrite requests_try_except. apply Forall_app. split; [exact Hm|].
  destruct (value m) as [x|e]; [constructor|].
  destruct (catches e); [apply Hh; reflexivity | constructor].
Qed.

Lemma Forall_requests_lift {A} (r : result A) : Forall P (requests (lift r)).
Proof. constructor. Qed.

Lemma Forall_requests_ret {A} (x : A) : Forall P (requests (ret x)).
Proof. constructor. Qed.

Lemma Forall_requests_raise {A} (e : exn) : Forall P (requests (@raise E A e)).
Proof. constructor. Qed.
End RequestsOf.

Lemma requests_bind_nil {E A B} (m : M E A) (k : A -> M E B) :
  requests m = [] -> (forall x, requests (k x) = []) -> requests (bind m k) = [].
Proof.
  intros Hm Hk. rewrite requests_bind, Hm.
  destruct (value m); [apply Hk | reflexivity].
Qed.

Lemma requests_try_except_nil {E A} (m : M E A) (catches : exn -> bool)
    (h : exn -> M E A) :
  requests m = [] -> (forall e, requests (h e) = []) ->
  requests (try_except m catches h) = [].
Proof.
  intros Hm Hh. rewrite requests_try_except, Hm.
  destruct (value m) as [|e]; [reflexivity|].
  destruct (catches e); [apply Hh | reflexivity].
Qed.

Create HintDb requests.
#[local] Hint Resolve Forall_requests_lift Forall_requests_ret Forall_requests_raise
  : requests.

Section Pipeline.
Variable rt : Runtime.
Variable w : World.
Variable self : TaskOrchestrator.

(** A property of requests that holds of everything an agent built by the
    world sends, whatever its model and tools are set to afterwards. *)
Variable sound : UniversalAgent -> Prop.
Variable P : ApiParams -> Prop.
Hypothesis sound_world : forall s agent, new_agent w s = Ok agent -> sound agent.
Hypothesis sound_with_model : forall agent m, sound agent -> sound (with_model agent m).
Hypothesis sound_without_completion_tool :
  forall agent, sound agent -> sound (without_completion_tool agent).
Hypothesis sound_with_tools : forall agent ts, sound agent -> sound (with_tools agent ts).
Hypothesis sound_requests :
  forall agent ms, sound agent -> P (build_api_params agent ms).

Lemma run_sound (agent : UniversalAgent) (user_input : json) :
  sound agent -> Forall P (requests (run rt agent user_input)).
Proof.
  intros Hs. eapply Forall_impl; [apply run_requests_built|].
  intros p [ms ->]. apply sound_requests, Hs.
Qed.

Lemma create_agent_sound (i : Z) (m : string) (agent : UniversalAgent) :
  value (_create_agent_with_model w i m) = Ok agent -> sound agent.
Proof.
  rewrite create_agent_eq. cbn [value fst].
  destruct (get_provider_config w); [|apply sound_world].
  destruct (new_agent w (ModelAgent i)) as [a0|] eqn:Ha0; [|apply sound_world].
  intros [= <-]. eapply sound_with_model, sound_world, Ha0.
Qed.

Lemma create_agent_requests (i : Z) (m : string) :
  requests (_create_agent_with_model w i m) = [].
Proof. rewrite create_agent_eq. reflexivity. Qed.

Lemma decompose_task_sound (user_input : string) (n : Z) :
  Forall P (requests (decompose_task rt w self user_input n)).
Proof.
  unfold decompose_task.
  apply Forall_requests_bind; [auto with requests|]. intros agent Hagent.
  apply Forall_requests_bind; [auto with requests|]. intros template _.
  apply Forall_requests_bind; [auto with requests|]. intros prompt _.
  apply Forall_requests_try_except; [|auto with requests].
  apply Forall_requests_bind.
  { apply run_sound, sound_without_completion_tool. eapply sound_world, Hagent. }
  intros response _.
  apply Forall_requests_bind; [auto with requests|]. intros questions _.
  apply Forall_requests_bind; [auto with requests|]. intros k _.
  destruct (negb _); auto with requests.
Qed.

Lemma run_agent_parallel_sound (i : Z) (subtask : json) :
  Forall P (requests (run_agent_parallel rt w self i subtask)).
Proof.
  unfold run_agent_parallel.
  destruct (if silent self then Ok tt else slice_check subtask); [|auto with requests].
  apply Forall_requests_try_except; [|auto with requests].
  apply Forall_requests_bind.
  { rewrite create_agent_requests. constructor. }
  intros agent Hagent.
  apply Forall_requests_bind; [eapply run_sound, create_agent_sound, Hagent|].
  intros response _.
  apply Forall_requests_bind; auto with requests.
Qed.

Lemma submit_all_futures (subtasks : json) (ids : list Z) :
  Forall (fun f => exists subtask, f.2 = run_agent_parallel rt w self f.1 subtask)
         (submit_all rt w self subtasks ids).1.
Proof.
  induction ids as [|i ids IH]; simpl; [constructor|].
  destruct (item subtasks i) as [subtask|e]; [|constructor].
  destruct (submit_all rt w self subtasks ids) as [futures e]. simpl in *.
  constructor; [eexists; reflexivity | exact IH].
Qed.

Lemma fan_out_sound (subtasks : json) :
  Forall P (requests (fan_out rt w self subtasks)).
Proof.
  unfold fan_out. destruct (num_agents self <=? 0)%Z; [constructor|].
  pose proof (submit_all_futures subtasks (range (num_agents self))) as Hf.
  destruct (submit_all rt w self subtasks (range (num_agents self))) as [futures e].
  simpl in Hf.
  assert (Hsent : Forall P (concat (List.map (fun f => requests f.2) futures))).
  { apply Forall_concat, Forall_forall. intros l Hl.
    apply list_elem_of_In, in_map_iff in Hl as (f & <- & Hin).
    rewrite Forall_forall in Hf.
    destruct (Hf f (proj2 (list_elem_of_In _ _) Hin)) as [subtask ->].
    apply run_agent_parallel_sound. }
  destruct e; exact Hsent.
Qed.

Lemma prepare_synthesis_requests (responses : list string) :
  requests (prepare_synthesis rt w self responses) = [].
Proof.
  unfold prepare_synthesis.
  apply requests_bind_nil.
  { apply requests_try_except_nil; [apply create_agent_requests | reflexivity]. }
  intros agent.
  apply requests_bind_nil; [reflexivity|]. intros template.
  apply requests_bind_nil; [reflexivity|]. intros prompt.
  apply requests_bind_nil; [|reflexivity].
  destruct (tools (without_completion_tool agent)); [|reflexivity].
  apply requests_bind_nil; reflexivity.
Qed.

Lemma prepare_synthesis_sound (responses : list string) (agent : UniversalAgent)
    (prompt : string) :
  value (prepare_synthesis rt w self responses) = Ok (agent, prompt) -> sound agent.
Proof.
  unfold prepare_synthesis. rewrite value_bind, value_try_except.
  destruct (value (_create_agent_with_model w (-1) (_get_synthesis_model w self)))
    as [a0|e] eqn:Hcreate.
  - apply create_agent_sound in Hcreate.
    rewrite !value_bind.
    destruct (value (lift (orchestrator_key self "synthesis_prompt" synthesis_prompt)));
      [|discriminate].
    rewrite !value_bind.
    destruct (value (lift (str_format rt _ _))); [|discriminate].
    rewrite !value_bind.
    destruct (tools (without_completion_tool a0)).
    + rewrite value_bind.
      destruct (value (lift (file_provider_type w))) as [t|]; [|discriminate].
      cbn [value ret fst]. intros [= <- _].
      destruct (t =? "deepseek")%string; auto.
    + cbn [value ret fst]. intros [= <- _]. auto.
  - cbn [is_Exception lift value fst].
    destruct (new_agent w SynthesisDefaultAgent) as [a0|] eqn:Hdefault; [|discriminate].
    apply sound_world in Hdefault.
    rewrite !value_bind.
    destruct (value (lift (orchestrator_key self "synthesis_prompt" synthesis_prompt)));
      [|discriminate].
    rewrite !value_bind.
    destruct (value (lift (str_format rt _ _))); [|discriminate].
    rewrite !value_bind.
    destruct (tools (without_completion_tool a0)).
    + rewrite value_bind.
      destruct (value (lift (file_provider_type w))) as [t|]; [|discriminate].
      cbn [value ret fst]. intros [= <- _].
      destruct (t =? "deepseek")%string; auto.
    + cbn [value ret fst]. intros [= <- _]. auto.
Qed.

Lemma aggregate_results_sound (rs : list AgentResult) :
  Forall P (requests (aggregate_results rt w self rs)).
Proof.
  assert (Hc : forall responses results,
             Forall P (requests (_aggregate_consensus rt w self responses results))).
  { intros responses results. unfold _aggregate_consensus.
    assert (Hgen : Forall P (requests
              (do prepared <- prepare_synthesis rt w self responses;
               try_except (run rt prepared.1 (JStr prepared.2)) is_Exception
                 (fun _ => ret (join nl (combined responses)))))).
    { apply Forall_requests_bind.
      - rewrite prepare_synthesis_requests. constructor.
      - intros [agent prompt] Hprepared.
        apply Forall_requests_try_except; [|auto with requests].
        eapply run_sound, prepare_synthesis_sound, Hprepared. }
    destruct responses as [|only [|second rest]]; auto with requests. }
  unfold aggregate_results.
  destruct (List.filter is_success rs); [auto with requests|].
  destruct (_ =? _)%string; apply Hc.
Qed.

Lemma orchestrate_sound (user_input : string) :
  Forall P (requests (orchestrate rt w self user_input)).
Proof.
  unfold orchestrate.
  apply Forall_requests_bind; [apply decompose_task_sound|]. intros subtasks _.
  apply Forall_requests_bind; [apply fan_out_sound|]. intros results _.
  apply Forall_requests_bind; [apply aggregate_results_sound|]. intros final _.
  apply Forall_requests_bind; auto with requests.
Qed.

End Pipeline.

(** C9. A request built by an agent whose provider type is "deepseek"
    carries a non-empty [tools] entry: the agent's tools when it has some,
    otherwise the one placeholder tool.  So it is for every request of a run
    of such an agent, and for every request of [orchestrate] when every agent
    the world constructs is a DeepSeek agent.  The synthesis step also puts
    the placeholder into an empty tool list itself when the configuration
    file names DeepSeek. *)
Theorem C9_deepseek_requests_carry_tools
    (rt : Runtime) (a : UniversalAgent) (messages : list Message) (input : json)
    (w : World) (self : TaskOrchestrator) (user_input : string)
    (responses : list string) :
  (provider_type a = "deepseek" ->
   (exists ts, p_tools (build_api_params a messages) = Some ts /\ ts <> [])
   /\ (tools a = [] -> p_tools (build_api_params a messages) = Some [dummy_tool])
   /\ Forall (fun p => exists ts, p_tools p = Some ts /\ ts <> [])
             (requests (run rt a input)))
  /\ ((forall s agent, new_agent w s = Ok agent -> provider_type agent = "deepseek") ->
      Forall (fun p => exists ts, p_tools p = Some ts /\ ts <> [])
             (requests (orchestrate rt w self user_input)))
  /\ (forall agent prompt,
        value (prepare_synthesis rt w self responses) = Ok (agent, prompt) ->
        file_provider_type w = Ok "deepseek" ->
        tools agent <> []).
Proof.
  split; [|split].
  - intros Hp. split; [apply build_api_params_deepseek, Hp|]. split.
    + intros Hnone. unfold build_api_params. rewrite Hp, Hnone. reflexivity.
    + eapply Forall_impl; [apply run_requests_built|].
      intros p [ms ->]. apply build_api_params_deepseek, Hp.
  - intros Hworld.
    apply (orchestrate_sound rt w self (fun agent => provider_type agent = "deepseek"));
      auto using build_api_params_deepseek.
  - intros agent prompt. unfold prepare_synthesis.
    rewrite value_bind.
    destruct (value (try_except _ _ _)) as [a0|]; [|discriminate].
    rewrite value_bind.
    destruct (value (lift (orchestrator_key self "synthesis_prompt" synthesis_prompt)));
      [|discriminate].
    rewrite value_bind.
    destruct (value (lift (str_format rt _ _))); [|discriminate].
    rewrite value_bind.
    destruct (tools (without_completion_tool a0)) as [|t ts] eqn:Htools.
    + intros Hv Hfile. rewrite value_bind, Hfile in Hv.
      cbn [lift value fst ret] in Hv. simpl in Hv.
      injection Hv as <- _. discriminate.
    + cbn [ret value fst]. intros [= <- _] _. rewrite Htools. discriminate.
Qed.

Lemma C9_witness :
  Forall (fun p => exists ts, p_tools p = Some ts /\ ts <> [])
         (requests (orchestrate Scenarios.runtime Scenarios.malformed
                      (Scenarios.orchestrator_for 2) "q")).
Proof.
  apply (C9_deepseek_requests_carry_tools Scenarios.runtime
           (Scenarios.agent_with "deepseek" (Some 1) (Scenarios.says "not json"))
           [] (JStr "q") Scenarios.malformed (Scenarios.orchestrator_for 2) "q" []).
  intros s agent [= <-]. reflexivity.
Defined.

(** ** Order of the collected results *)

Lemma append_cons (c : ascii) (s t : string) : String c s ++ t = String c (s ++ t).
Proof. reflexivity. Qed.

Lemma append_assoc (s1 s2 s3 : string) : (s1 ++ s2) ++ s3 = s1 ++ (s2 ++ s3).
Proof.
  induction s1 as [|c s1 IH]; [reflexivity|].
  rewrite !append_cons, IH. reflexivity.
Qed.

Lemma append_empty_r (s : string) : s ++ "" = s.
Proof.
  induction s as [|c s IH]; [reflexivity|].
  rewrite append_cons, IH. reflexivity.
Qed.

Lemma insert_by_agent_id_Permutation (r : AgentResult) (l : list AgentResult) :
  insert_by_agent_id r l ≡ₚ r :: l.
Proof.
  induction l as [|x l IH]; simpl; [reflexivity|].
  destruct (agent_id r <=? agent_id x)%Z; [reflexivity|].
  rewrite IH. apply perm_swap.
Qed.

Lemma sort_by_agent_id_Permutation (l : list AgentResult) : sort_by_agent_id l ≡ₚ l.
Proof.
  induction l as [|x l IH]; simpl; [reflexivity|].
  rewrite insert_by_agent_id_Permutation, IH. reflexivity.
Qed.

Lemma insert_by_agent_id_sorted (r : AgentResult) (l : list AgentResult) :
  StronglySorted by_agent_id l -> StronglySorted by_agent_id (insert_by_agent_id r l).
Proof.
  induction l as [|x l IH]; intros Hs; simpl.
  - repeat constructor.
  - inversion Hs as [|? ? Hl Hx]; subst.
    destruct (Z.leb_spec (agent_id r) (agent_id x)) as [Hle|Hgt].
    + constructor; [exact Hs|]. constructor; [exact Hle|].
      eapply Forall_impl; [exact Hx|]. unfold by_agent_id. intros y Hy. lia.
    + constructor; [apply IH, Hl|].
      rewrite insert_by_agent_id_Permutation. constructor; [|exact Hx].
      unfold by_agent_id. lia.
Qed.

Lemma sort_by_agent_id_sorted (l : list AgentResult) :
  StronglySorted by_agent_id (sort_by_agent_id l).
Proof.
  induction l as [|x l IH]; simpl; [constructor|].
  apply insert_by_agent_id_sorted, IH.
Qed.

Lemma filter_sorted (f : AgentResult -> bool) (l : list AgentResult) :
  StronglySorted by_agent_id l -> StronglySorted by_agent_id (List.filter f l).
Proof.
  induction 1 as [|x l Hl IH Hx]; simpl; [constructor|].
  destruct (f x); [|exact IH].
  constructor; [exact IH|].
  apply List.Forall_forall. intros y Hy.
  apply filter_In in Hy as [Hy _].
  exact (proj1 (List.Forall_forall _ _) Hx y Hy).
Qed.

Lemma sorted_agent_ids (l : list AgentResult) :
  StronglySorted by_agent_id l -> StronglySorted Z.le (List.map agent_id l).
Proof.
  induction 1 as [|x l Hl IH Hx]; simpl; constructor; [exact IH|].
  apply List.Forall_forall. intros k Hk.
  apply in_map_iff in Hk as (y & <- & Hy).
  exact (proj1 (List.Forall_forall _ _) Hx y Hy).
Qed.

Lemma filter_Permutation_bool {A} (f : A -> bool) (l l' : list A) :
  l ≡ₚ l' -> List.filter f l ≡ₚ List.filter f l'.
Proof.
  induction 1 as [|x l l' _ IH|x y l|l l' l'' _ IH1 _ IH2]; simpl.
  - reflexivity.
  - destruct (f x); [constructor|]; exact IH.
  - destruct (f x), (f y); try reflexivity. apply perm_swap.
  - etransitivity; eassumption.
Qed.

(** The concatenation fallback, block by block. *)
Lemma join_combined_blocks (h : nat -> string) (texts : list string) :
  join nl (concat (imap (fun (i : nat) text => [h i; text; ""]) texts))
  = join nl (imap (fun (i : nat) text => h i ++ nl ++ text ++ nl) texts).
Proof.
  revert h. induction texts as [|x texts IH]; intros h; [reflexivity|].
  rewrite !imap_cons. specialize (IH (h ∘ S)).
  change (concat ([h 0%nat; x; ""] :: imap ((fun (i : nat) text => [h i; text; ""]) ∘ S) texts))
    with (h 0%nat :: x :: "" ::
          concat (imap (fun (i : nat) text => [(h ∘ S) i; text; ""]) texts)).
  change (imap ((fun (i : nat) text => h i ++ nl ++ text ++ nl) ∘ S) texts)
    with (imap (fun (i : nat) text => (h ∘ S) i ++ nl ++ text ++ nl) texts).
  destruct texts as [|y texts].
  - simpl. rewrite append_empty_r. reflexivity.
  - remember (y :: texts) as rest.
    assert (Hne1 : exists b bs,
               imap (fun (i : nat) text => (h ∘ S) i ++ nl ++ text ++ nl) rest = b :: bs)
      by (subst rest; rewrite imap_cons; eauto).
    assert (Hne2 : exists b bs,
               concat (imap (fun (i : nat) text => [(h ∘ S) i; text; ""]) rest) = b :: bs)
      by (subst rest; rewrite imap_cons; simpl; eauto).
    destruct Hne1 as (b1 & bs1 & Hb1). destruct Hne2 as (b2 & bs2 & Hb2).
    rewrite Hb1, Hb2 in *.
    cbn [join]. cbn [join] in IH. rewrite IH.
    rewrite !append_assoc. reflexivity.
Qed.

(** Aggregation when the run of the synthesis agent raises: the successful
    responses in the order of the list, each under its header, one block per
    response, joined by line feeds. *)
Lemma aggregation_falls_back_to_concatenation
    (rt : Runtime) (w : World) (self : TaskOrchestrator) (rs : list AgentResult)
    (agent : UniversalAgent) (prompt : string) (e : exn) :
  let successes := List.filter is_success rs in
  let responses := List.map response successes in
  (2 <= List.length successes)%nat ->
  value (prepare_synthesis rt w self responses) = Ok (agent, prompt) ->
  value (run rt agent (JStr prompt)) = Raise e ->
  value (aggregate_results rt w self rs)
  = Ok (join nl
          (imap (fun (i : nat) text =>
                   ("=== Agent " ++ pretty (S i) ++ " Response ===") ++ nl ++ text ++ nl)
                responses)).
Proof.
  intros successes responses Hlen Hprepare Hrun.
  unfold aggregate_results. fold successes.
  destruct successes as [|r1 [|r2 rest]] eqn:Hs; simpl in Hlen; try lia.
  assert (Hc : value (_aggregate_consensus rt w self responses (r1 :: r2 :: rest))
               = Ok (join nl (combined responses))).
  { unfold _aggregate_consensus. subst responses. cbn [List.map] in *.
    rewrite value_bind, Hprepare, value_try_except. cbn [fst snd].
    rewrite Hrun. reflexivity. }
  unfold combined in Hc. rewrite join_combined_blocks in Hc.
  destruct (_ =? _)%string; exact Hc.
Qed.

(** ** The whole of [orchestrate] *)

Lemma elem_of_range (n i : Z) : i ∈ range n <-> 0 <= i < n.
Proof.
  unfold range. rewrite list_elem_of_fmap. split.
  - intros (k & -> & Hk). apply elem_of_seq in Hk. lia.
  - intros Hi. exists (Z.to_nat i). split; [lia|]. apply elem_of_seq. lia.
Qed.

Lemma NoDup_range (n : Z) : NoDup (range n).
Proof.
  unfold range. apply NoDup_fmap_2; [|apply NoDup_seq].
  intros x y Hxy. lia.
Qed.

Section Returns.
Variable rt : Runtime.
Variable w : World.
Variable self : TaskOrchestrator.

Lemma item_in_range (questions : list json) (i : Z) :
  0 <= i < Z.of_nat (List.length questions) ->
  exists q, item (JArr questions) i = Ok q.
Proof.
  intros Hi. unfold item.
  destruct (Z.ltb_spec i 0) as [|_]; [lia|].
  destruct (Z.ltb_spec i 0) as [|_]; [lia|].
  destruct (questions !! Z.to_nat i) as [q|] eqn:Hq; [eauto|].
  apply lookup_ge_None in Hq. lia.
Qed.

Lemma submit_all_in_range (questions : list json) (ids : list Z) :
  (forall i, i ∈ ids -> 0 <= i < Z.of_nat (List.length questions)) ->
  (submit_all rt w self (JArr questions) ids).2 = None
  /\ (submit_all rt w self (JArr questions) ids).1.*1 = ids.
Proof.
  induction ids as [|i ids IH]; intros Hids; [split; reflexivity|].
  cbn [submit_all].
  destruct (item_in_range questions i) as [q Hq]; [apply Hids; left|].
  rewrite Hq.
  destruct IH as [IH1 IH2]; [intros j Hj; apply Hids; right; exact Hj|].
  destruct (submit_all rt w self (JArr questions) ids) as [futures e].
  simpl in *. subst. split; reflexivity.
Qed.

Lemma future_of_submitted (futures : list (Z * M ApiParams AgentResult)) (i : Z) :
  i ∈ futures.*1 -> is_Some (future_of futures i).
Proof.
  unfold future_of. induction futures as [|[j m] futures IH]; simpl.
  - intros H. inversion H.
  - intros H. destruct (Z.eqb_spec j i) as [->|Hne]; [eexists; reflexivity|].
    apply IH. inversion H; subst; [contradiction|assumption].
Qed.

Lemma length_omap_all {A B} (g : A -> option B) (l : list A) :
  (forall x, x ∈ l -> is_Some (g x)) -> List.length (omap g l) = List.length l.
Proof.
  induction l as [|x l IH]; intros Hl; [reflexivity|].
  destruct (Hl x) as [y Hy]; [left|].
  change (omap g (x :: l)) with (match g x with Some y => y :: omap g l | None => omap g l end).
  rewrite Hy. simpl. f_equal. apply IH. intros z Hz. apply Hl. right. exact Hz.
Qed.

Lemma collect_all_arrived (futures : list (Z * M ApiParams AgentResult)) :
  NoDup futures.*1 ->
  (forall i, i ∈ futures.*1 -> i ∈ arrival w) ->
  exists rs, collect w self futures = Ok rs.
Proof.
  intros Hnodup Harrived. unfold collect.
  set (g := fun i : Z => (fun m => (i, m)) <$> future_of futures i).
  assert (Hlen : (List.length futures <= List.length (omap g (remove_dups (arrival w))))%nat).
  { assert (Hsub : futures.*1 ⊆+ remove_dups (arrival w)).
    { apply NoDup_submseteq; [exact Hnodup|].
      intros i Hi. apply elem_of_remove_dups, Harrived, Hi. }
    apply submseteq_Permutation in Hsub as [k Hk].
    rewrite Hk, omap_app, length_app.
    rewrite length_omap_all.
    - rewrite length_fmap. lia.
    - intros i Hi. unfold g.
      destruct (future_of_submitted futures i Hi) as [m ->]. eexists; reflexivity. }
  destruct (Nat.ltb_spec 0 (List.length futures
                            - List.length (omap g (remove_dups (arrival w))))) as [Hlt|_];
    [lia|eauto].
Qed.

Lemma fan_out_returns (questions : list json) :
  0 < num_agents self ->
  Z.of_nat (List.length questions) = num_agents self ->
  (forall i, 0 <= i < num_agents self -> i ∈ arrival w) ->
  exists rs, value (fan_out rt w self (JArr questions)) = Ok rs.
Proof.
  intros Hpos Hlen Harrived. unfold fan_out.
  destruct (Z.leb_spec (num_agents self) 0) as [|_]; [lia|].
  destruct (submit_all_in_range questions (range (num_agents self))) as [He Hids].
  { intros i Hi. apply elem_of_range in Hi. lia. }
  destruct (submit_all rt w self (JArr questions) (range (num_agents self)))
    as [futures e].
  simpl in He, Hids. subst e. cbn [value fst].
  apply collect_all_arrived.
  - rewrite Hids. apply NoDup_range.
  - rewrite Hids. intros i Hi. apply Harrived, elem_of_range, Hi.
Qed.

Lemma aggregate_results_returns (rs : list AgentResult) :
  (forall responses, is_ok (value (prepare_synthesis rt w self responses)) = true) ->
  exists s, value (aggregate_results rt w self rs) = Ok s.
Proof.
  intros Hprepare.
  assert (Hc : forall responses results,
             exists s, value (_aggregate_consensus rt w self responses results) = Ok s).
  { intros responses results. unfold _aggregate_consensus.
    assert (Hgen : exists s,
              value (do prepared <- prepare_synthesis rt w self responses;
                     try_except (run rt prepared.1 (JStr prepared.2)) is_Exception
                       (fun _ => ret (join nl (combined responses)))) = Ok s).
    { rewrite value_bind. specialize (Hprepare responses).
      destruct (value (prepare_synthesis rt w self responses)) as [[agent prompt]|];
        [|discriminate].
      rewrite value_try_except.
      destruct (value (run rt _ _)); eexists; reflexivity. }
    destruct responses as [|only [|second rest]]; [exact Hgen| |exact Hgen].
    eexists; reflexivity. }
  unfold aggregate_results.
  destruct (List.filter is_success rs); [eexists; reflexivity|].
  destruct (_ =? _)%string; apply Hc.
Qed.

End Returns.

(** C1, as stated, fails: a provider error raised while the decomposition
    agent runs is not a [ValueError], is not caught by [decompose_task], and
    leaves [orchestrate]. *)
Lemma C1_provider_error_in_decomposition_propagates :
  value (orchestrate Scenarios.runtime Scenarios.provider_down
           (Scenarios.orchestrator_for 2) "q")
  = Raise (mk_exn DeepSeekAPIError "DeepSeek API call failed: boom")
  /\ ~ (exists s, value (orchestrate Scenarios.runtime Scenarios.provider_down
                          (Scenarios.orchestrator_for 2) "q") = Ok s).
Proof.
  assert (H : value (orchestrate Scenarios.runtime Scenarios.provider_down
                       (Scenarios.orchestrator_for 2) "q")
              = Raise (mk_exn DeepSeekAPIError "DeepSeek API call failed: boom"))
    by (vm_compute; reflexivity).
  split; [exact H|]. rewrite H. intros [s Hs]. discriminate.
Qed.

(** C1, amended. Once decomposition has returned as many sub-questions
    as there are agents, every worker completes before the batch deadline,
    the synthesis step can be set up (agent and prompt) and the summary can
    be logged, [orchestrate] returns a string: nothing raised while a worker
    creates or runs its agent, or while the synthesis agent runs, leaves
    it. *)
Theorem C1_orchestrate_returns_a_string
    (rt : Runtime) (w : World) (self : TaskOrchestrator) (user_input : string)
    (questions : list json) :
  0 < num_agents self ->
  value (decompose_task rt w self user_input (num_agents self)) = Ok (JArr questions) ->
  Z.of_nat (List.length questions) = num_agents self ->
  (forall i, 0 <= i < num_agents self -> i ∈ arrival w) ->
  (forall responses, is_ok (value (prepare_synthesis rt w self responses)) = true) ->
  log_execution_summary self = Ok tt ->
  exists s, value (orchestrate rt w self user_input) = Ok s.
Proof.
  intros Hpos Hdecompose Hlen Harrived Hprepare Hlog.
  unfold orchestrate. rewrite value_bind, Hdecompose, value_bind.
  destruct (fan_out_returns rt w self questions Hpos Hlen Harrived) as [rs ->].
  rewrite value_bind.
  destruct (aggregate_results_returns rt w self (sort_by_agent_id rs) Hprepare)
    as [s ->].
  rewrite value_bind, Hlog. exists s. reflexivity.
Qed.

(** Worker 0 cannot reach its model, worker 1 answers, both in time:
    the error stays inside the record of worker 0. *)
Lemma C1_witness :
  exists s, value (orchestrate Scenarios.runtime (Scenarios.two_workers [0; 1])
                     (Scenarios.orchestrator_for 2) "q") = Ok s.
Proof.
  apply (C1_orchestrate_returns_a_string Scenarios.runtime
           (Scenarios.two_workers [0; 1]) (Scenarios.orchestrator_for 2) "q"
           [JStr "a"; JStr "b"]).
  - reflexivity.
  - vm_compute. reflexivity.
  - reflexivity.
  - intros i Hi. assert (Hcases : i = 0 \/ i = 1) by (simpl in Hi; lia).
    destruct Hcases as [-> | ->]; simpl; [left | right; left].
  - intros responses. reflexivity.
  - reflexivity.
Defined.

(** C2. Two workers, of which worker 1 has not completed when the batch
    timeout expires: [orchestrate] raises the [TimeoutError] of
    [as_completed] instead of returning a string.  With both workers in time
    the same run returns the answer of worker 1. *)
Lemma C2_batch_timeout_leaves_orchestrate :
  value (orchestrate Scenarios.runtime (Scenarios.two_workers [0])
           (Scenarios.orchestrator_for 2) "q")
  = Raise (mk_exn TimeoutError "1 (of 2) futures unfinished")
  /\ value (orchestrate Scenarios.runtime (Scenarios.two_workers [0; 1])
              (Scenarios.orchestrator_for 2) "q")
     = Ok "Answer 2".
Proof. split; vm_compute; reflexivity. Qed.

(** * Further properties *)

Import Observations.

(** ** The agent *)

(** X1. When the client raises on the first request, [run] raises the
    exception of the provider: a [DeepSeekAPIError], an
    [OpenRouterAPIError] or a plain [Exception] by provider type, whose text
    is the fixed prefix followed by the text of the client's exception (and a
    hint, for some texts); that one request is all it has sent. *)
Theorem X1_run_raises_the_provider_error
    (rt : Runtime) (a : UniversalAgent) (user_input : json) (e : exn) :
  0 < max_iterations a ->
  client a (build_api_params a [SystemMessage (system_prompt a); UserMessage user_input])
    = Raise e ->
  exists e' hint,
    run rt a user_input
    = (Raise e',
       [build_api_params a [SystemMessage (system_prompt a); UserMessage user_input]])
    /\ (exn_cls e', exn_str e')
       = if (provider_type a =? "deepseek")%string
         then (DeepSeekAPIError, "DeepSeek API call failed: " ++ exn_str e ++ hint)
         else if (provider_type a =? "openrouter")%string
         then (OpenRouterAPIError, "OpenRouter API call failed: " ++ exn_str e ++ hint)
         else (Exception, "LLM call failed: " ++ exn_str e ++ hint).
Proof.
  intros Hmax Hclient. unfold run. rewrite run_loop_eq.
  destruct (decide (0 < max_iterations a)) as [_|]; [|contradiction].
  unfold iteration_body. rewrite call_llm_eq, Hclient. cbn [bind].
  unfold llm_error.
  destruct (provider_type a =? "deepseek")%string.
  - destruct (contains "api_key" (lower (exn_str e)));
      [|destruct (contains "rate" (lower (exn_str e)))];
      eexists; eexists; (split; [reflexivity|]); cbn [exn_cls exn_str];
      rewrite ?append_assoc; try reflexivity.
    instantiate (1 := ""). rewrite append_empty_r. reflexivity.
  - destruct (provider_type a =? "openrouter")%string.
    + destruct (contains "api_key" (lower (exn_str e)));
        eexists; eexists; (split; [reflexivity|]); cbn [exn_cls exn_str];
        rewrite ?append_assoc; try reflexivity.
      instantiate (1 := ""). rewrite append_empty_r. reflexivity.
    + eexists; exists ""; (split; [reflexivity|]); cbn [exn_cls exn_str].
      rewrite append_empty_r. reflexivity.
Qed.

Lemma X1_witness :
  exists e' hint,
    run Scenarios.runtime
      (Scenarios.agent_with "deepseek" (Some 1) (Scenarios.fails "rate limit")) (JStr "q")
    = (Raise e',
       [build_api_params
          (Scenarios.agent_with "deepseek" (Some 1) (Scenarios.fails "rate limit"))
          [SystemMessage "You are a helpful assistant."; UserMessage (JStr "q")]])
    /\ (exn_cls e', exn_str e')
       = (DeepSeekAPIError, "DeepSeek API call failed: " ++ "rate limit" ++ hint).
Proof.
  apply (X1_run_raises_the_provider_error Scenarios.runtime
           (Scenarios.agent_with "deepseek" (Some 1) (Scenarios.fails "rate limit"))
           (JStr "q") (mk_exn Exception "rate limit")).
  - reflexivity.
  - reflexivity.
Defined.

(** X2. With an iteration cap of zero or less the loop body never runs:
    [run] sends no request and returns the fixed text, and a worker running
    such an agent on a sub-question reports success with that text. *)
Theorem X2_no_iterations_no_requests
    (rt : Runtime) (a : UniversalAgent) (user_input : json) :
  max_iterations a <= 0 ->
  run rt a user_input
  = (Ok "Maximum iterations reached. The agent may be stuck in a loop.", [])
  /\ forall (w : World) (self : TaskOrchestrator) (i : Z) (q : string),
       user_input = JStr q ->
       value (_create_agent_with_model w i (_get_agent_model w self i)) = Ok a ->
       exists r,
         run_agent_parallel rt w self i (JStr q) = (Ok r, [])
         /\ status r = success
         /\ response r = "Maximum iterations reached. The agent may be stuck in a loop.".
Proof.
  intros Hmax.
  assert (Hrun : run rt a user_input
                 = (Ok "Maximum iterations reached. The agent may be stuck in a loop.", [])).
  { unfold run. rewrite run_loop_eq.
    destruct (decide (0 < max_iterations a)) as [|_]; [lia|]. reflexivity. }
  split; [exact Hrun|].
  intros w self i q -> Hcreate. unfold run_agent_parallel.
  assert (Hprogress : (if silent self then Ok tt else slice_check (JStr q)) = Ok tt)
    by (destruct (silent self); reflexivity).
  rewrite Hprogress.
  assert (Hc : _create_agent_with_model w i (_get_agent_model w self i) = (Ok a, [])).
  { rewrite create_agent_eq in *. cbn [value fst] in Hcreate. rewrite Hcreate.
    reflexivity. }
  rewrite Hc. cbn [bind try_except]. rewrite Hrun. cbn [bind len lift ret app].
  eexists. split; [reflexivity|]. split; reflexivity.
Qed.

Lemma X2_witness :
  run Scenarios.runtime
    (Scenarios.agent_with "deepseek" (Some 0) (Scenarios.says "never asked")) (JStr "q")
  = (Ok "Maximum iterations reached. The agent may be stuck in a loop.", []).
Proof.
  apply (X2_no_iterations_no_requests Scenarios.runtime
           (Scenarios.agent_with "deepseek" (Some 0) (Scenarios.says "never asked"))
           (JStr "q")).
  vm_compute. discriminate.
Defined.

Lemma strs_of_raises (items : list json) (i : nat) (e : exn) :
  strs_of i items = Raise e -> exn_cls e = TypeError.
Proof.
  revert i. induction items as [|v items IH]; intros i; [discriminate|].
  destruct v; simpl; try (intros [= <-]; reflexivity).
  destruct (strs_of (S i) items) eqn:Hrest; [discriminate|].
  intros [= <-]. eapply IH, Hrest.
Qed.

Lemma join_values_raises (sep : string) (items : list json) (e : exn) :
  join_values sep items = Raise e -> exn_cls e = TypeError.
Proof.
  unfold join_values. destruct (strs_of 0 items) eqn:Hs; [discriminate|].
  intros [= <-]. eapply strs_of_raises, Hs.
Qed.

(** Why a pass through the loop body raises. *)
Lemma iteration_body_raises (rt : Runtime) (a : UniversalAgent)
    (messages : list Message) (full : list json) (e : exn) :
  let p := build_api_params a messages in
  value (iteration_body rt a messages full) = Raise e ->
  (exists e0, client a p = Raise e0 /\ e = llm_error a e0)
  \/ (exists c, client a p = Ok c /\ choices c = [] /\ exn_cls e = IndexError)
  \/ (completes a p = true /\ exn_cls e = TypeError).
Proof.
  intros p. unfold iteration_body. rewrite call_llm_eq. fold p.
  destruct (client a p) as [response|e0] eqn:Hclient; simpl.
  2: { intros [= <-]. left. eauto. }
  destruct (choices response) as [|m rest] eqn:Hchoices; simpl.
  1: { intros [= <-]. right. left. eauto. }
  pose proof (handle_tool_calls_flag rt a (tool_calls m)
                (messages ++ [AssistantTurn (content m)
                                (match tool_calls m with [] => None | t :: l => Some (t :: l) end)])
                (capture rt m full)) as Hflag.
  destruct (handle_tool_calls rt a (tool_calls m) _ _) as [[messages' full'] flag].
  simpl in Hflag. destruct flag; simpl; [|discriminate].
  destruct (join_values sep2 full') eqn:Hjoin; simpl; [discriminate|].
  intros [= <-]. right. right. split.
  - unfold completes, answer. rewrite Hclient, Hchoices. simpl. symmetry. exact Hflag.
  - eapply join_values_raises, Hjoin.
Qed.

Lemma run_loop_raises (rt : Runtime) (a : UniversalAgent) (max : Z) (n : nat) :
  forall (it : Z) (messages : list Message) (texts : list string) (e : exn),
    Z.to_nat (max - it) = n ->
    value (run_loop rt a max it messages (JStr <$> texts)) = Raise e ->
    exists p,
      last (requests (run_loop rt a max it messages (JStr <$> texts))) = Some p
      /\ ((exists e0, client a p = Raise e0 /\ e = llm_error a e0)
          \/ (exists c, client a p = Ok c /\ choices c = [] /\ exn_cls e = IndexError)
          \/ (completes a p = true /\ exn_cls e = TypeError)).
Proof.
  induction n as [|n IH]; intros it messages texts e Hn;
    rewrite run_loop_eq; destruct (decide (it < max)) as [Hlt|Hge]; try lia.
  - rewrite final_answer_strings. discriminate.
  - pose proof (iteration_body_raises rt a messages (JStr <$> texts)) as Hraise.
    destruct (iteration_body_cases rt a messages (JStr <$> texts)) as (v & Hbody & Hv).
    rewrite Hbody in *. cbn [value fst] in Hraise.
    destruct v as [[answer|messages' full']|e0]; cbn [bind ret].
    + discriminate.
    + destruct Hv as (_ & _ & ->).
      assert (Hfull : ((JStr <$> texts) ++ heard a (build_api_params a messages))%list
                      = JStr <$> (texts ++ match said a (build_api_params a messages) with
                                           | Some s => [s]
                                           | None => []
                                           end)%list).
      { rewrite fmap_app. unfold heard. destruct (said a _); reflexivity. }
      rewrite Hfull.
      specialize (IH (it + 1) messages'
                    (texts ++ match said a (build_api_params a messages) with
                              | Some s => [s]
                              | None => []
                              end)%list e ltac:(lia)).
      destruct (run_loop rt a max (it + 1) messages' _) as [r log].
      cbn [value requests fst snd app] in *.
      intros Hr. destruct (IH Hr) as (p & Hlast & Hp).
      exists p. split; [|exact Hp]. rewrite last_cons, Hlast. reflexivity.
    + cbn [value requests fst snd]. intros [= <-].
      eexists. split; [reflexivity|]. apply Hraise. reflexivity.
Qed.

(** X3. Whatever raises out of [run] comes from the last request it sent:
    the provider's error when the client raised, an [IndexError] when the
    completion held no choice, or a [TypeError] when a handled completion
    call carried text that is not a string.  Nothing a tool raises leaves
    [run]. *)
Theorem X3_exceptions_of_run
    (rt : Runtime) (a : UniversalAgent) (user_input : json) (e : exn) :
  value (run rt a user_input) = Raise e ->
  exists p,
    last (requests (run rt a user_input)) = Some p
    /\ ((exists e0, client a p = Raise e0 /\ e = llm_error a e0)
        \/ (exists c, client a p = Ok c /\ choices c = [] /\ exn_cls e = IndexError)
        \/ (completes a p = true /\ exn_cls e = TypeError)).
Proof.
  unfold run.
  apply (run_loop_raises rt a (max_iterations a) (Z.to_nat (max_iterations a - 0)) 0
           [SystemMessage (system_prompt a); UserMessage user_input] [] e eq_refl).
Qed.

Lemma X3_witness :
  exists p,
    last (requests (run Scenarios.runtime
                      (Scenarios.agent_with "deepseek" (Some 3) (Scenarios.fails "boom"))
                      (JStr "q"))) = Some p
    /\ ((exists e0,
           client (Scenarios.agent_with "deepseek" (Some 3) (Scenarios.fails "boom")) p
           = Raise e0
           /\ mk_exn DeepSeekAPIError "DeepSeek API call failed: boom"
              = llm_error (Scenarios.agent_with "deepseek" (Some 3) (Scenarios.fails "boom")) e0)
        \/ (exists c,
              client (Scenarios.agent_with "deepseek" (Some 3) (Scenarios.fails "boom")) p
              = Ok c
              /\ choices c = []
              /\ exn_cls (mk_exn DeepSeekAPIError "DeepSeek API call failed: boom") = IndexError)
        \/ (completes (Scenarios.agent_with "deepseek" (Some 3) (Scenarios.fails "boom")) p
            = true
            /\ exn_cls (mk_exn DeepSeekAPIError "DeepSeek API call failed: boom") = TypeError)).
Proof.
  apply (X3_exceptions_of_run Scenarios.runtime
           (Scenarios.agent_with "deepseek" (Some 3) (Scenarios.fails "boom")) (JStr "q")
           (mk_exn DeepSeekAPIError "DeepSeek API call failed: boom")).
  vm_compute. reflexivity.
Defined.

(** X4. The loop over the tool calls of an answer handles the calls in
    order up to and including the first call of the completion tool, and
    appends one tool message for each; the calls after that one are never
    handled.  It reports completion exactly when the answer holds a call of
    the completion tool, wherever in the list that call is. *)
Theorem X4_tool_calls_after_completion_are_not_handled
    (rt : Runtime) (a : UniversalAgent) (calls : list ToolCall)
    (messages : list Message) (full : list json) :
  let r := handle_tool_calls rt a calls messages full in
  r.1.1 = (messages ++ (handle_tool_call rt a <$> take (handled calls) calls))%list
  /\ (handled calls <= List.length calls)%nat
  /\ (r.2 = true <-> exists c, c ∈ calls /\ tc_name c = "mark_task_complete")
  /\ (r.2 = false -> handled calls = List.length calls /\ r.1.2 = full)
  /\ (r.2 = true ->
      exists c, calls !! pred (handled calls) = Some c
                /\ tc_name c = "mark_task_complete"
                /\ r.1.2 = (full ++ completion_text rt c)%list
                /\ forall j c', (j < pred (handled calls))%nat -> calls !! j = Some c' ->
                                tc_name c' <> "mark_task_complete").
Proof.
  assert (Hflag : forall calls messages,
             (handle_tool_calls rt a calls messages full).2 = true
             <-> exists c, c ∈ calls /\ tc_name c = "mark_task_complete").
  { clear calls messages. intros calls.
    induction calls as [|tc calls IH]; intros messages; cbn [handle_tool_calls].
    - cbn. split; [discriminate|]. intros (c & Hc & _). inversion Hc.
    - destruct (String.eqb_spec (tc_name tc) mark_task_complete) as [Heq|Hne].
      + cbn. split; [|reflexivity]. intros _. exists tc. split; [left|exact Heq].
      + rewrite IH. split.
        * intros (c & Hc & Hname). exists c. split; [right; exact Hc|exact Hname].
        * intros (c & Hc & Hname). apply elem_of_cons in Hc as [-> | Hc];
            [contradiction|]. eauto. }
  revert messages. induction calls as [|tc calls IH]; intros messages; cbn zeta.
  - split; [simpl; rewrite app_nil_r; reflexivity|]. split; [simpl; lia|].
    split; [apply Hflag|]. simpl. split; [auto|discriminate].
  - split; [|split; [|split; [apply Hflag|]]].
    + cbn [handle_tool_calls handled].
      destruct (String.eqb_spec (tc_name tc) mark_task_complete) as [Heq|Hne].
      * reflexivity.
      * destruct (IH (messages ++ [handle_tool_call rt a tc])%list) as (I1 & _).
        cbn zeta in I1. rewrite I1. cbn [take fmap list_fmap].
        rewrite <- app_assoc. reflexivity.
    + cbn [handled]. destruct (tc_name tc =? mark_task_complete)%string; [simpl; lia|].
      destruct (IH messages) as (_ & I2 & _). simpl. lia.
    + cbn [handle_tool_calls handled].
      destruct (String.eqb_spec (tc_name tc) mark_task_complete) as [Heq|Hne].
      * cbn [fst snd]. split; [discriminate|].
        intros _. exists tc. split; [reflexivity|]. split; [exact Heq|].
        split; [reflexivity|]. intros j c' Hj. simpl in Hj. lia.
      * destruct (IH (messages ++ [handle_tool_call rt a tc])%list)
          as (_ & _ & _ & I3 & I4). cbn zeta in I3, I4. split.
        -- intros Hf. destruct (I3 Hf) as [-> ->]. split; reflexivity.
        -- intros Ht. destruct (I4 Ht) as (c & Hc & Hname & Hfull & Hbefore).
           assert (Hpos : (0 < handled calls)%nat).
           { destruct calls as [|c0 calls']; [simpl in Hc; discriminate|].
             simpl. destruct (tc_name c0 =? mark_task_complete)%string; lia. }
           exists c. split.
           { cbn [pred]. destruct (handled calls) as [|k]; [lia|]. exact Hc. }
           split; [exact Hname|]. split; [exact Hfull|].
           intros j c' Hj Hlook. cbn [pred] in Hj.
           destruct j as [|j]; simpl in Hlook.
           ++ injection Hlook as <-. exact Hne.
           ++ eapply (Hbefore j); [|exact Hlook].
              destruct (handled calls) as [|k]; simpl in *; lia.
Qed.

(** A completion call at the end of the answer, after another call, is
    reported, and both calls are answered. *)
Lemma X4_witness :
  (handle_tool_calls Scenarios.runtime
     (Scenarios.agent_with "deepseek" (Some 1) (Scenarios.says "ok"))
     [ {| tc_id := "1"; tc_name := "search"; tc_arguments := "not json" |};
       {| tc_id := "2"; tc_name := "mark_task_complete"; tc_arguments := "not json" |} ]
     [] []).2 = true
  /\ exists c,
       [ {| tc_id := "1"; tc_name := "search"; tc_arguments := "not json" |};
         {| tc_id := "2"; tc_name := "mark_task_complete"; tc_arguments := "not json" |} ]
       !! 1%nat = Some c
       /\ tc_name c = "mark_task_complete".
Proof.
  destruct (X4_tool_calls_after_completion_are_not_handled
              Scenarios.runtime
              (Scenarios.agent_with "deepseek" (Some 1) (Scenarios.says "ok"))
              [ {| tc_id := "1"; tc_name := "search"; tc_arguments := "not json" |};
                {| tc_id := "2"; tc_name := "mark_task_complete";
                   tc_arguments := "not json" |} ]
              [] [])
    as (_ & _ & Hreported & _ & Hdone).
  assert (Hflag : (handle_tool_calls Scenarios.runtime
                     (Scenarios.agent_with "deepseek" (Some 1) (Scenarios.says "ok"))
                     [ {| tc_id := "1"; tc_name := "search"; tc_arguments := "not json" |};
                       {| tc_id := "2"; tc_name := "mark_task_complete";
                          tc_arguments := "not json" |} ]
                     [] []).2 = true).
  { apply Hreported. eexists. split; [right; left|reflexivity]. }
  split; [exact Hflag|].
  destruct (Hdone Hflag) as (c & Hc & Hname & _).
  exists c. split; [exact Hc|exact Hname].
Defined.

(** X5. A tool call is always answered by a tool message with the id and
    the name of the call.  When the arguments are not JSON the text reports
    the failure and no tool runs, whether the name is known or not; an
    unknown name with arguments that parse gives "Unknown tool"; a known
    tool gets the parsed object as keyword arguments, its result is the
    text, and what it raises is reported as a failure. *)
Theorem X5_tool_errors_become_tool_messages
    (rt : Runtime) (a : UniversalAgent) (tc : ToolCall) :
  let failed e :=
    ToolMessage (tc_id tc) (tc_name tc)
      (json_dumps rt (error_object ("Tool execution failed: " ++ exn_str e))) in
  (exists text, handle_tool_call rt a tc = ToolMessage (tc_id tc) (tc_name tc) text)
  /\ (forall e, json_loads rt (tc_arguments tc) = Raise e ->
                handle_tool_call rt a tc = failed e)
  /\ (forall args, json_loads rt (tc_arguments tc) = Ok args ->
                   tool_mapping a !! tc_name tc = None ->
                   handle_tool_call rt a tc
                   = ToolMessage (tc_id tc) (tc_name tc)
                       (json_dumps rt (error_object ("Unknown tool: " ++ tc_name tc))))
  /\ (forall kwargs f, json_loads rt (tc_arguments tc) = Ok (JObj kwargs) ->
                       tool_mapping a !! tc_name tc = Some f ->
                       handle_tool_call rt a tc
                       = match f kwargs with
                         | Ok v => ToolMessage (tc_id tc) (tc_name tc) (json_dumps rt v)
                         | Raise e => failed e
                         end).
Proof.
  cbn zeta. unfold handle_tool_call. split; [|split; [|split]].
  - destruct (and_then _ _); eexists; reflexivity.
  - intros e ->. reflexivity.
  - intros args -> ->. reflexivity.
  - intros kwargs f -> ->. cbn [and_then call_with_kwargs].
    destruct (f kwargs); reflexivity.
Qed.

Lemma X5_witness :
  handle_tool_call Scenarios.runtime
    (Scenarios.agent_with "deepseek" (Some 1) (Scenarios.says "ok"))
    {| tc_id := "1"; tc_name := "search"; tc_arguments := "not json" |}
  = ToolMessage "1" "search"
      (json_dumps Scenarios.runtime
         (error_object
            ("Tool execution failed: " ++ "Expecting value: line 1 column 1 (char 0)"))).
Proof.
  destruct (X5_tool_errors_become_tool_messages
              Scenarios.runtime
              (Scenarios.agent_with "deepseek" (Some 1) (Scenarios.says "ok"))
              {| tc_id := "1"; tc_name := "search"; tc_arguments := "not json" |})
    as (_ & Hfailed & _).
  exact (Hfailed (mk_exn JSONDecodeError "Expecting value: line 1 column 1 (char 0)")
           eq_refl).
Defined.

(** ** Decomposition and synthesis *)

(** X6. What [decompose_task] returns is either the parsed answer of the
    model, whose length is then the requested count, or the templates cut
    by the slice.  So for a count from 0 to 4 the result always has exactly
    the requested length. *)
Theorem X6_decomposition_has_the_requested_length
    (rt : Runtime) (w : World) (self : TaskOrchestrator)
    (user_input : string) (n : Z) (v : json) :
  value (decompose_task rt w self user_input n) = Ok v ->
  ((len v = Ok n /\ exists text, json_loads rt text = Ok v)
   \/ v = JArr (slice_to n (fallback_questions user_input)))
  /\ (0 <= n <= 4 -> len v = Ok n).
Proof.
  intros Hv.
  assert (Hcases : (len v = Ok n /\ exists text, json_loads rt text = Ok v)
                   \/ v = JArr (slice_to n (fallback_questions user_input))).
  { revert Hv. unfold decompose_task.
    rewrite value_bind. destruct (value (lift (new_agent w QuestionAgent)));
      [|discriminate].
    rewrite value_bind. destruct (value (lift (orchestrator_key self _ _)));
      [|discriminate].
    rewrite value_bind. destruct (value (lift (str_format rt _ _))); [|discriminate].
    rewrite value_try_except, value_bind.
    destruct (value (run rt _ _)) as [response|e].
    - rewrite value_bind. cbn [lift value fst].
      destruct (json_loads rt (strip response)) as [questions|e] eqn:Hloads.
      + rewrite value_bind. cbn [lift value fst].
        destruct (len questions) as [k|e] eqn:Hlen.
        * destruct (Z.eqb_spec k n) as [->|Hne]; cbn [negb raise ret value fst].
          -- intros [= <-]. left. split; [exact Hlen|eauto].
          -- cbn [is_JSONDecodeError is_ValueError exn_cls orb]. intros [= <-].
             right. reflexivity.
        * destruct (is_JSONDecodeError e || is_ValueError e);
            [|discriminate]. cbn [ret value fst]. intros [= <-]. right. reflexivity.
      + destruct (is_JSONDecodeError e || is_ValueError e);
          [|discriminate]. cbn [ret value fst]. intros [= <-]. right. reflexivity.
    - destruct (is_JSONDecodeError e || is_ValueError e);
        [|discriminate]. cbn [ret value fst]. intros [= <-]. right. reflexivity. }
  split; [exact Hcases|].
  intros Hn. destruct Hcases as [[Hlen _] | ->]; [exact Hlen|].
  rewrite slice_to_nonneg by lia. cbn [len]. f_equal.
  rewrite length_take. change (List.length (fallback_questions user_input)) with 4%nat.
  lia.
Qed.

Lemma X6_witness :
  len (JArr (slice_to 3 (fallback_questions "q"))) = Ok 3.
Proof.
  refine (proj2 (X6_decomposition_has_the_requested_length
                   Scenarios.runtime Scenarios.malformed (Scenarios.orchestrator_for 3)
                   "q" 3 (JArr (slice_to 3 (fallback_questions "q"))) _) _).
  - vm_compute. reflexivity.
  - lia.
Defined.

Lemma tools_without_completion_tool (a : UniversalAgent) :
  Forall (fun t => tool_name t <> Some mark_task_complete)
         (tools (without_completion_tool a)).
Proof.
  apply Forall_forall. intros t Ht. cbn [without_completion_tool tools] in Ht.
  apply list_elem_of_filter in Ht as [Ht _]. exact Ht.
Qed.

Lemma build_api_params_offers (a : UniversalAgent) (messages : list Message) :
  Forall (fun t => tool_name t <> Some mark_task_complete) (tools a) ->
  offers mark_task_complete (build_api_params a messages) = false.
Proof.
  intros Htools. unfold offers, build_api_params. cbn [p_tools].
  assert (Hno : existsb (fun t => bool_decide (tool_name t = Some mark_task_complete))
                        (tools a) = false).
  { induction Htools as [|t ts Ht _ IH]; [reflexivity|].
    cbn [existsb]. rewrite IH, bool_decide_eq_false_2 by exact Ht. reflexivity. }
  destruct (provider_type a =? "deepseek")%string;
    destruct (tools a) as [|t ts] eqn:Hts; try reflexivity; exact Hno.
Qed.

Lemma run_never_offers (rt : Runtime) (a : UniversalAgent) (user_input : json) :
  Forall (fun t => tool_name t <> Some mark_task_complete) (tools a) ->
  Forall (fun p => offers mark_task_complete p = false) (requests (run rt a user_input)).
Proof.
  intros Htools. eapply Forall_impl; [apply run_requests_built|].
  intros p [ms ->]. apply build_api_params_offers, Htools.
Qed.

Lemma prepare_synthesis_tools (rt : Runtime) (w : World) (self : TaskOrchestrator)
    (responses : list string) (agent : UniversalAgent) (prompt : string) :
  value (prepare_synthesis rt w self responses) = Ok (agent, prompt) ->
  Forall (fun t => tool_name t <> Some mark_task_complete) (tools agent).
Proof.
  unfold prepare_synthesis. rewrite value_bind.
  destruct (value (try_except _ _ _)) as [a0|]; [|discriminate].
  rewrite value_bind.
  destruct (value (lift (orchestrator_key self "synthesis_prompt" synthesis_prompt)));
    [|discriminate].
  rewrite value_bind.
  destruct (value (lift (str_format rt _ _))); [|discriminate].
  rewrite value_bind.
  pose proof (tools_without_completion_tool a0) as Hclean.
  destruct (tools (without_completion_tool a0)) as [|t ts] eqn:Htools.
  - rewrite value_bind.
    destruct (value (lift (file_provider_type w))) as [ft|]; [|discriminate].
    cbn [ret value fst]. intros [= <- _].
    destruct (ft =? "deepseek")%string.
    + cbn [with_tools tools]. repeat constructor. discriminate.
    + rewrite Htools. constructor.
  - cbn [ret value fst]. intros [= <- _]. rewrite Htools. exact Hclean.
Qed.

(** X7. The completion tool is kept away from the two single-shot steps:
    no request sent by [decompose_task], and none sent by
    [aggregate_results], offers a tool named [mark_task_complete]. *)
Theorem X7_single_shot_steps_never_offer_the_completion_tool
    (rt : Runtime) (w : World) (self : TaskOrchestrator)
    (user_input : string) (n : Z) (rs : list AgentResult) :
  Forall (fun p => offers "mark_task_complete" p = false)
         (requests (decompose_task rt w self user_input n))
  /\ Forall (fun p => offers "mark_task_complete" p = false)
            (requests (aggregate_results rt w self rs)).
Proof.
  split.
  - unfold decompose_task.
    apply Forall_requests_bind; [constructor|]. intros agent _.
    apply Forall_requests_bind; [constructor|]. intros template _.
    apply Forall_requests_bind; [constructor|]. intros prompt _.
    apply Forall_requests_try_except; [|constructor].
    apply Forall_requests_bind.
    { apply run_never_offers, tools_without_completion_tool. }
    intros response _.
    apply Forall_requests_bind; [constructor|]. intros questions _.
    apply Forall_requests_bind; [constructor|]. intros k _.
    destruct (negb _); constructor.
  - assert (Hc : forall responses results,
               Forall (fun p => offers "mark_task_complete" p = false)
                      (requests (_aggregate_consensus rt w self responses results))).
    { intros responses results. unfold _aggregate_consensus.
      assert (Hgen : Forall (fun p => offers "mark_task_complete" p = false)
                (requests
                   (do prepared <- prepare_synthesis rt w self responses;
                    try_except (run rt prepared.1 (JStr prepared.2)) is_Exception
                      (fun _ => ret (join nl (combined responses)))))).
      { apply Forall_requests_bind.
        - rewrite prepare_synthesis_requests. constructor.
        - intros [agent prompt] Hprepared.
          apply Forall_requests_try_except; [|constructor].
          eapply run_never_offers, prepare_synthesis_tools, Hprepared. }
      destruct responses as [|only [|second rest]]; [exact Hgen|constructor|exact Hgen]. }
    unfold aggregate_results.
    destruct (List.filter is_success rs); [constructor|].
    destruct (_ =? _)%string; apply Hc.
Qed.
Import Observations.

(** ** Workers and their models *)

Lemma worker_requests (rt : Runtime) (w : World) (self : TaskOrchestrator)
    (i : Z) (subtask : json) (P : ApiParams -> Prop) :
  (forall agent,
      value (_create_agent_with_model w i (_get_agent_model w self i)) = Ok agent ->
      Forall P (requests (run rt agent subtask))) ->
  Forall P (requests (run_agent_parallel rt w self i subtask)).
Proof.
  intros Hrun. unfold run_agent_parallel.
  destruct (if silent self then Ok tt else slice_check subtask); [|constructor].
  apply Forall_requests_try_except; [|constructor].
  apply Forall_requests_bind.
  { rewrite create_agent_eq. constructor. }
  intros agent Hagent. apply Forall_requests_bind; [apply Hrun, Hagent|].
  intros response _. apply Forall_requests_bind; constructor.
Qed.

Lemma run_requests_model (rt : Runtime) (a : UniversalAgent) (user_input : json) :
  Forall (fun p => p_model p = model a) (requests (run rt a user_input)).
Proof.
  eapply Forall_impl; [apply run_requests_built|].
  intros p [ms ->]. reflexivity.
Qed.

(** X8. The model of a worker.  A record with status "success" names the
    model assigned to the worker.  When the provider configuration can be
    read and the agent is built, every request of the worker is sent with
    that model.  When either fails, the worker runs the agent of the
    fallback, and its requests are sent with that agent's own model, whatever
    model the record names. *)
Theorem X8_worker_model
    (rt : Runtime) (w : World) (self : TaskOrchestrator) (i : Z) (subtask : json) :
  let assigned := _get_agent_model w self i in
  let worker := run_agent_parallel rt w self i subtask in
  (forall r, value worker = Ok r -> status r = success -> result_model r = Some assigned)
  /\ (forall pc agent,
         get_provider_config w = Ok pc -> new_agent w (ModelAgent i) = Ok agent ->
         Forall (fun p => p_model p = assigned) (requests worker))
  /\ (forall agent,
         is_ok (get_provider_config w) && is_ok (new_agent w (ModelAgent i)) = false ->
         new_agent w (DefaultAgent i) = Ok agent ->
         Forall (fun p => p_model p = model agent) (requests worker)).
Proof.
  cbn zeta. split; [|split].
  - intros r. unfold run_agent_parallel.
    destruct (if silent self then Ok tt else slice_check subtask).
    + rewrite value_try_except, value_bind.
      destruct (value (_create_agent_with_model w i _)) as [agent|e];
        [|cbn; intros [= <-]; discriminate].
      rewrite value_bind.
      destruct (value (run rt agent subtask)) as [text|e];
        [|cbn; intros [= <-]; discriminate].
      rewrite value_bind. cbn [lift value fst].
      destruct (len subtask) as [n|e]; cbn; intros [= <-]; [reflexivity|discriminate].
    + cbn. intros [= <-]. discriminate.
  - intros pc agent Hpc Hagent. apply worker_requests. intros a.
    rewrite create_agent_eq, Hpc, Hagent. cbn [value fst]. intros [= <-].
    apply (run_requests_model rt (with_model agent (_get_agent_model w self i))).
  - intros agent Hfails Hagent. apply worker_requests. intros a.
    rewrite create_agent_eq. cbn [value fst].
    destruct (get_provider_config w); [|rewrite Hagent; intros [= <-];
                                        apply run_requests_model].
    destruct (new_agent w (ModelAgent i)); [discriminate|].
    rewrite Hagent. intros [= <-]. apply run_requests_model.
Qed.

Lemma X8_witness :
  exists r,
    value (run_agent_parallel Scenarios.runtime Cases.transient_failure
             (Cases.orchestrator_with_models 2) 0 (JStr "a")) = Ok r
    /\ result_model r = Some "model-a"
    /\ Forall (fun p => p_model p = "deepseek-chat")
              (requests (run_agent_parallel Scenarios.runtime Cases.transient_failure
                           (Cases.orchestrator_with_models 2) 0 (JStr "a"))).
Proof.
  destruct (X8_worker_model Scenarios.runtime Cases.transient_failure
              (Cases.orchestrator_with_models 2) 0 (JStr "a")) as (Hrecord & _ & Hfallback).
  destruct (value (run_agent_parallel Scenarios.runtime Cases.transient_failure
                     (Cases.orchestrator_with_models 2) 0 (JStr "a")))
    as [r|e] eqn:Hr; [|vm_compute in Hr; discriminate].
  exists r. split; [reflexivity|]. split.
  - apply Hrecord; [reflexivity|]. vm_compute in Hr. injection Hr as <-. reflexivity.
  - exact (Hfallback (Scenarios.agent_with "deepseek" (Some 1) (Scenarios.says "Answer"))
             eq_refl eq_refl).
Defined.

(** ** The batch deadline *)

Lemma future_of_Some (futures : list (Z * M ApiParams AgentResult)) (i : Z)
    (m : M ApiParams AgentResult) :
  future_of futures i = Some m -> (i, m) ∈ futures.
Proof.
  unfold future_of. induction futures as [|[j m'] futures IH]; simpl; [discriminate|].
  destruct (Z.eqb_spec j i) as [->|Hne].
  - intros [= <-]. left.
  - intros H. right. apply IH, H.
Qed.

(** The futures handed to the loop body: one per worker that was
    submitted and has arrived, each worker once. *)
Lemma finished_spec (futures : list (Z * M ApiParams AgentResult)) (order : list Z) :
  NoDup order ->
  let finished := omap (fun i => (fun m => (i, m)) <$> future_of futures i) order in
  NoDup finished.*1
  /\ (forall i m, (i, m) ∈ finished <-> i ∈ order /\ future_of futures i = Some m).
Proof.
  induction 1 as [|i order Hi Hnodup IH]; cbn zeta.
  - split; [constructor|]. intros i m. split; [intros H; inversion H|].
    intros [H _]. inversion H.
  - cbn zeta in IH. destruct IH as [IH1 IH2].
    set (g := fun i => (fun m => (i, m)) <$> future_of futures i) in *.
    change (omap g (i :: order))
      with (match g i with Some y => y :: omap g order | None => omap g order end).
    unfold g at 1 3 4. destruct (future_of futures i) as [m|] eqn:Hm; cbn [fmap option_fmap option_map].
    + split.
      * rewrite fmap_cons. constructor; [|exact IH1].
        cbn [fst]. intros Hin. apply list_elem_of_fmap in Hin as ([i' m'] & -> & Hin).
        apply IH2 in Hin as [Hin _]. exact (Hi Hin).
      * intros j m'. rewrite elem_of_cons, IH2, elem_of_cons. split.
        -- intros [[= -> ->] | [Hj Hm']]; [split; [left; reflexivity|exact Hm]|].
           split; [right; exact Hj|exact Hm'].
        -- intros [[-> | Hj] Hm'].
           ++ left. congruence.
           ++ right. split; assumption.
    + split; [exact IH1|]. intros j m'. rewrite IH2, elem_of_cons. split.
      * intros [Hj Hm']. split; [right; exact Hj|exact Hm'].
      * intros [[-> | Hj] Hm']; [congruence|]. split; assumption.
Qed.

Lemma collect_pending (w : World) (self : TaskOrchestrator)
    (futures : list (Z * M ApiParams AgentResult)) (j : Z) :
  NoDup futures.*1 -> j ∈ futures.*1 -> j ∉ arrival w ->
  exists k : nat,
    (0 < k)%nat
    /\ collect w self futures
       = Raise (mk_exn TimeoutError
                  (pretty k ++ " (of " ++ pretty (List.length futures)
                   ++ ") futures unfinished")).
Proof.
  intros Hnodup Hj Hlate. unfold collect.
  destruct (finished_spec futures (remove_dups (arrival w)) (NoDup_remove_dups _))
    as [Hnd Hin].
  set (finished := omap _ _) in *.
  assert (Hlen : (List.length finished < List.length futures)%nat).
  { assert (Hsub : j :: finished.*1 ⊆+ futures.*1).
    { apply NoDup_submseteq.
      - constructor; [|exact Hnd]. intros Hjin.
        apply list_elem_of_fmap in Hjin as ([j' m] & -> & Hjin).
        apply Hin in Hjin as [Hjin _].
        apply (proj1 (elem_of_remove_dups _ _)) in Hjin. exact (Hlate Hjin).
      - intros i Hi. apply elem_of_cons in Hi as [-> | Hi]; [exact Hj|].
        apply list_elem_of_fmap in Hi as ([i' m] & -> & Hi).
        apply Hin in Hi as [_ Hi]. apply future_of_Some in Hi.
        apply list_elem_of_fmap. exists (i', m). split; [reflexivity|exact Hi]. }
    apply submseteq_length in Hsub. simpl in Hsub.
    rewrite !length_fmap in Hsub. lia. }
  destruct (Nat.ltb_spec 0 (List.length futures - List.length finished)) as [Hpos|Hle];
    [|lia].
  eexists. split; [exact Hpos|reflexivity].
Qed.

(** X9. One late worker fails the whole run.  When the decomposition gave
    one sub-question per worker and some worker has not completed when the
    batch deadline expires, [orchestrate] raises the [TimeoutError] of
    [as_completed], whatever the other workers returned; the command line
    then returns [None], and the GUI raises an exception that carries the
    message of the timeout. *)
Theorem X9_one_late_worker_fails_the_run
    (rt : Runtime) (w : World) (self : TaskOrchestrator) (user_input : string)
    (questions : list json) (new : M ApiParams TaskOrchestrator) (j : Z) :
  value (decompose_task rt w self user_input (num_agents self)) = Ok (JArr questions) ->
  Z.of_nat (List.length questions) = num_agents self ->
  0 <= j < num_agents self ->
  j ∉ arrival w ->
  value new = Ok self ->
  exists k : nat,
    (0 < k)%nat
    /\ let e := mk_exn TimeoutError
                  (pretty k ++ " (of " ++ pretty (List.length questions)
                   ++ ") futures unfinished") in
       value (orchestrate rt w self user_input) = Raise e
       /\ value (Cli.run_task rt w self user_input) = Ok None
       /\ value (Gui.run_heavy_mode rt w new user_input)
          = Raise (mk_exn Exception ("Heavy mode execution failed: " ++ exn_str e)).
Proof.
  intros Hdecompose Hlen Hj Hlate Hnew.
  assert (Hfan : exists k : nat,
             (0 < k)%nat
             /\ value (fan_out rt w self (JArr questions))
                = Raise (mk_exn TimeoutError
                           (pretty k ++ " (of " ++ pretty (List.length questions)
                            ++ ") futures unfinished"))).
  { unfold fan_out. destruct (Z.leb_spec (num_agents self) 0) as [|_]; [lia|].
    destruct (submit_all_in_range rt w self questions (range (num_agents self)))
      as [He Hids].
    { intros i Hi. apply elem_of_range in Hi. lia. }
    destruct (submit_all rt w self (JArr questions) (range (num_agents self)))
      as [futures e].
    simpl in He, Hids. subst e. cbn [value fst].
    destruct (collect_pending w self futures j) as (k & Hk & Hcollect).
    - rewrite Hids. apply NoDup_range.
    - rewrite Hids. apply elem_of_range. exact Hj.
    - exact Hlate.
    - exists k. split; [exact Hk|]. rewrite Hcollect.
      assert (Hcount : List.length futures = List.length questions).
      { rewrite <- (length_fmap fst futures), Hids. unfold range.
        rewrite length_fmap, length_seq. lia. }
      rewrite Hcount. reflexivity. }
  destruct Hfan as (k & Hk & Hfan). exists k. split; [exact Hk|]. cbn zeta.
  assert (Horch : value (orchestrate rt w self user_input)
                  = Raise (mk_exn TimeoutError
                             (pretty k ++ " (of " ++ pretty (List.length questions)
                              ++ ") futures unfinished"))).
  { unfold orchestrate. rewrite value_bind, Hdecompose, value_bind, Hfan. reflexivity. }
  split; [exact Horch|]. split.
  - unfold Cli.run_task. rewrite value_try_except, value_bind, Horch. reflexivity.
  - unfold Gui.run_heavy_mode. rewrite value_try_except, value_bind, Hnew, Horch.
    reflexivity.
Qed.

Lemma X9_witness :
  exists k : nat,
    (0 < k)%nat
    /\ value (orchestrate Scenarios.runtime (Scenarios.two_workers [0])
                (Scenarios.orchestrator_for 2) "q")
       = Raise (mk_exn TimeoutError (pretty k ++ " (of " ++ pretty 2%nat
                                     ++ ") futures unfinished")).
Proof.
  destruct (X9_one_late_worker_fails_the_run Scenarios.runtime (Scenarios.two_workers [0])
              (Scenarios.orchestrator_for 2) "q" [JStr "a"; JStr "b"]
              (ret (Scenarios.orchestrator_for 2)) 1) as (k & Hk & Horch & _).
  - vm_compute. reflexivity.
  - reflexivity.
  - simpl. lia.
  - intros H. apply elem_of_cons in H as [H | H]; [discriminate|inversion H].
  - reflexivity.
  - exists k. split; [exact Hk|exact Horch].
Defined.
Import Observations.

(** ** Completion order *)

Lemma worker_returns (rt : Runtime) (w : World) (self : TaskOrchestrator)
    (i : Z) (subtask : json) :
  exists r, value (run_agent_parallel rt w self i subtask) = Ok r /\ agent_id r = i.
Proof.
  unfold run_agent_parallel.
  destruct (if silent self then Ok tt else slice_check subtask);
    [|eexists; split; reflexivity].
  rewrite value_try_except, value_bind.
  destruct (value (_create_agent_with_model w i _)) as [agent|e];
    [|eexists; split; reflexivity].
  rewrite value_bind.
  destruct (value (run rt agent subtask)) as [text|e]; [|eexists; split; reflexivity].
  rewrite value_bind. cbn [lift value fst].
  destruct (len subtask); eexists; split; reflexivity.
Qed.

Lemma submit_all_workers (rt : Runtime) (w : World) (self : TaskOrchestrator)
    (subtasks : json) (ids : list Z) :
  (forall i m, (i, m) ∈ (submit_all rt w self subtasks ids).1 ->
               exists subtask, m = run_agent_parallel rt w self i subtask)
  /\ ((submit_all rt w self subtasks ids).2 = None ->
      (submit_all rt w self subtasks ids).1.*1 = ids).
Proof.
  induction ids as [|i ids [IH1 IH2]]; cbn [submit_all].
  - split; [intros i m H; inversion H|reflexivity].
  - destruct (item subtasks i) as [subtask|e].
    + destruct (submit_all rt w self subtasks ids) as [futures e]. cbn [fst snd] in *.
      split.
      * intros j m Hin. apply elem_of_cons in Hin as [[= -> ->] | Hin]; [eauto|].
        apply IH1, Hin.
      * intros He. rewrite fmap_cons, IH2 by exact He. reflexivity.
    + split; [intros j m H; inversion H|discriminate].
Qed.

Lemma submit_all_with_arrival (rt : Runtime) (w : World) (self : TaskOrchestrator)
    (order : list Z) (subtasks : json) (ids : list Z) :
  submit_all rt (with_arrival w order) self subtasks ids
  = submit_all rt w self subtasks ids.
Proof.
  induction ids as [|i ids IH]; cbn [submit_all]; [reflexivity|].
  rewrite IH. reflexivity.
Qed.

Lemma future_of_elem (futures : list (Z * M ApiParams AgentResult)) (i : Z)
    (m : M ApiParams AgentResult) :
  NoDup futures.*1 -> (i, m) ∈ futures -> future_of futures i = Some m.
Proof.
  unfold future_of. induction futures as [|[j m'] futures IH]; intros Hnd Hin;
    [inversion Hin|].
  rewrite fmap_cons in Hnd. apply NoDup_cons in Hnd as [Hj Hnd]. simpl.
  apply elem_of_cons in Hin as [[= -> ->] | Hin].
  - rewrite Z.eqb_refl. reflexivity.
  - destruct (Z.eqb_spec j i) as [->|Hne]; [|apply IH; assumption].
    exfalso. apply Hj. apply list_elem_of_fmap. exists (i, m). split; [reflexivity|exact Hin].
Qed.

(** When every submitted worker has arrived, the loop collects the
    records of all of them, in some order. *)
Lemma collect_complete (w : World) (self : TaskOrchestrator)
    (futures : list (Z * M ApiParams AgentResult)) :
  NoDup futures.*1 ->
  (forall i, i ∈ futures.*1 -> i ∈ arrival w) ->
  exists rs,
    collect w self futures = Ok rs
    /\ rs ≡ₚ List.map (fun '(i, m) => match value m with
                                     | Ok r => r
                                     | Raise e => timeout_result self i e
                                     end) futures.
Proof.
  intros Hnodup Harrived. unfold collect.
  destruct (finished_spec futures (remove_dups (arrival w)) (NoDup_remove_dups _))
    as [Hnd Hin].
  set (finished := omap _ _) in *.
  assert (Hperm : finished ≡ₚ futures).
  { apply NoDup_Permutation.
    - eapply NoDup_fmap_1, Hnd.
    - eapply NoDup_fmap_1, Hnodup.
    - intros [i m]. rewrite Hin. split.
      + intros [_ Hm]. apply future_of_Some, Hm.
      + intros Him. split; [|apply future_of_elem; assumption].
        apply elem_of_remove_dups, Harrived.
        apply list_elem_of_fmap. exists (i, m). split; [reflexivity|exact Him]. }
  rewrite (Permutation_length Hperm), Nat.sub_diag. cbn [Nat.ltb Nat.leb].
  eexists. split; [reflexivity|].
  apply Permutation_map, Hperm.
Qed.

Lemma sorted_by_agent_id_unique (l1 l2 : list AgentResult) :
  StronglySorted by_agent_id l1 -> StronglySorted by_agent_id l2 ->
  NoDup (agent_id <$> l1) -> l1 ≡ₚ l2 -> l1 = l2.
Proof.
  intros Hs1. revert l2. induction Hs1 as [|x l1 Hs1 IH Hx]; intros l2 Hs2 Hnd Hperm.
  - apply Permutation_nil_l in Hperm. congruence.
  - destruct Hs2 as [|y l2 Hs2 Hy].
    { apply Permutation_nil_r in Hperm. discriminate. }
    rewrite fmap_cons in Hnd. apply NoDup_cons in Hnd as [Hxl Hnd].
    assert (Hxy : x = y).
    { assert (Hx2 : x ∈ y :: l2) by (rewrite <- Hperm; left).
      assert (Hy1 : y ∈ x :: l1) by (rewrite Hperm; left).
      apply elem_of_cons in Hx2 as [Hx2 | Hx2]; [exact Hx2|].
      apply elem_of_cons in Hy1 as [Hy1 | Hy1]; [congruence|].
      assert (H1 : by_agent_id x y).
      { exact (proj1 (List.Forall_forall _ _) Hx y (proj1 (list_elem_of_In _ _) Hy1)). }
      assert (H2 : by_agent_id y x).
      { exact (proj1 (List.Forall_forall _ _) Hy x (proj1 (list_elem_of_In _ _) Hx2)). }
      unfold by_agent_id in *. exfalso. apply Hxl.
      assert (Heq : agent_id x = agent_id y) by lia.
      rewrite Heq. apply list_elem_of_fmap. exists y. split; [reflexivity|exact Hy1]. }
    subst y. f_equal. apply IH; [exact Hs2|exact Hnd|].
    eapply Permutation_cons_inv, Hperm.
Qed.

Lemma fan_out_any_order (rt : Runtime) (w : World) (self : TaskOrchestrator)
    (order1 order2 : list Z) (subtasks : json) :
  (forall i, 0 <= i < num_agents self -> i ∈ order1) ->
  (forall i, 0 <= i < num_agents self -> i ∈ order2) ->
  fan_out rt (with_arrival w order1) self subtasks
  = fan_out rt (with_arrival w order2) self subtasks
  \/ exists rs1 rs2 sent,
      fan_out rt (with_arrival w order1) self subtasks = (Ok rs1, sent)
      /\ fan_out rt (with_arrival w order2) self subtasks = (Ok rs2, sent)
      /\ sort_by_agent_id rs1 = sort_by_agent_id rs2.
Proof.
  intros H1 H2. unfold fan_out.
  destruct (num_agents self <=? 0)%Z; [left; reflexivity|].
  rewrite !submit_all_with_arrival.
  destruct (submit_all_workers rt w self subtasks (range (num_agents self)))
    as [Hworkers Hids].
  destruct (submit_all rt w self subtasks (range (num_agents self))) as [futures e].
  cbn [fst snd] in *.
  destruct e as [e|]; [left; reflexivity|]. right.
  specialize (Hids eq_refl).
  assert (Hnodup : NoDup futures.*1) by (rewrite Hids; apply NoDup_range).
  destruct (collect_complete (with_arrival w order1) self futures Hnodup)
    as (rs1 & Hc1 & Hp1).
  { rewrite Hids. intros i Hi. apply H1, elem_of_range, Hi. }
  destruct (collect_complete (with_arrival w order2) self futures Hnodup)
    as (rs2 & Hc2 & Hp2).
  { rewrite Hids. intros i Hi. apply H2, elem_of_range, Hi. }
  exists rs1, rs2. eexists. rewrite Hc1, Hc2.
  split; [reflexivity|]. split; [reflexivity|].
  apply sorted_by_agent_id_unique; try apply sort_by_agent_id_sorted.
  - rewrite sort_by_agent_id_Permutation, Hp1.
    assert (Hids' : agent_id <$> List.map (fun '(i, m) =>
                                   match value m with
                                   | Ok r => r
                                   | Raise e => timeout_result self i e
                                   end) futures = futures.*1).
    { clear Hc1 Hc2 Hp1 Hp2 Hnodup Hids.
      induction futures as [|[i m] futures IH]; [reflexivity|].
      cbn [List.map]. rewrite !fmap_cons, IH.
      - f_equal. destruct (Hworkers i m) as [subtask ->]; [left|].
        destruct (worker_returns rt w self i subtask) as (r & -> & Hr). exact Hr.
      - intros j m' Hin. apply Hworkers. right. exact Hin. }
    rewrite Hids'. exact Hnodup.
  - rewrite !sort_by_agent_id_Permutation, Hp1, Hp2. reflexivity.
Qed.

(** X10. The order in which the workers complete does not show: for two
    runs that differ only in the completion order of the workers, all of
    them in time, [orchestrate] gives the same outcome and sends the same
    requests. *)
Theorem X10_completion_order_does_not_show
    (rt : Runtime) (w : World) (self : TaskOrchestrator) (user_input : string)
    (order1 order2 : list Z) :
  (forall i, 0 <= i < num_agents self -> i ∈ order1) ->
  (forall i, 0 <= i < num_agents self -> i ∈ order2) ->
  orchestrate rt (with_arrival w order1) self user_input
  = orchestrate rt (with_arrival w order2) self user_input.
Proof.
  intros H1 H2. unfold orchestrate.
  change (decompose_task rt (with_arrival w order1) self user_input (num_agents self))
    with (decompose_task rt w self user_input (num_agents self)).
  change (decompose_task rt (with_arrival w order2) self user_input (num_agents self))
    with (decompose_task rt w self user_input (num_agents self)).
  destruct (decompose_task rt w self user_input (num_agents self)) as [[subtasks|e] log];
    [|reflexivity].
  cbn [bind].
  destruct (fan_out_any_order rt w self order1 order2 subtasks H1 H2)
    as [-> | (rs1 & rs2 & sent & -> & -> & Hsort)]; [reflexivity|].
  cbn [bind]. rewrite Hsort. reflexivity.
Qed.

Lemma X10_witness :
  orchestrate Scenarios.runtime (with_arrival (Scenarios.two_workers []) [0; 1])
    (Scenarios.orchestrator_for 2) "q"
  = orchestrate Scenarios.runtime (with_arrival (Scenarios.two_workers []) [1; 0; 1])
      (Scenarios.orchestrator_for 2) "q".
Proof.
  apply X10_completion_order_does_not_show.
  - intros i Hi. assert (Hcases : i = 0 \/ i = 1) by (simpl in Hi; lia).
    destruct Hcases as [-> | ->]; [left | right; left].
  - intros i Hi. assert (Hcases : i = 0 \/ i = 1) by (simpl in Hi; lia).
    destruct Hcases as [-> | ->]; [right; left | left].
Defined.

(** ** The number of requests *)

Lemma length_requests_bind {E A B} (m : M E A) (k : A -> M E B) (a b : nat) :
  (List.length (requests m) <= a)%nat ->
  (forall x, value m = Ok x -> (List.length (requests (k x)) <= b)%nat) ->
  (List.length (requests (bind m k)) <= a + b)%nat.
Proof.
  intros Hm Hk. rewrite requests_bind, length_app.
  destruct (value m) as [x|e]; [specialize (Hk x eq_refl)|]; simpl; lia.
Qed.

Lemma length_requests_try_except {E A} (m : M E A) (catches : exn -> bool)
    (h : exn -> M E A) (a : nat) :
  (List.length (requests m) <= a)%nat ->
  (forall e, requests (h e) = []) ->
  (List.length (requests (try_except m catches h)) <= a)%nat.
Proof.
  intros Hm Hh. rewrite requests_try_except, length_app.
  destruct (value m) as [x|e]; [simpl; lia|].
  destruct (catches e); [rewrite Hh|]; simpl; lia.
Qed.

Section Budget.
Variable rt : Runtime.
Variable w : World.
Variable self : TaskOrchestrator.
Variable cap : nat.
Hypothesis capped :
  forall s agent, new_agent w s = Ok agent -> (Z.to_nat (max_iterations agent) <= cap)%nat.

Lemma run_length (agent : UniversalAgent) (user_input : json) :
  (Z.to_nat (max_iterations agent) <= cap)%nat ->
  (List.length (requests (run rt agent user_input)) <= cap)%nat.
Proof.
  intros Hcap. unfold run.
  destruct (run_loop_spec rt agent (max_iterations agent)
              (Z.to_nat (max_iterations agent - 0)) 0
              [SystemMessage (system_prompt agent); UserMessage user_input] []
              eq_refl) as (B1 & _).
  rewrite Z.sub_0_r in B1. lia.
Qed.

Lemma created_capped (i : Z) (m : string) (agent : UniversalAgent) :
  value (_create_agent_with_model w i m) = Ok agent ->
  (Z.to_nat (max_iterations agent) <= cap)%nat.
Proof.
  rewrite create_agent_eq. cbn [value fst].
  destruct (get_provider_config w); [|apply capped].
  destruct (new_agent w (ModelAgent i)) as [a0|] eqn:Ha0; [|apply capped].
  intros [= <-]. exact (capped _ _ Ha0).
Qed.

Lemma decompose_task_length (user_input : string) (n : Z) :
  (List.length (requests (decompose_task rt w self user_input n)) <= cap)%nat.
Proof.
  unfold decompose_task.
  apply (length_requests_bind _ _ 0 cap); [simpl; lia|]. intros agent Hagent.
  apply (length_requests_bind _ _ 0 cap); [simpl; lia|]. intros template _.
  apply (length_requests_bind _ _ 0 cap); [simpl; lia|]. intros prompt _.
  apply length_requests_try_except; [|reflexivity].
  replace cap with (cap + 0)%nat by lia.
  apply length_requests_bind.
  { apply run_length. exact (capped _ _ Hagent). }
  intros response _.
  apply (length_requests_bind _ _ 0 0); [simpl; lia|]. intros questions _.
  apply (length_requests_bind _ _ 0 0); [simpl; lia|]. intros k _.
  destruct (negb _); simpl; lia.
Qed.

Lemma run_agent_parallel_length (i : Z) (subtask : json) :
  (List.length (requests (run_agent_parallel rt w self i subtask)) <= cap)%nat.
Proof.
  unfold run_agent_parallel.
  destruct (if silent self then Ok tt else slice_check subtask); [|simpl; lia].
  apply length_requests_try_except; [|reflexivity].
  apply (length_requests_bind _ _ 0 cap).
  { rewrite create_agent_eq. simpl. lia. }
  intros agent Hagent.
  replace cap with (cap + 0)%nat by lia.
  apply length_requests_bind; [eapply run_length, created_capped, Hagent|].
  intros response _.
  apply (length_requests_bind _ _ 0 0); [simpl; lia|]. intros n _. simpl. lia.
Qed.

Lemma fan_out_length (subtasks : json) :
  (List.length (requests (fan_out rt w self subtasks))
   <= Z.to_nat (num_agents self) * cap)%nat.
Proof.
  unfold fan_out. destruct (num_agents self <=? 0)%Z; [simpl; lia|].
  assert (Hsent : forall ids,
             (List.length (concat (List.map (fun f => requests f.2)
                                     (submit_all rt w self subtasks ids).1))
              <= List.length ids * cap)%nat).
  { induction ids as [|i ids IH]; cbn [submit_all]; [simpl; lia|].
    destruct (item subtasks i) as [subtask|e]; [|simpl; lia].
    destruct (submit_all rt w self subtasks ids) as [futures e]. cbn [fst snd] in *.
    cbn [List.map concat]. rewrite length_app.
    pose proof (run_agent_parallel_length i subtask). simpl. lia. }
  specialize (Hsent (range (num_agents self))).
  assert (Hrange : List.length (range (num_agents self)) = Z.to_nat (num_agents self)).
  { unfold range. rewrite length_fmap, length_seq. reflexivity. }
  rewrite Hrange in Hsent.
  destruct (submit_all rt w self subtasks (range (num_agents self))) as [futures e].
  destruct e; exact Hsent.
Qed.

Lemma prepared_capped (responses : list string) (agent : UniversalAgent)
    (prompt : string) :
  value (prepare_synthesis rt w self responses) = Ok (agent, prompt) ->
  (Z.to_nat (max_iterations agent) <= cap)%nat.
Proof.
  apply (prepare_synthesis_sound rt w self
           (fun agent => (Z.to_nat (max_iterations agent) <= cap)%nat)).
  - exact capped.
  - intros a m Ha. exact Ha.
  - intros a Ha. exact Ha.
  - intros a ts Ha. exact Ha.
Qed.

Lemma aggregate_results_length (rs : list AgentResult) :
  (List.length (requests (aggregate_results rt w self rs)) <= cap)%nat.
Proof.
  assert (Hc : forall responses results,
             (List.length (requests (_aggregate_consensus rt w self responses results))
              <= cap)%nat).
  { intros responses results. unfold _aggregate_consensus.
    assert (Hgen : (List.length (requests
              (do prepared <- prepare_synthesis rt w self responses;
               try_except (run rt prepared.1 (JStr prepared.2)) is_Exception
                 (fun _ => ret (join nl (combined responses))))) <= cap)%nat).
    { apply (length_requests_bind _ _ 0 cap).
      - rewrite prepare_synthesis_requests. simpl. lia.
      - intros [agent prompt] Hprepared.
        apply length_requests_try_except; [|reflexivity].
        eapply run_length, prepared_capped, Hprepared. }
    destruct responses as [|only [|second rest]]; [exact Hgen|simpl; lia|exact Hgen]. }
  unfold aggregate_results.
  destruct (List.filter is_success rs); [simpl; lia|].
  destruct (_ =? _)%string; apply Hc.
Qed.

End Budget.

(** X11. The number of requests of a run is bounded: when no agent the
    orchestrator builds has an iteration cap above [cap], [orchestrate]
    sends at most [cap] requests for the decomposition, [cap] for every
    worker and [cap] for the synthesis. *)
Theorem X11_requests_of_a_run_are_bounded
    (rt : Runtime) (w : World) (self : TaskOrchestrator) (user_input : string)
    (cap : nat) :
  (forall s agent, new_agent w s = Ok agent ->
                   (Z.to_nat (max_iterations agent) <= cap)%nat) ->
  (List.length (requests (orchestrate rt w self user_input))
   <= (Z.to_nat (num_agents self) + 2) * cap)%nat.
Proof.
  intros Hcap. unfold orchestrate.
  replace ((Z.to_nat (num_agents self) + 2) * cap)%nat
    with (cap + (Z.to_nat (num_agents self) * cap + (cap + (0 + 0))))%nat by lia.
  apply length_requests_bind; [apply decompose_task_length, Hcap|]. intros subtasks _.
  apply length_requests_bind; [apply fan_out_length, Hcap|]. intros results _.
  apply length_requests_bind; [apply aggregate_results_length, Hcap|]. intros final _.
  apply length_requests_bind; [simpl; lia|]. intros _ _. simpl. lia.
Qed.

Lemma X11_witness :
  (List.length (requests (orchestrate Scenarios.runtime
                            (Scenarios.two_workers [0; 1]%Z)
                            (Scenarios.orchestrator_for 2%Z) "q"))
   <= (Z.to_nat 2%Z + 2) * 1)%nat.
Proof.
  apply (X11_requests_of_a_run_are_bounded Scenarios.runtime
           (Scenarios.two_workers [0; 1]) (Scenarios.orchestrator_for 2) "q" 1).
  intros s agent Hagent.
  destruct s as [|i|i|]; cbn in Hagent;
    repeat match type of Hagent with
           | context [match ?x with _ => _ end] => destruct x
           end;
    injection Hagent as <-; vm_compute; lia.
Defined.

(** ** What the synthesis sees *)

(** X12. Only the texts of the successful workers reach the synthesis:
    two lists of records whose successful records carry the same responses,
    in the same order, are aggregated alike, with the same requests, whatever
    the failed records, the models, the times and the costs are. *)
Theorem X12_only_successful_responses_are_aggregated
    (rt : Runtime) (w : World) (self : TaskOrchestrator) (rs rs' : list AgentResult) :
  List.map response (List.filter is_success rs)
  = List.map response (List.filter is_success rs') ->
  aggregate_results rt w self rs = aggregate_results rt w self rs'.
Proof.
  intros Hsame. unfold aggregate_results.
  destruct (List.filter is_success rs) as [|r l];
    destruct (List.filter is_success rs') as [|r' l']; try discriminate;
    [reflexivity|].
  rewrite Hsame. unfold _aggregate_consensus.
  destruct (_ =? _)%string; reflexivity.
Qed.

Lemma X12_witness :
  aggregate_results Scenarios.runtime Scenarios.synthesis_down
    (Scenarios.orchestrator_for 2)
    [ {| agent_id := 0; status := success; response := "A"; execution_time := 1 # 1;
         result_model := Some "deepseek-chat"; estimated_cost := Some (0 # 1) |};
      {| agent_id := 1; status := error; response := "Agent 1 error: boom";
         execution_time := 0 # 1; result_model := Some "deepseek-chat";
         estimated_cost := Some (0 # 1) |} ]
  = aggregate_results Scenarios.runtime Scenarios.synthesis_down
      (Scenarios.orchestrator_for 2)
      [ {| agent_id := 3; status := success; response := "A"; execution_time := 2 # 1;
           result_model := Some "other"; estimated_cost := None |} ].
Proof.
  apply X12_only_successful_responses_are_aggregated. reflexivity.
Defined.
Import Observations.

(** ** Provider configuration *)

Lemma in_strs_supported (v : json) :
  Provider.in_strs v Provider.SUPPORTED_PROVIDERS = true ->
  v = JStr "openrouter" \/ v = JStr "deepseek".
Proof.
  unfold Provider.in_strs, Provider.SUPPORTED_PROVIDERS. cbn [existsb].
  destruct v as [| | | |s| |]; try discriminate. cbn [Provider.eq_str].
  destruct (String.eqb_spec s "openrouter") as [->|_]; [left; reflexivity|].
  destruct (String.eqb_spec s "deepseek") as [->|_]; [right; reflexivity|].
  discriminate.
Qed.

Lemma provider_config_of_spec (t : string) (section : json) :
  match Provider.provider_config_of t section with
  | Ok pc =>
      Provider.provider_type pc = t
      /\ section = JObj (Provider.additional_params pc)
      /\ Provider.api_key pc
         = default (JStr "") (Provider.additional_params pc !! "api_key")
      /\ Provider.base_url pc
         = default (JStr "") (Provider.additional_params pc !! "base_url")
      /\ Provider.model pc
         = default (JStr "") (Provider.additional_params pc !! "model")
  | Raise e => exn_cls e = AttributeError
  end.
Proof. destruct section; cbn; auto. Qed.

Lemma get_provider_config_spec
    (repr : json -> string) (config : option (gmap string json)) :
  (forall pc,
      Provider.get_provider_config repr config = Ok pc ->
      exists c,
        config = Some c
        /\ (Provider.provider_type pc = "openrouter"
            \/ Provider.provider_type pc = "deepseek")
        /\ match c !! "provider" with
           | Some p => Provider.getitem p "type" = Ok (JStr (Provider.provider_type pc))
           | None => Provider.provider_type pc = "openrouter"
           end
        /\ default (JObj ∅) (c !! Provider.provider_type pc)
           = JObj (Provider.additional_params pc)
        /\ Provider.api_key pc
           = default (JStr "") (Provider.additional_params pc !! "api_key")
        /\ Provider.base_url pc
           = default (JStr "") (Provider.additional_params pc !! "base_url")
        /\ Provider.model pc
           = default (JStr "") (Provider.additional_params pc !! "model"))
  /\ (forall e,
         Provider.get_provider_config repr config = Raise e ->
         exn_cls e = ConfigurationError
         \/ exn_cls e = AttributeError
         \/ exists c p, config = Some c /\ c !! "provider" = Some p
                        /\ Provider.getitem p "type" = Raise e
                        /\ (exn_cls e = KeyError \/ exn_cls e = TypeError)).
Proof.
  unfold Provider.get_provider_config.
  destruct config as [c|]; [|split; [discriminate|intros e [= <-]; left; reflexivity]].
  destruct (size c =? 0)%nat;
    [split; [discriminate|intros e [= <-]; left; reflexivity]|].
  destruct (c !! "provider") as [p|] eqn:Hp.
  - destruct (Provider.getitem p "type") as [v|e0] eqn:Hv; cbn [and_then].
    + destruct (Provider.in_strs v Provider.SUPPORTED_PROVIDERS) eqn:Hin; cbn [negb];
        [|split; [discriminate|intros e [= <-]; left; reflexivity]].
      assert (Hv' : v = JStr (Provider.str repr v)
                    /\ (Provider.str repr v = "openrouter"
                        \/ Provider.str repr v = "deepseek")).
      { destruct (in_strs_supported v Hin) as [-> | ->]; cbn; auto. }
      destruct Hv' as [Hvs Hsup]. set (t := Provider.str repr v) in *.
      pose proof (provider_config_of_spec t (default (JObj ∅) (c !! t))) as Hspec.
      destruct (Provider.provider_config_of t (default (JObj ∅) (c !! t))) as [pc|e1].
      * split; [|discriminate]. intros pc' [= <-].
        destruct Hspec as (Ht & Hsec & Hfields). exists c. rewrite Hp, Ht.
        split; [reflexivity|]. split; [exact Hsup|]. split; [congruence|].
        split; [exact Hsec|exact Hfields].
      * split; [discriminate|]. intros e [= <-]. right. left. exact Hspec.
    + split; [discriminate|]. intros e [= <-]. right. right.
      exists c, p. split; [reflexivity|]. split; [exact Hp|]. split; [exact Hv|].
      destruct p as [| | | | | |o]; cbn in Hv; try (injection Hv as <-; right; reflexivity).
      destruct (o !! "type"); [discriminate|]. injection Hv as <-. left. reflexivity.
  - destruct (c !! "openrouter") as [section|] eqn:Hsection;
      [|split; [discriminate|intros e [= <-]; left; reflexivity]].
    pose proof (provider_config_of_spec "openrouter" section) as Hspec.
    destruct (Provider.provider_config_of "openrouter" section) as [pc|e1].
    + split; [|discriminate]. intros pc' [= <-].
      destruct Hspec as (Ht & Hsec & Hfields). exists c. rewrite Hp, Ht, Hsection.
      split; [reflexivity|]. split; [left; reflexivity|]. split; [reflexivity|].
      split; [exact Hsec|exact Hfields].
    + split; [discriminate|]. intros e [= <-]. right. left. exact Hspec.
Qed.

(** X13. [get_provider_config] returns a configuration for "openrouter"
    or "deepseek" only: the provider named by [provider.type] when the
    document has a [provider] section, "openrouter" otherwise.  Its fields
    are read from the section of the document named after that provider,
    with the empty string for an absent one, and are not checked.  It
    fails with a [ConfigurationError], except that a malformed [provider]
    section and a provider section that is no mapping surface as the
    [KeyError], [TypeError] or [AttributeError] of the failing access. *)
Theorem X13_provider_config_names_a_supported_provider
    (repr : json -> string) (config : option (gmap string json)) :
  (forall pc,
      Provider.get_provider_config repr config = Ok pc ->
      exists c,
        config = Some c
        /\ (Provider.provider_type pc = "openrouter"
            \/ Provider.provider_type pc = "deepseek")
        /\ match c !! "provider" with
           | Some p => Provider.getitem p "type" = Ok (JStr (Provider.provider_type pc))
           | None => Provider.provider_type pc = "openrouter"
           end
        /\ default (JObj ∅) (c !! Provider.provider_type pc)
           = JObj (Provider.additional_params pc)
        /\ Provider.api_key pc
           = default (JStr "") (Provider.additional_params pc !! "api_key")
        /\ Provider.base_url pc
           = default (JStr "") (Provider.additional_params pc !! "base_url")
        /\ Provider.model pc
           = default (JStr "") (Provider.additional_params pc !! "model"))
  /\ (forall e,
         Provider.get_provider_config repr config = Raise e ->
         exn_cls e = ConfigurationError
         \/ exn_cls e = AttributeError
         \/ exists c p, config = Some c /\ c !! "provider" = Some p
                        /\ Provider.getitem p "type" = Raise e
                        /\ (exn_cls e = KeyError \/ exn_cls e = TypeError)).
Proof. exact (get_provider_config_spec repr config). Qed.

Lemma X13_witness :
  exists pc,
    Provider.get_provider_config Cases.repr Cases.legacy_file = Ok pc
    /\ Provider.provider_type pc = "openrouter".
Proof.
  destruct (Provider.get_provider_config Cases.repr Cases.legacy_file) as [pc|e] eqn:Hpc;
    [|vm_compute in Hpc; discriminate].
  exists pc. split; [reflexivity|].
  destruct (X13_provider_config_names_a_supported_provider Cases.repr Cases.legacy_file)
    as [Hok _].
  destruct (Hok pc Hpc) as (c & Hc & _ & Hlegacy & _).
  injection Hc as <-. exact Hlegacy.
Defined.

Lemma eq_str_true (v : json) (s : string) : Provider.eq_str v s = true <-> v = JStr s.
Proof.
  destruct v as [| | | |t| |]; cbn; try (split; [discriminate|intros [=]]).
  rewrite String.eqb_eq. split; [intros ->; reflexivity|intros [= ->]; reflexivity].
Qed.

Lemma eq_str_false (v : json) (s : string) : Provider.eq_str v s = false -> v <> JStr s.
Proof. intros H Hv. apply eq_str_true in Hv. congruence. Qed.

Section Validation.
Variable config : gmap string json.
Let field (k : string) : json := default JNull (config !! k).

Lemma validate_deepseek_config_spec :
  (Provider.validate_deepseek_config config = Ok true <->
   Provider.truthy (field "api_key") = true
   /\ field "base_url" = JStr "https://api.deepseek.com"
   /\ (field "model" = JStr "deepseek-chat" \/ field "model" = JStr "deepseek-reasoner"))
  /\ (forall r, Provider.validate_deepseek_config config = Ok r -> r = true)
  /\ (forall e, Provider.validate_deepseek_config config = Raise e ->
                exn_cls e = ConfigurationError).
Proof.
  unfold Provider.validate_deepseek_config, Provider.required_fields.
  cbn [Provider.missing_field]. fold (field "api_key") (field "base_url") (field "model").
  destruct (Provider.truthy (field "api_key")) eqn:Hk; cbn [negb].
  2: { split; [split; [discriminate|intros [H _]; discriminate]|].
       split; [discriminate|intros e [= <-]; reflexivity]. }
  destruct (Provider.truthy (field "base_url")) eqn:Hu; cbn [negb].
  2: { split; [split; [discriminate|intros (_ & Hurl & _)]|].
       - rewrite Hurl in Hu. discriminate.
       - split; [discriminate|intros e [= <-]; reflexivity]. }
  destruct (Provider.truthy (field "model")) eqn:Hm; cbn [negb].
  2: { split; [split; [discriminate|intros (_ & _ & [Hmod | Hmod])]|].
       - rewrite Hmod in Hm. discriminate.
       - rewrite Hmod in Hm. discriminate.
       - split; [discriminate|intros e [= <-]; reflexivity]. }
  cbn [Provider.getitem]. unfold field in *.
  destruct (config !! "base_url") as [url|]; [|discriminate].
  destruct (config !! "model") as [m|]; [|discriminate].
  cbn [default and_then] in *.
  destruct (Provider.eq_str url "https://api.deepseek.com") eqn:Hurl; cbn [negb].
  2: { apply eq_str_false in Hurl.
       split; [split; [discriminate|intros (_ & Hc & _); contradiction]|].
       split; [discriminate|intros e [= <-]; reflexivity]. }
  apply eq_str_true in Hurl.
  unfold Provider.in_strs. cbn [existsb].
  destruct (Provider.eq_str m "deepseek-chat") eqn:H1; cbn [orb negb].
  { apply eq_str_true in H1.
    split; [split; [intros _; auto|reflexivity]|].
    split; [intros r [= <-]; reflexivity|discriminate]. }
  destruct (Provider.eq_str m "deepseek-reasoner") eqn:H2; cbn [orb negb].
  { apply eq_str_true in H2.
    split; [split; [intros _; auto|reflexivity]|].
    split; [intros r [= <-]; reflexivity|discriminate]. }
  apply eq_str_false in H1, H2.
  split; [split; [discriminate|intros (_ & _ & [Hc | Hc]); contradiction]|].
  split; [discriminate|intros e [= <-]; reflexivity].
Qed.

Lemma validate_openrouter_config_spec :
  (Provider.validate_openrouter_config config = Ok true <->
   Provider.truthy (field "api_key") = true
   /\ (field "base_url" = JStr "https://openrouter.ai/api/v1"
       \/ field "base_url" = JStr "https://openrouter.ai/api/v1/")
   /\ Provider.truthy (field "model") = true)
  /\ (forall r, Provider.validate_openrouter_config config = Ok r -> r = true)
  /\ (forall e, Provider.validate_openrouter_config config = Raise e ->
                exn_cls e = ConfigurationError).
Proof.
  unfold Provider.validate_openrouter_config, Provider.required_fields.
  cbn [Provider.missing_field]. fold (field "api_key") (field "base_url") (field "model").
  destruct (Provider.truthy (field "api_key")) eqn:Hk; cbn [negb].
  2: { split; [split; [discriminate|intros [H _]; discriminate]|].
       split; [discriminate|intros e [= <-]; reflexivity]. }
  destruct (Provider.truthy (field "base_url")) eqn:Hu; cbn [negb].
  2: { split; [split; [discriminate|intros (_ & [Hurl | Hurl] & _)]|].
       - rewrite Hurl in Hu. discriminate.
       - rewrite Hurl in Hu. discriminate.
       - split; [discriminate|intros e [= <-]; reflexivity]. }
  destruct (Provider.truthy (field "model")) eqn:Hm; cbn [negb].
  2: { split; [split; [discriminate|intros (_ & _ & Hmod); discriminate]|].
       split; [discriminate|intros e [= <-]; reflexivity]. }
  cbn [Provider.getitem]. unfold field in *.
  destruct (config !! "base_url") as [url|]; [|discriminate].
  cbn [default and_then] in *.
  unfold Provider.in_strs. cbn [existsb].
  destruct (Provider.eq_str url "https://openrouter.ai/api/v1") eqn:H1; cbn [orb negb].
  { apply eq_str_true in H1.
    split; [split; [intros _; auto|reflexivity]|].
    split; [intros r [= <-]; reflexivity|discriminate]. }
  destruct (Provider.eq_str url "https://openrouter.ai/api/v1/") eqn:H2; cbn [orb negb].
  { apply eq_str_true in H2.
    split; [split; [intros _; auto|reflexivity]|].
    split; [intros r [= <-]; reflexivity|discriminate]. }
  apply eq_str_false in H1, H2.
  split; [split; [discriminate|intros (_ & [Hc | Hc] & _); contradiction]|].
  split; [discriminate|intros e [= <-]; reflexivity].
Qed.

End Validation.

Lemma validate_provider_config_spec (t : string) (config : gmap string json) :
  let field k := default JNull (config !! k) in
  (Provider.validate_provider_config t config = Ok true <->
   Provider.truthy (field "api_key") = true
   /\ ((t = "deepseek"
        /\ field "base_url" = JStr "https://api.deepseek.com"
        /\ (field "model" = JStr "deepseek-chat"
            \/ field "model" = JStr "deepseek-reasoner"))
       \/ (t = "openrouter"
           /\ (field "base_url" = JStr "https://openrouter.ai/api/v1"
               \/ field "base_url" = JStr "https://openrouter.ai/api/v1/")
           /\ Provider.truthy (field "model") = true)))
  /\ (forall r, Provider.validate_provider_config t config = Ok r -> r = true)
  /\ (forall e, Provider.validate_provider_config t config = Raise e ->
                exn_cls e = ConfigurationError).
Proof.
  cbn zeta. unfold Provider.validate_provider_config, Provider.SUPPORTED_PROVIDERS.
  cbn [existsb].
  destruct (String.eqb_spec t "deepseek") as [->|Hd].
  - cbn [String.eqb Ascii.eqb Bool.eqb orb negb andb].
    destruct (validate_deepseek_config_spec config) as ([H1 H2] & Hr & He).
    split; [split|split; assumption].
    + intros H. destruct (H1 H) as (Hk & Hu & Hm). split; [exact Hk|]. left. auto.
    + intros (Hk & [(_ & Hu & Hm) | (Hc & _)]); [|discriminate]. apply H2. auto.
  - destruct (String.eqb_spec t "openrouter") as [->|Ho].
    + cbn [orb negb].
      destruct (validate_openrouter_config_spec config) as ([H1 H2] & Hr & He).
      split; [split|split; assumption].
      * intros H. destruct (H1 H) as (Hk & Hu & Hm). split; [exact Hk|]. right. auto.
      * intros (Hk & [(Hc & _) | (_ & Hu & Hm)]); [discriminate|]. apply H2. auto.
    + cbn [orb negb].
      split; [split; [discriminate|]|split; [discriminate|intros e [= <-]; reflexivity]].
      intros (_ & [(Hc & _) | (Hc & _)]); contradiction.
Qed.

(** X14. What the factory accepts.  [validate_provider_config] returns
    [True] exactly for a DeepSeek section with an API key, the base URL
    [https://api.deepseek.com] and one of the two DeepSeek models, and for
    an OpenRouter section with an API key, one of the two spellings of the
    OpenRouter URL and any model; it never returns [False], and every
    failure is a [ConfigurationError]. *)
Theorem X14_what_the_factory_accepts (t : string) (config : gmap string json) :
  let field k := default JNull (config !! k) in
  (Provider.validate_provider_config t config = Ok true <->
   Provider.truthy (field "api_key") = true
   /\ ((t = "deepseek"
        /\ field "base_url" = JStr "https://api.deepseek.com"
        /\ (field "model" = JStr "deepseek-chat"
            \/ field "model" = JStr "deepseek-reasoner"))
       \/ (t = "openrouter"
           /\ (field "base_url" = JStr "https://openrouter.ai/api/v1"
               \/ field "base_url" = JStr "https://openrouter.ai/api/v1/")
           /\ Provider.truthy (field "model") = true)))
  /\ (forall r, Provider.validate_provider_config t config = Ok r -> r = true)
  /\ (forall e, Provider.validate_provider_config t config = Raise e ->
                exn_cls e = ConfigurationError).
Proof. exact (validate_provider_config_spec t config). Qed.

Lemma X14_witness :
  Provider.validate_provider_config "deepseek"
    (list_to_map [ ("api_key", JStr "sk-1");
                   ("base_url", JStr "https://api.deepseek.com");
                   ("model", JStr "deepseek-chat") ])
  = Ok true.
Proof.
  apply (proj1 (X14_what_the_factory_accepts "deepseek" _)).
  split; [reflexivity|]. left. split; [reflexivity|]. split; [reflexivity|].
  left. reflexivity.
Defined.

(** ** Clients and agents *)

Lemma create_client_spec (OpenAI : json -> json -> result Provider.Client)
    (pc : Provider.ProviderConfig) :
  let validated :=
    Provider.validate_provider_config (Provider.provider_type pc)
      (Provider.additional_params pc) in
  let made := OpenAI (Provider.api_key pc) (Provider.base_url pc) in
  (forall c, Provider.create_client OpenAI pc = Ok c <->
             validated = Ok true /\ made = Ok c)
  /\ (forall e,
         Provider.create_client OpenAI pc = Raise e ->
         exists e0,
           (validated = Raise e0 \/ (validated = Ok true /\ made = Raise e0))
           /\ e = (if (Provider.provider_type pc =? "deepseek")%string then
                     mk_exn DeepSeekAPIError
                       ("Failed to create DeepSeek client: " ++ exn_str e0)
                   else if (Provider.provider_type pc =? "openrouter")%string then
                     mk_exn OpenRouterAPIError
                       ("Failed to create OpenRouter client: " ++ exn_str e0)
                   else
                     mk_exn ProviderError
                       ("Failed to create client for " ++ Provider.provider_type pc
                        ++ ": " ++ exn_str e0))).
Proof.
  cbn zeta. unfold Provider.create_client.
  destruct (validate_provider_config_spec (Provider.provider_type pc)
              (Provider.additional_params pc)) as (_ & Htrue & _).
  destruct (Provider.validate_provider_config (Provider.provider_type pc)
              (Provider.additional_params pc)) as [r|e0]; cbn [and_then].
  - rewrite (Htrue r eq_refl).
    destruct (OpenAI (Provider.api_key pc) (Provider.base_url pc)) as [c|e1].
    + split.
      * intros c'. split; [intros [= <-]; auto|intros [_ [= <-]]; reflexivity].
      * discriminate.
    + split.
      * intros c'. split; [|intros [_ H]; discriminate].
        destruct (_ =? _)%string; [discriminate|].
        destruct (_ =? _)%string; discriminate.
      * intros e He. exists e1. split; [right; auto|].
        destruct (_ =? _)%string; [congruence|].
        destruct (_ =? _)%string; congruence.
  - split.
    + intros c'. split; [|intros [H _]; discriminate].
      destruct (_ =? _)%string; [discriminate|].
      destruct (_ =? _)%string; discriminate.
    + intros e He. exists e0. split; [left; reflexivity|].
      destruct (_ =? _)%string; [congruence|].
      destruct (_ =? _)%string; congruence.
Qed.

(** X15. [create_client] returns a client exactly when the section passes
    [validate_provider_config] and the client can be constructed.  Whatever
    fails, the validation or the construction, leaves it as a
    [DeepSeekAPIError], an [OpenRouterAPIError] or, for any other provider,
    a [ProviderError], whose message is the original one behind a prefix: a
    [ConfigurationError] never leaves it. *)
Theorem X15_create_client_validates_first
    (OpenAI : json -> json -> result Provider.Client) (pc : Provider.ProviderConfig) :
  let validated :=
    Provider.validate_provider_config (Provider.provider_type pc)
      (Provider.additional_params pc) in
  let made := OpenAI (Provider.api_key pc) (Provider.base_url pc) in
  (forall c, Provider.create_client OpenAI pc = Ok c <->
             validated = Ok true /\ made = Ok c)
  /\ (forall e,
         Provider.create_client OpenAI pc = Raise e ->
         exists e0,
           (validated = Raise e0 \/ (validated = Ok true /\ made = Raise e0))
           /\ e = (if (Provider.provider_type pc =? "deepseek")%string then
                     mk_exn DeepSeekAPIError
                       ("Failed to create DeepSeek client: " ++ exn_str e0)
                   else if (Provider.provider_type pc =? "openrouter")%string then
                     mk_exn OpenRouterAPIError
                       ("Failed to create OpenRouter client: " ++ exn_str e0)
                   else
                     mk_exn ProviderError
                       ("Failed to create client for " ++ Provider.provider_type pc
                        ++ ": " ++ exn_str e0))).
Proof. exact (create_client_spec OpenAI pc). Qed.

Lemma X15_witness :
  exists pc,
    Provider.get_provider_config Cases.repr
      (Cases.deepseek_file "https://api.deepseek.com/v1") = Ok pc
    /\ Provider.create_client Cases.OpenAI pc
       = Raise (mk_exn DeepSeekAPIError
                  "Failed to create DeepSeek client: DeepSeek base_url should be 'https://api.deepseek.com'").
Proof.
  destruct (Provider.get_provider_config Cases.repr
              (Cases.deepseek_file "https://api.deepseek.com/v1")) as [pc|e0] eqn:Hpc;
    [|vm_compute in Hpc; discriminate].
  exists pc. split; [reflexivity|].
  vm_compute in Hpc. injection Hpc as <-.
  destruct (Provider.create_client Cases.OpenAI _) as [c|e] eqn:Hc;
    [vm_compute in Hc; discriminate|].
  destruct (proj2 (X15_create_client_validates_first Cases.OpenAI _) e Hc)
    as (e0 & [Hv | [Hv _]] & ->); vm_compute in Hv; [|discriminate].
  injection Hv as <-. reflexivity.
Defined.

Lemma init_spec (repr : json -> string)
    (OpenAI : json -> json -> result Provider.Client)
    (load_config : result (option (gmap string json)))
    (discover_tools :
       option (gmap string json) ->
       result (list (string * (Tool * (gmap string json -> result json))))) :
  let init := Provider.__init__ repr OpenAI load_config discover_tools in
  (forall a,
      init = Ok a ->
      let pc := Provider.init_provider_config a in
      load_config = Ok (Provider.init_config a)
      /\ Provider.get_provider_config repr (Provider.init_config a) = Ok pc
      /\ Provider.validate_provider_config (Provider.provider_type pc)
           (Provider.additional_params pc) = Ok true
      /\ OpenAI (Provider.api_key pc) (Provider.base_url pc)
         = Ok (Provider.init_client a)
      /\ is_ok (discover_tools (Provider.init_config a)) = true)
  /\ (forall e0,
         load_config = Raise e0 ->
         init = Raise (if Provider.is_ConfigurationError e0 || Provider.is_ProviderError e0
                       then mk_exn Exception
                              ("Agent initialization failed: " ++ exn_str e0)
                       else e0))
  /\ (forall config e,
         load_config = Ok config ->
         init = Raise e ->
         (exists e0, e = mk_exn Exception ("Agent initialization failed: " ++ exn_str e0)
                     /\ (Provider.get_provider_config repr config = Raise e0
                         /\ exn_cls e0 = ConfigurationError
                         \/ exists pc, Provider.get_provider_config repr config = Ok pc
                                       /\ Provider.create_client OpenAI pc = Raise e0))
         \/ (Provider.get_provider_config repr config = Raise e
             /\ (exn_cls e = KeyError \/ exn_cls e = TypeError
                 \/ exn_cls e = AttributeError))
         \/ (exists pc, Provider.get_provider_config repr config = Ok pc
                        /\ Provider.hash_check (Provider.model pc) = Raise e)
         \/ discover_tools config = Raise e).
Proof.
  cbn zeta. unfold Provider.__init__.
  destruct load_config as [config|e0]; cbn [and_then].
  2: { split; [destruct (_ || _); discriminate|].
       split; [intros e [= <-]; destruct (_ || _); reflexivity|discriminate]. }
  destruct (get_provider_config_spec repr config) as [_ Hfail].
  destruct (Provider.get_provider_config repr config) as [pc|e1] eqn:Hpc; cbn [and_then].
  2: { split; [destruct (_ || _); discriminate|]. split; [discriminate|].
       intros c e [= <-] He.
       destruct (Hfail e1 eq_refl) as [Hcls | [Hcls | (c0 & p & _ & _ & _ & Hcls)]].
       - left. exists e1. unfold Provider.is_ConfigurationError in He.
         rewrite Hcls in He. cbn in He. injection He as <-. auto.
       - right. left. unfold Provider.is_ConfigurationError, Provider.is_ProviderError in He.
         rewrite Hcls in He. cbn in He. injection He as <-. auto.
       - right. left. unfold Provider.is_ConfigurationError, Provider.is_ProviderError in He.
         destruct Hcls as [Hcls | Hcls]; rewrite Hcls in He; cbn in He;
           injection He as <-; auto. }
  destruct (create_client_spec OpenAI pc) as [Hok Hraise]. cbn zeta in Hok, Hraise.
  destruct (Provider.create_client OpenAI pc) as [client|e2] eqn:Hcc; cbn [and_then].
  2: { split; [destruct (_ || _); discriminate|]. split; [discriminate|].
       intros c e [= <-] He. left. exists e2.
       destruct (Hraise e2 eq_refl) as (e0 & _ & Hshape).
       assert (Hp : Provider.is_ProviderError e2 = true).
       { rewrite Hshape. destruct (_ =? _)%string; [reflexivity|].
         destruct (_ =? _)%string; reflexivity. }
       rewrite Hp, orb_true_r in He. injection He as <-.
       split; [reflexivity|]. right. exists pc. split; [exact Hpc|exact Hcc]. }
  destruct (proj1 (Hok client) eq_refl) as [Hvalid Hmade].
  unfold Provider.get_model_info.
  destruct (Provider.hash_check (Provider.model pc)) as [[]|e3] eqn:Hhash; cbn [and_then].
  2: { assert (Hcls : exn_cls e3 = TypeError).
       { destruct (Provider.model pc); cbn in Hhash; try discriminate;
           injection Hhash as <-; reflexivity. }
       unfold Provider.is_ConfigurationError, Provider.is_ProviderError.
       rewrite Hcls. cbn [orb].
       split; [discriminate|]. split; [discriminate|].
       intros c e [= <-] [= <-]. right. right. left. eauto. }
  destruct (discover_tools config) as [discovered|e4] eqn:Hdiscover; cbn [and_then].
  - split; [|split; discriminate].
    intros a [= <-]. cbn. rewrite Hdiscover. auto.
  - split; [discriminate|]. split; [discriminate|].
    intros c e [= <-] [= <-]. right. right. right. exact Hdiscover.
Qed.

(** X16. What constructing an agent guarantees.  An agent that
    [UniversalAgent.__init__] returns holds the provider configuration of
    the loaded file, which passed the validation of the factory, and the
    client made from its key and URL.  A failure to load or to validate the
    configuration or to create the client leaves it as a plain [Exception]
    whose message starts with "Agent initialization failed: "; a malformed
    provider section, a model that cannot be hashed and a failing tool
    discovery leave it unwrapped. *)
Theorem X16_what_constructing_an_agent_guarantees
    (repr : json -> string)
    (OpenAI : json -> json -> result Provider.Client)
    (load_config : result (option (gmap string json)))
    (discover_tools :
       option (gmap string json) ->
       result (list (string * (Tool * (gmap string json -> result json))))) :
  let init := Provider.__init__ repr OpenAI load_config discover_tools in
  (forall a,
      init = Ok a ->
      let pc := Provider.init_provider_config a in
      load_config = Ok (Provider.init_config a)
      /\ Provider.get_provider_config repr (Provider.init_config a) = Ok pc
      /\ Provider.validate_provider_config (Provider.provider_type pc)
           (Provider.additional_params pc) = Ok true
      /\ OpenAI (Provider.api_key pc) (Provider.base_url pc)
         = Ok (Provider.init_client a)
      /\ is_ok (discover_tools (Provider.init_config a)) = true)
  /\ (forall e0,
         load_config = Raise e0 ->
         init = Raise (if Provider.is_ConfigurationError e0 || Provider.is_ProviderError e0
                       then mk_exn Exception
                              ("Agent initialization failed: " ++ exn_str e0)
                       else e0))
  /\ (forall config e,
         load_config = Ok config ->
         init = Raise e ->
         (exists e0, e = mk_exn Exception ("Agent initialization failed: " ++ exn_str e0)
                     /\ (Provider.get_provider_config repr config = Raise e0
                         /\ exn_cls e0 = ConfigurationError
                         \/ exists pc, Provider.get_provider_config repr config = Ok pc
                                       /\ Provider.create_client OpenAI pc = Raise e0))
         \/ (Provider.get_provider_config repr config = Raise e
             /\ (exn_cls e = KeyError \/ exn_cls e = TypeError
                 \/ exn_cls e = AttributeError))
         \/ (exists pc, Provider.get_provider_config repr config = Ok pc
                        /\ Provider.hash_check (Provider.model pc) = Raise e)
         \/ discover_tools config = Raise e).
Proof. exact (init_spec repr OpenAI load_config discover_tools). Qed.

Lemma X16_witness :
  exists a,
    Provider.__init__ Cases.repr Cases.OpenAI
      (Ok (Cases.deepseek_file "https://api.deepseek.com")) Cases.no_tools = Ok a
    /\ Provider.validate_provider_config
         (Provider.provider_type (Provider.init_provider_config a))
         (Provider.additional_params (Provider.init_provider_config a)) = Ok true.
Proof.
  destruct (Provider.__init__ Cases.repr Cases.OpenAI
              (Ok (Cases.deepseek_file "https://api.deepseek.com")) Cases.no_tools)
    as [a|e] eqn:Ha; [|vm_compute in Ha; discriminate].
  exists a. split; [reflexivity|].
  destruct (X16_what_constructing_an_agent_guarantees Cases.repr Cases.OpenAI
              (Ok (Cases.deepseek_file "https://api.deepseek.com")) Cases.no_tools)
    as [Hok _].
  exact (proj1 (proj2 (proj2 (Hok a Ha)))).
Defined.

Lemma init_infos (repr : json -> string)
    (OpenAI : json -> json -> result Provider.Client)
    (load_config : result (option (gmap string json)))
    (discover_tools :
       option (gmap string json) ->
       result (list (string * (Tool * (gmap string json -> result json)))))
    (a : Provider.Initialized) :
  Provider.__init__ repr OpenAI load_config discover_tools = Ok a ->
  let pc := Provider.init_provider_config a in
  Provider.get_model_info (Provider.provider_type pc) (Provider.model pc)
  = Ok (Provider.init_model_info a)
  /\ Provider.init_provider_info a = Provider.get_provider_info (Provider.provider_type pc).
Proof.
  unfold Provider.__init__.
  destruct load_config as [config|e0]; cbn [and_then];
    [|destruct (_ || _); discriminate].
  destruct (Provider.get_provider_config repr config) as [pc|e1]; cbn [and_then];
    [|destruct (_ || _); discriminate].
  destruct (Provider.create_client OpenAI pc) as [client|e2]; cbn [and_then];
    [|destruct (_ || _); discriminate].
  destruct (Provider.get_model_info (Provider.provider_type pc) (Provider.model pc))
    as [info|e3] eqn:Hinfo; cbn [and_then]; [|destruct (_ || _); discriminate].
  destruct (discover_tools config) as [discovered|e4]; cbn [and_then]; [|discriminate].
  intros [= <-]. cbn. auto.
Qed.

(** X17. What an agent reports about itself.  After a successful
    construction [get_provider_info] always reports support for function
    calling.  For OpenRouter the reported model name is "Various Models"
    whatever model the file configures; for DeepSeek it is the marketing
    name of the configured model. *)
Theorem X17_what_an_agent_reports
    (repr : json -> string)
    (OpenAI : json -> json -> result Provider.Client)
    (load_config : result (option (gmap string json)))
    (discover_tools :
       option (gmap string json) ->
       result (list (string * (Tool * (gmap string json -> result json)))))
    (a : Provider.Initialized) :
  Provider.__init__ repr OpenAI load_config discover_tools = Ok a ->
  let pc := Provider.init_provider_config a in
  let info := Provider.agent_get_provider_info a in
  info !! "supports_function_calling" = Some (JBool true)
  /\ ((Provider.provider_type pc = "openrouter"
       /\ info !! "provider_name" = Some (JStr "OpenRouter")
       /\ info !! "model_name" = Some (JStr "Various Models"))
      \/ (Provider.provider_type pc = "deepseek"
          /\ info !! "provider_name" = Some (JStr "DeepSeek")
          /\ ((Provider.model pc = JStr "deepseek-chat"
               /\ info !! "model_name" = Some (JStr "DeepSeek-V3"))
              \/ (Provider.model pc = JStr "deepseek-reasoner"
                  /\ info !! "model_name" = Some (JStr "DeepSeek-R1"))))).
Proof.
  intros Hinit. cbn zeta.
  destruct (init_spec repr OpenAI load_config discover_tools) as [Hok _].
  destruct (Hok a Hinit) as (_ & Hpc & Hvalid & _).
  destruct (init_infos repr OpenAI load_config discover_tools a Hinit) as [Hmodel Hprov].
  destruct (get_provider_config_spec repr (Provider.init_config a)) as [Hfields _].
  destruct (Hfields _ Hpc) as (c & _ & _ & _ & _ & _ & _ & Hm).
  apply (proj1 (validate_provider_config_spec _ _)) in Hvalid.
  cbn zeta in Hvalid. destruct Hvalid as [_ Hvalid].
  unfold Provider.agent_get_provider_info. rewrite Hprov.
  set (pc := Provider.init_provider_config a) in *.
  assert (Hfield : default JNull (Provider.additional_params pc !! "model") = Provider.model pc
                   \/ Provider.additional_params pc !! "model" = None).
  { rewrite Hm. destruct (Provider.additional_params pc !! "model"); auto. }
  destruct Hvalid as [(Ht & _ & Hmod) | (Ht & _ & Hmod)].
  - assert (Hmod' : Provider.model pc = JStr "deepseek-chat"
                    \/ Provider.model pc = JStr "deepseek-reasoner").
    { destruct Hfield as [<- | Hnone]; [exact Hmod|].
      rewrite Hnone in Hmod. destruct Hmod; discriminate. }
    rewrite Ht in *.
    destruct Hmod' as [Hmod' | Hmod']; rewrite Hmod' in Hmodel.
    + assert (Hcomp : Provider.get_model_info "deepseek" (JStr "deepseek-chat")
                      = Ok (Provider.deepseek_model "DeepSeek-V3" (27 # 100) (110 # 100)
                              ["Context caching"; "Off-peak pricing"]))
        by (vm_compute; reflexivity).
      rewrite Hcomp in Hmodel. injection Hmodel as <-.
      split; [reflexivity|]. right. split; [reflexivity|]. split; [reflexivity|].
      left. split; [exact Hmod'|]. reflexivity.
    + assert (Hcomp : Provider.get_model_info "deepseek" (JStr "deepseek-reasoner")
                      = Ok (Provider.deepseek_model "DeepSeek-R1" (55 # 100) (219 # 100)
                              ["Advanced reasoning"; "Context caching";
                               "Off-peak pricing"]))
        by (vm_compute; reflexivity).
      rewrite Hcomp in Hmodel. injection Hmodel as <-.
      split; [reflexivity|]. right. split; [reflexivity|]. split; [reflexivity|].
      right. split; [exact Hmod'|]. reflexivity.
  - rewrite Ht in *.
    assert (Hinfo : Provider.init_model_info a = Provider.openrouter_default).
    { unfold Provider.get_model_info in Hmodel.
      destruct (Provider.hash_check (Provider.model pc)); [|discriminate].
      cbn [and_then] in Hmodel. injection Hmodel as <-.
      change (("openrouter" =? "deepseek")%string) with false. cbn iota.
      change (("openrouter" =? "openrouter")%string) with true. cbn iota.
      destruct (Provider.model pc) as [| | | |name| |]; try reflexivity.
      cbn [list_to_map foldr uncurry fst snd].
      destruct (decide (name = "default")) as [->|Hne].
      - rewrite lookup_insert. reflexivity.
      - rewrite lookup_insert, lookup_insert_ne by congruence.
        rewrite lookup_empty. reflexivity. }
    rewrite Hinfo.
    split; [reflexivity|]. left. split; [reflexivity|]. split; reflexivity.
Qed.

Lemma X17_witness :
  exists a,
    Provider.__init__ Cases.repr Cases.OpenAI (Ok Cases.legacy_file) Cases.no_tools = Ok a
    /\ Provider.agent_get_provider_info a !! "supports_function_calling"
       = Some (JBool true).
Proof.
  destruct (Provider.__init__ Cases.repr Cases.OpenAI (Ok Cases.legacy_file) Cases.no_tools)
    as [a|e] eqn:Ha; [|vm_compute in Ha; discriminate].
  exists a. split; [reflexivity|].
  exact (proj1 (X17_what_an_agent_reports Cases.repr Cases.OpenAI (Ok Cases.legacy_file)
                  Cases.no_tools a Ha)).
Defined.
Import Observations.

(** ** The data models *)

(** X18. [AgentModelConfig] survives the round trip through its
    dictionary form, and [from_dict] reads the seven keys of that form
    only: an entry under any other key changes nothing. *)
Theorem X18_agent_model_config_round_trip (c : DataModels.AgentModelConfig) :
  DataModels.from_dict (DataModels.to_dict c) = c
  /\ forall (data : gmap string string) (k v : string),
       k ∉ ["agent_0_model"; "agent_1_model"; "agent_2_model"; "agent_3_model";
            "synthesis_model"; "default_model"; "profile_name"] ->
       DataModels.from_dict (<[k := v]> data) = DataModels.from_dict data.
Proof.
  split; [destruct c; reflexivity|].
  intros data k v Hk. unfold DataModels.from_dict.
  rewrite !lookup_insert_ne; [reflexivity|..];
    intros ->; apply Hk; repeat (first [left; reflexivity | right]).
Qed.

Lemma X18_witness :
  DataModels.from_dict (<["notes" := "draft"]> (DataModels.to_dict (DataModels.uniform "m" "p")))
  = DataModels.uniform "m" "p".
Proof.
  rewrite (proj2 (X18_agent_model_config_round_trip (DataModels.uniform "m" "p"))).
  - exact (proj1 (X18_agent_model_config_round_trip (DataModels.uniform "m" "p"))).
  - intros H. repeat (apply elem_of_cons in H as [H | H]; [discriminate|]). inversion H.
Defined.

(** [x <= y] on sort keys, as the sort sees it: [y < x] does not hold. *)
Lemma key_le_trans (x y z : option Q) :
  DataModels.key_lt y x = false -> DataModels.key_lt z y = false ->
  DataModels.key_lt z x = false.
Proof.
  destruct x as [a|], y as [b|], z as [c|]; cbn; try congruence.
  rewrite !negb_false_iff, !Qle_bool_iff. intros H1 H2. eapply Qle_trans; eassumption.
Qed.

Lemma key_lt_asym (x y : option Q) :
  DataModels.key_lt x y = true -> DataModels.key_lt y x = false.
Proof.
  destruct x as [a|], y as [b|]; cbn; try congruence.
  rewrite negb_true_iff, negb_false_iff, Qle_bool_iff. intros H.
  apply Qlt_le_weak, Qnot_le_lt. intros Hle. apply Qle_bool_iff in Hle. congruence.
Qed.

Section Sorting.
Context {A : Type} (key : A -> option Q).

Lemma insert_sorted_Permutation (x : A) (l : list A) :
  DataModels.insert_sorted key x l ≡ₚ x :: l.
Proof.
  induction l as [|y l IH]; simpl; [reflexivity|].
  destruct (DataModels.key_lt (key y) (key x)); [|reflexivity].
  rewrite IH. apply perm_swap.
Qed.

Lemma sorted_Permutation (l : list A) : DataModels.sorted key l ≡ₚ l.
Proof.
  induction l as [|x l IH]; simpl; [reflexivity|].
  rewrite insert_sorted_Permutation, IH. reflexivity.
Qed.

Lemma insert_sorted_sorted (x : A) (l : list A) :
  StronglySorted (DataModels.key_le key) l -> StronglySorted (DataModels.key_le key) (DataModels.insert_sorted key x l).
Proof.
  induction l as [|y l IH]; intros Hs; simpl; [repeat constructor|].
  inversion Hs as [|? ? Hl Hy]; subst.
  destruct (DataModels.key_lt (key y) (key x)) eqn:Hlt.
  - constructor; [apply IH, Hl|].
    rewrite insert_sorted_Permutation. constructor; [|exact Hy].
    apply key_lt_asym, Hlt.
  - constructor; [exact Hs|]. constructor; [exact Hlt|].
    eapply Forall_impl; [exact Hy|]. intros z Hz. unfold DataModels.key_le in *.
    eapply key_le_trans; eassumption.
Qed.

Lemma sorted_sorted (l : list A) : StronglySorted (DataModels.key_le key) (DataModels.sorted key l).
Proof.
  induction l as [|x l IH]; simpl; [constructor|].
  apply insert_sorted_sorted, IH.
Qed.

Lemma sorted_head_least (l : list A) (h : A) (t : list A) :
  DataModels.sorted key l = h :: t ->
  h ∈ l /\ forall x, x ∈ l -> (DataModels.key_le key) h x.
Proof.
  intros Hs. pose proof (sorted_sorted l) as Hsorted.
  pose proof (sorted_Permutation l) as Hperm. rewrite Hs in Hsorted, Hperm.
  split; [rewrite <- Hperm; left|].
  intros x Hx. rewrite <- Hperm in Hx.
  inversion Hsorted as [|? ? _ Hh]; subst.
  apply elem_of_cons in Hx as [-> | Hx].
  - unfold DataModels.key_le. destruct (key h) as [a|]; cbn; [|reflexivity].
    rewrite negb_false_iff, Qle_bool_iff. apply Qle_refl.
  - exact (proj1 (List.Forall_forall _ _) Hh x (proj1 (list_elem_of_In _ _) Hx)).
Qed.

Lemma max_by_greatest (best : A) (l : list A) :
  DataModels.max_by key best l ∈ best :: l
  /\ forall x, x ∈ best :: l -> (DataModels.key_le key) x (DataModels.max_by key best l).
Proof.
  revert best. induction l as [|y l IH]; intros best; cbn [DataModels.max_by].
  - split; [left|]. intros x Hx. apply list_elem_of_singleton in Hx as ->.
    unfold DataModels.key_le. destruct (key best) as [a|]; cbn; [|reflexivity].
    rewrite negb_false_iff, Qle_bool_iff. apply Qle_refl.
  - destruct (IH (if DataModels.key_lt (key best) (key y) then y else best))
      as [Hin Hmax].
    set (best' := if DataModels.key_lt (key best) (key y) then y else best) in *.
    assert (Hb : (DataModels.key_le key) best best' /\ (DataModels.key_le key) y best').
    { unfold best', DataModels.key_le. destruct (DataModels.key_lt (key best) (key y)) eqn:Hlt.
      - split; [apply key_lt_asym, Hlt|].
        destruct (key y) as [a|]; cbn; [|reflexivity].
        rewrite negb_false_iff, Qle_bool_iff. apply Qle_refl.
      - split; [|exact Hlt].
        destruct (key best) as [a|]; cbn; [|reflexivity].
        rewrite negb_false_iff, Qle_bool_iff. apply Qle_refl. }
    destruct Hb as [Hb Hy]. split.
    + apply elem_of_cons in Hin as [Hin | Hin].
      * rewrite Hin. unfold best'. destruct (DataModels.key_lt _ _);
          [right; left | left].
      * right. right. exact Hin.
    + intros x Hx. assert (Hbest' : (DataModels.key_le key) best' (DataModels.max_by key best' l))
        by (apply Hmax; left).
      apply elem_of_cons in Hx as [-> | Hx].
      * unfold DataModels.key_le in *. eapply key_le_trans; eassumption.
      * apply elem_of_cons in Hx as [-> | Hx].
        -- unfold DataModels.key_le in *. eapply key_le_trans; eassumption.
        -- apply Hmax. right. exact Hx.
Qed.

End Sorting.

Lemma elem_of_filter_bool {A} (f : A -> bool) (l : list A) (x : A) :
  x ∈ List.filter f l <-> x ∈ l /\ f x = true.
Proof. rewrite !list_elem_of_In. apply filter_In. Qed.

Lemma filter_bool_nil {A} (f : A -> bool) (l : list A) :
  List.filter f l = [] -> forall x, x ∈ l -> f x = false.
Proof.
  intros Hnil x Hx. destruct (f x) eqn:Hfx; [|reflexivity].
  assert (Hin : x ∈ List.filter f l) by (apply elem_of_filter_bool; auto).
  rewrite Hnil in Hin. inversion Hin.
Qed.

Lemma budget_profile_spec (available : list DataModels.ModelInfo) :
  match DataModels.create_budget_profile available with
  | Ok p =>
      exists m,
        m ∈ available
        /\ DataModels.supports_function_calling m = true
        /\ DataModels.has_cost m = true
        /\ DataModels.config p = DataModels.uniform (DataModels.id m) "budget"
        /\ forall m', m' ∈ available ->
                      DataModels.supports_function_calling m' = true ->
                      DataModels.has_cost m' = true ->
                      DataModels.key_le DataModels.budget_key m m'
  | Raise e =>
      exn_cls e = ValueError
      /\ forall m, m ∈ available -> DataModels.supports_function_calling m = true ->
                   DataModels.has_cost m = false
  end.
Proof.
  unfold DataModels.create_budget_profile.
  set (f := fun m => DataModels.supports_function_calling m && DataModels.has_cost m).
  destruct (DataModels.sorted DataModels.budget_key (List.filter f available))
    as [|cheapest rest] eqn:Hsorted.
  - split; [reflexivity|]. intros m Hm Hs.
    assert (Hnil : List.filter f available = []).
    { apply Permutation_nil_r. rewrite <- Hsorted. symmetry. apply sorted_Permutation. }
    pose proof (filter_bool_nil f available Hnil m Hm) as Hf. unfold f in Hf.
    rewrite Hs in Hf. exact Hf.
  - destruct (sorted_head_least _ _ _ _ Hsorted) as [Hin Hleast].
    apply elem_of_filter_bool in Hin as [Hin Hf]. unfold f in Hf.
    apply andb_true_iff in Hf as [Hs Hc].
    exists cheapest. split; [exact Hin|]. split; [exact Hs|]. split; [exact Hc|].
    split; [reflexivity|]. intros m' Hm' Hs' Hc'. apply Hleast.
    apply elem_of_filter_bool. split; [exact Hm'|]. unfold f. rewrite Hs', Hc'. reflexivity.
Qed.

Lemma balanced_profile_spec (available : list DataModels.ModelInfo) :
  match DataModels.create_balanced_profile available with
  | Ok p =>
      exists m,
        m ∈ available
        /\ DataModels.supports_function_calling m = true
        /\ DataModels.config p = DataModels.uniform (DataModels.id m) "balanced"
        /\ (DataModels.has_cost m = false ->
            forall m', m' ∈ available ->
                       DataModels.supports_function_calling m' = true ->
                       DataModels.has_cost m' = false)
  | Raise e =>
      exn_cls e = ValueError
      /\ forall m, m ∈ available -> DataModels.supports_function_calling m = false
  end.
Proof.
  unfold DataModels.create_balanced_profile.
  destruct (List.filter DataModels.supports_function_calling available)
    as [|first others] eqn:Hfc.
  - split; [reflexivity|]. apply filter_bool_nil, Hfc.
  - assert (Hsub : forall m, m ∈ first :: others ->
                             m ∈ available /\ DataModels.supports_function_calling m = true).
    { intros m Hm. rewrite <- Hfc in Hm. apply elem_of_filter_bool, Hm. }
    destruct (List.filter DataModels.has_cost (first :: others))
      as [|m0 costed] eqn:Hcost.
    + exists first. destruct (Hsub first) as [Hin Hs]; [left|].
      split; [exact Hin|]. split; [exact Hs|]. split; [reflexivity|].
      intros _ m' Hm' Hs'. apply (filter_bool_nil _ _ Hcost).
      rewrite <- Hfc. apply elem_of_filter_bool. auto.
    + set (sorted := DataModels.sorted DataModels.input_cost_per_1m (m0 :: costed)).
      assert (Hperm : sorted ≡ₚ m0 :: costed) by apply sorted_Permutation.
      assert (Hnth : nth (List.length sorted / 2) sorted m0 ∈ sorted).
      { apply list_elem_of_In, nth_In.
        assert (Hlen : List.length sorted = S (List.length costed))
          by (rewrite (Permutation_length Hperm); reflexivity).
        rewrite Hlen. apply Nat.div_lt; lia. }
      remember (nth (List.length sorted / 2) sorted m0) as chosen eqn:Hchosen.
      rewrite Hperm, <- Hcost in Hnth. apply elem_of_filter_bool in Hnth as [Hnth Hc].
      destruct (Hsub _ Hnth) as [Hin Hs].
      exists chosen. split; [exact Hin|]. split; [exact Hs|].
      split; [rewrite Hchosen; reflexivity|].
      intros Hno. congruence.
Qed.

Lemma premium_profile_spec (available : list DataModels.ModelInfo) :
  match DataModels.create_premium_profile available with
  | Ok p =>
      exists m,
        m ∈ available
        /\ DataModels.supports_function_calling m = true
        /\ DataModels.config p = DataModels.uniform (DataModels.id m) "premium"
        /\ forall m', m' ∈ available ->
                      DataModels.supports_function_calling m' = true ->
                      DataModels.has_cost m' = true ->
                      DataModels.has_cost m = true
                      /\ DataModels.key_le DataModels.input_cost_per_1m m' m
  | Raise e =>
      exn_cls e = ValueError
      /\ forall m, m ∈ available -> DataModels.supports_function_calling m = false
  end.
Proof.
  unfold DataModels.create_premium_profile.
  destruct (List.filter DataModels.supports_function_calling available)
    as [|first others] eqn:Hfc.
  - split; [reflexivity|]. apply filter_bool_nil, Hfc.
  - assert (Hsub : forall m, m ∈ first :: others ->
                             m ∈ available /\ DataModels.supports_function_calling m = true).
    { intros m Hm. rewrite <- Hfc in Hm. apply elem_of_filter_bool, Hm. }
    destruct (List.filter DataModels.has_cost (first :: others))
      as [|m0 costed] eqn:Hcost.
    + exists first. destruct (Hsub first) as [Hin Hs]; [left|].
      split; [exact Hin|]. split; [exact Hs|]. split; [reflexivity|].
      intros m' Hm' Hs' Hc'. exfalso.
      assert (Hf : DataModels.has_cost m' = false).
      { apply (filter_bool_nil _ _ Hcost). rewrite <- Hfc.
        apply elem_of_filter_bool. auto. }
      congruence.
    + destruct (max_by_greatest DataModels.input_cost_per_1m m0 costed) as [Hmax Hgreatest].
      rewrite <- Hcost in Hmax. apply elem_of_filter_bool in Hmax as [Hmax Hc].
      destruct (Hsub _ Hmax) as [Hin Hs].
      eexists. split; [exact Hin|]. split; [exact Hs|]. split; [reflexivity|].
      intros m' Hm' Hs' Hc'. split; [exact Hc|]. apply Hgreatest.
      rewrite <- Hcost. apply elem_of_filter_bool. split; [|exact Hc'].
      rewrite <- Hfc. apply elem_of_filter_bool. auto.
Qed.

(** X19. The three profiles.  A profile that is created puts one model in
    every slot, a model of the list that supports function calling.  The
    budget profile takes one with cost data whose key is least, where a
    cost of zero counts like no finite cost; the premium profile takes one
    whose cost is greatest, when any has cost data; the balanced one takes
    one with cost data, when any has.  The budget profile fails, with a
    [ValueError], when no such model has cost data; the two others only
    when no model supports function calling. *)
Theorem X19_profiles_pick_a_function_calling_model
    (available : list DataModels.ModelInfo) :
  match DataModels.create_budget_profile available with
  | Ok p =>
      exists m,
        m ∈ available
        /\ DataModels.supports_function_calling m = true
        /\ DataModels.has_cost m = true
        /\ DataModels.config p = DataModels.uniform (DataModels.id m) "budget"
        /\ forall m', m' ∈ available ->
                      DataModels.supports_function_calling m' = true ->
                      DataModels.has_cost m' = true ->
                      DataModels.key_le DataModels.budget_key m m'
  | Raise e =>
      exn_cls e = ValueError
      /\ forall m, m ∈ available -> DataModels.supports_function_calling m = true ->
                   DataModels.has_cost m = false
  end
  /\ match DataModels.create_balanced_profile available with
     | Ok p =>
         exists m,
           m ∈ available
           /\ DataModels.supports_function_calling m = true
           /\ DataModels.config p = DataModels.uniform (DataModels.id m) "balanced"
           /\ (DataModels.has_cost m = false ->
               forall m', m' ∈ available ->
                          DataModels.supports_function_calling m' = true ->
                          DataModels.has_cost m' = false)
     | Raise e =>
         exn_cls e = ValueError
         /\ forall m, m ∈ available -> DataModels.supports_function_calling m = false
     end
  /\ match DataModels.create_premium_profile available with
     | Ok p =>
         exists m,
           m ∈ available
           /\ DataModels.supports_function_calling m = true
           /\ DataModels.config p = DataModels.uniform (DataModels.id m) "premium"
           /\ forall m', m' ∈ available ->
                         DataModels.supports_function_calling m' = true ->
                         DataModels.has_cost m' = true ->
                         DataModels.has_cost m = true
                         /\ DataModels.key_le DataModels.input_cost_per_1m m' m
     | Raise e =>
         exn_cls e = ValueError
         /\ forall m, m ∈ available -> DataModels.supports_function_calling m = false
     end.
Proof.
  split; [apply budget_profile_spec|].
  split; [apply balanced_profile_spec | apply premium_profile_spec].
Qed.

(** The budget profile prefers the paid model to the free one. *)
Lemma X19_witness :
  exists p m,
    DataModels.create_budget_profile Cases.catalogue = Ok p
    /\ m ∈ Cases.catalogue
    /\ DataModels.config p = DataModels.uniform (DataModels.id m) "budget"
    /\ DataModels.config p = DataModels.uniform "paid" "budget".
Proof.
  destruct (DataModels.create_budget_profile Cases.catalogue) as [p|e] eqn:Hp;
    [|vm_compute in Hp; discriminate].
  pose proof (proj1 (X19_profiles_pick_a_function_calling_model Cases.catalogue)) as H.
  destruct H as (m & Hm & _ & _ & Hc & _).
  exists p, m. split; [reflexivity|].
  vm_compute in Hp. injection Hp as <-.
  split; [exact Hm|]. split; [exact Hc|reflexivity].
Defined.

(** ** The display *)

Lemma int_nonneg (x : Q) : (0 <= x)%Q -> Cli.int x = Qfloor x.
Proof.
  intros H. unfold Cli.int. apply Qle_bool_iff in H. rewrite H. reflexivity.
Qed.

Lemma int_inject_Z (z : Z) : Cli.int (inject_Z z) = z.
Proof.
  unfold Cli.int. destruct (Qle_bool 0 (inject_Z z)); [apply Qfloor_Z|apply Qceiling_Z].
Qed.

Lemma Qfloor_div_pos (x : Q) (d : positive) :
  Qfloor (x / inject_Z (Z.pos d)) = Qfloor x / Z.pos d.
Proof.
  destruct x as [p q]. cbn. rewrite Z.mul_1_r, Pos2Z.inj_mul.
  rewrite Z.div_div by lia. reflexivity.
Qed.

Lemma Qfloor_sub_mul (x : Q) (d k : Z) :
  Qfloor (x - inject_Z d * inject_Z k) = Qfloor x - d * k.
Proof.
  destruct x as [p q]. cbn.
  change (1 * 1)%positive with 1%positive. rewrite Pos.mul_1_r, Z.mul_1_r.
  rewrite Z.div_add by lia. lia.
Qed.

Lemma modulo_nonneg (x : Q) (d : positive) :
  (0 <= Cli.modulo x (inject_Z (Z.pos d)))%Q.
Proof.
  unfold Cli.modulo, Cli.floordiv. rewrite Qfloor_div_pos.
  destruct x as [p q]. unfold Qle. cbn.
  change (1 * 1)%positive with 1%positive. rewrite Pos.mul_1_r, !Z.mul_1_r.
  pose proof (Z.mul_div_le p (Z.pos q) ltac:(lia)).
  pose proof (Z.mul_div_le (p / Z.pos q) (Z.pos d) ltac:(lia)).
  nia.
Qed.

Lemma Qle_bool_inject_Z (z : Z) (x : Q) :
  Qle_bool (inject_Z z) x = (z <=? Qfloor x)%Z.
Proof.
  destruct x as [p q]. unfold Qle_bool. cbn. rewrite Z.mul_1_r.
  destruct (Z.leb_spec (z * Z.pos q) p) as [H|H];
    destruct (Z.leb_spec z (p / Z.pos q)) as [H'|H']; try reflexivity; exfalso.
  - assert (z <= p / Z.pos q) by (apply Z.div_le_lower_bound; lia). lia.
  - pose proof (Z.mul_div_le p (Z.pos q) ltac:(lia)). nia.
Qed.

(** X20. The clock of the display shows whole seconds: for a duration
    from 0 to below 2^53 seconds, where the arithmetic of [format_time] is
    exact, the text only depends on the number of whole seconds, of which it
    shows the seconds below a minute, the minutes and the seconds below an
    hour, and the hours and the minutes from an hour on. *)
Theorem X20_format_time_shows_whole_seconds (seconds : Q) :
  (0 <= seconds)%Q ->
  (seconds < inject_Z (2 ^ 53))%Q ->
  let n := Qfloor seconds in
  Cli.format_time seconds
  = if (n <? 60)%Z then pretty n ++ "S"
    else if (n <? 3600)%Z then pretty (n / 60) ++ "M" ++ pretty (n mod 60) ++ "S"
    else pretty (n / 3600) ++ "H" ++ pretty ((n mod 3600) / 60) ++ "M".
Proof.
  intros Hpos _ n. unfold Cli.format_time.
  change 60%Q with (inject_Z 60). change 3600%Q with (inject_Z 3600).
  rewrite !Qle_bool_inject_Z. fold n.
  rewrite <- !Z.ltb_antisym.
  destruct (n <? 60)%Z; [rewrite int_nonneg by exact Hpos; reflexivity|].
  destruct (n <? 3600)%Z.
  - unfold Cli.floordiv. rewrite int_inject_Z, Qfloor_div_pos. fold n.
    rewrite (int_nonneg _ (modulo_nonneg seconds 60)).
    unfold Cli.modulo, Cli.floordiv. rewrite Qfloor_sub_mul, Qfloor_div_pos. fold n.
    rewrite Z.mod_eq by lia. reflexivity.
  - unfold Cli.floordiv at 1 2. rewrite !int_inject_Z, !Qfloor_div_pos. fold n.
    unfold Cli.modulo, Cli.floordiv. rewrite Qfloor_sub_mul, Qfloor_div_pos. fold n.
    rewrite Z.mod_eq by lia. reflexivity.
Qed.

Lemma X20_witness :
  Cli.format_time (7325 # 2) = "1H1M".
Proof.
  rewrite X20_format_time_shows_whole_seconds; [reflexivity| |].
  - unfold Qle. simpl. lia.
  - unfold Qlt. simpl. lia.
Defined.
Import Observations.

(** ** Progress *)

Lemma sent_requests (log : list ApiParams) :
  Progress.sent (Progress.Request <$> log) = log.
Proof.
  unfold Progress.sent. induction log as [|p log IH]; [reflexivity|].
  rewrite fmap_cons. cbn. f_equal. exact IH.
Qed.

Lemma get_progress_status_requests (progress : gmap Z string) (log : list ApiParams) :
  Progress.get_progress_status progress (Progress.Request <$> log) = progress.
Proof.
  unfold Progress.get_progress_status. induction log as [|p log IH]; [reflexivity|].
  rewrite fmap_cons. cbn. exact IH.
Qed.

Lemma get_progress_status_app (progress : gmap Z string) (l1 l2 : list Progress.Event) :
  Progress.get_progress_status progress (l1 ++ l2)
  = Progress.get_progress_status (Progress.get_progress_status progress l1) l2.
Proof. unfold Progress.get_progress_status. apply foldl_app. Qed.

Lemma sent_app (l1 l2 : list Progress.Event) :
  Progress.sent (l1 ++ l2) = (Progress.sent l1 ++ Progress.sent l2)%list.
Proof. unfold Progress.sent. apply omap_app. Qed.

(** X21. The progress of a worker.  The updates change nothing of what
    the worker returns and sends.  The worker writes its own entry of the
    progress dictionary only, and only the statuses "PROCESSING..." and
    "COMPLETED": none, when the progress line fails; "COMPLETED" when its
    agent was created and its run returned; and otherwise "PROCESSING...",
    which a worker that failed keeps showing. *)
Theorem X21_progress_of_a_worker
    (rt : Runtime) (w : World) (self : TaskOrchestrator) (i : Z) (subtask : json)
    (progress : gmap Z string) :
  let worker := Progress.run_agent_parallel rt w self i subtask in
  let shown := Progress.get_progress_status progress (requests worker) in
  value worker = value (run_agent_parallel rt w self i subtask)
  /\ Progress.sent (requests worker) = requests (run_agent_parallel rt w self i subtask)
  /\ (forall j, j <> i -> shown !! j = progress !! j)
  /\ match (if silent self then Ok tt else slice_check subtask) with
     | Raise _ => shown = progress
     | Ok _ =>
         shown !! i
         = Some (match value (do agent <- _create_agent_with_model w i
                                            (_get_agent_model w self i);
                              run rt agent subtask) with
                 | Ok _ => "COMPLETED"
                 | Raise _ => "PROCESSING..."
                 end)
     end.
Proof.
  cbn zeta. unfold Progress.run_agent_parallel, run_agent_parallel.
  destruct (if silent self then Ok tt else slice_check subtask) as [[]|e0].
  2: { split; [reflexivity|]. split; [reflexivity|]. split; reflexivity. }
  rewrite create_agent_eq.
  set (created := match get_provider_config w, new_agent w (ModelAgent i) with
                  | Ok _, Ok agent => Ok (with_model agent (_get_agent_model w self i))
                  | _, _ => new_agent w (DefaultAgent i)
                  end).
  destruct created as [agent|e1].
  2: { cbn. split; [reflexivity|]. split; [reflexivity|].
       split; [intros j Hj; apply lookup_insert_ne; congruence|apply lookup_insert_eq]. }
  destruct (run rt agent subtask) as [[text|e2] log] eqn:Hrun.
  - destruct (len subtask) as [n|e3];
      cbn -[Progress.get_progress_status Progress.sent]; rewrite Hrun;
      cbn -[Progress.get_progress_status Progress.sent]; rewrite ?app_nil_r;
      change (Progress.Update i "PROCESSING..." :: ?l)
        with ([Progress.Update i "PROCESSING..."] ++ l)%list;
      rewrite !sent_app, sent_requests, !get_progress_status_app,
        get_progress_status_requests; cbn; rewrite ?app_nil_r;
      (split; [reflexivity|]); (split; [reflexivity|]);
      (split; [|apply lookup_insert_eq]);
      intros j Hj; rewrite !lookup_insert_ne by congruence; reflexivity.
  - cbn -[Progress.get_progress_status Progress.sent]. rewrite Hrun.
    cbn -[Progress.get_progress_status Progress.sent]. rewrite ?app_nil_r.
    change (Progress.Update i "PROCESSING..." :: ?l)
      with ([Progress.Update i "PROCESSING..."] ++ l)%list.
    rewrite !sent_app, sent_requests, !get_progress_status_app,
      get_progress_status_requests. cbn.
    split; [reflexivity|]. split; [reflexivity|].
    split; [|apply lookup_insert_eq].
    intros j Hj. rewrite !lookup_insert_ne by congruence. reflexivity.
Qed.

(** Worker 0 of [two_workers] cannot reach its model: it keeps showing
    "PROCESSING...", and the entry of worker 1 is untouched. *)
Lemma X21_witness :
  let shown :=
    Progress.get_progress_status (<[0 := "QUEUED"]> (<[1 := "QUEUED"]> ∅))
      (requests (Progress.run_agent_parallel Scenarios.runtime
                   (Scenarios.two_workers [0; 1]) (Scenarios.orchestrator_for 2)
                   0 (JStr "a"))) in
  shown !! 1 = Some "QUEUED" /\ shown !! 0 = Some "PROCESSING...".
Proof.
  destruct (X21_progress_of_a_worker Scenarios.runtime (Scenarios.two_workers [0; 1])
              (Scenarios.orchestrator_for 2) 0 (JStr "a")
              (<[0 := "QUEUED"]> (<[1 := "QUEUED"]> ∅)))
    as (_ & _ & Hothers & Hown).
  split; [rewrite Hothers by discriminate; reflexivity|exact Hown].
Defined.

(** ** The GUI *)

(** X22. The GUI reports every failure as text.  [run_async] hands a
    string to the completion callback whatever happens: the answer when the
    run returns, and otherwise the message of the exception behind
    "Error: Single agent execution failed: " or
    "Error: Heavy mode execution failed: ", according to the mode. *)
Theorem X22_gui_reports_every_failure_as_text
    (rt : Runtime) (w : World) (current_mode : string)
    (new_agent : result UniversalAgent) (new_orchestrator : M ApiParams TaskOrchestrator)
    (message : string) :
  let single := (current_mode =? "single")%string in
  let task :=
    if single then do agent <- lift new_agent; run rt agent (JStr message)
    else do orchestrator <- new_orchestrator; orchestrate rt w orchestrator message in
  value (Gui.run_async rt w current_mode new_agent new_orchestrator message)
  = Ok (match value task with
        | Ok answer => answer
        | Raise e =>
            "Error: "
            ++ (if single then "Single agent execution failed: "
                else "Heavy mode execution failed: ")
            ++ exn_str e
        end)
  /\ requests (Gui.run_async rt w current_mode new_agent new_orchestrator message)
     = requests task.
Proof.
  cbn zeta. unfold Gui.run_async, Gui.run_single_agent, Gui.run_heavy_mode.
  destruct (current_mode =? "single")%string.
  - rewrite !value_try_except, !requests_try_except, !value_try_except.
    destruct (value (do agent <- lift new_agent; run rt agent (JStr message)));
      cbn; rewrite ?app_nil_r; split; reflexivity.
  - rewrite !value_try_except, !requests_try_except, !value_try_except.
    destruct (value (do orchestrator <- new_orchestrator;
                     orchestrate rt w orchestrator message));
      cbn; rewrite ?app_nil_r; split; reflexivity.
Qed.
Import Observations.

(** ** Configuration edges of the orchestrator *)

(** X23. A budget limit of zero breaks every run of an orchestrator that
    is not silent: [orchestrate] never returns a string, because the summary
    printed at the end formats a remaining budget that is [None]; the command
    line then returns [None] for every input. *)
Theorem X23_zero_budget_breaks_every_run
    (rt : Runtime) (w : World) (self : TaskOrchestrator) (b : Q) (user_input : string) :
  silent self = false ->
  budget_limit self = Some b ->
  (b == 0)%Q ->
  (forall s, value (orchestrate rt w self user_input) <> Ok s)
  /\ (forall subtasks rs answer,
         value (decompose_task rt w self user_input (num_agents self)) = Ok subtasks ->
         value (fan_out rt w self subtasks) = Ok rs ->
         value (aggregate_results rt w self (sort_by_agent_id rs)) = Ok answer ->
         value (orchestrate rt w self user_input)
         = Raise (mk_exn TypeError
                    "unsupported format string passed to NoneType.__format__"))
  /\ value (Cli.run_task rt w self user_input) = Ok None.
Proof.
  intros Hsilent Hbudget Hzero.
  assert (Hlog : log_execution_summary self
                 = Raise (mk_exn TypeError
                            "unsupported format string passed to NoneType.__format__")).
  { unfold log_execution_summary. rewrite Hsilent, Hbudget.
    apply Qeq_bool_iff in Hzero. rewrite Hzero. reflexivity. }
  assert (Hnever : forall s, value (orchestrate rt w self user_input) <> Ok s).
  { intros s. unfold orchestrate. rewrite value_bind.
    destruct (value (decompose_task rt w self user_input (num_agents self)));
      [|discriminate].
    rewrite value_bind. destruct (value (fan_out rt w self _)); [|discriminate].
    rewrite value_bind. destruct (value (aggregate_results rt w self _)); [|discriminate].
    rewrite value_bind, Hlog. discriminate. }
  split; [exact Hnever|]. split.
  - intros subtasks rs answer Hd Hf Ha. unfold orchestrate.
    rewrite value_bind, Hd, value_bind, Hf, value_bind, Ha, value_bind, Hlog.
    reflexivity.
  - unfold Cli.run_task. rewrite value_try_except, value_bind.
    destruct (value (orchestrate rt w self user_input)) as [s|e] eqn:Hs; [|reflexivity].
    exfalso. exact (Hnever s eq_refl).
Qed.

Lemma X23_witness :
  value (Cli.run_task Scenarios.runtime (Scenarios.two_workers [0; 1])
           Cases.zero_budget "q") = Ok None.
Proof.
  destruct (X23_zero_budget_breaks_every_run Scenarios.runtime
              (Scenarios.two_workers [0; 1]) Cases.zero_budget (0 # 1) "q")
    as (_ & _ & Hcli); [reflexivity|reflexivity|reflexivity|exact Hcli].
Defined.

(** X24. The model of a worker and of the synthesis.  A slot of the
    multi-model configuration that is not empty decides the model of its
    worker.  An empty slot, and a missing multi-model configuration, fall
    back to the model of the provider configuration, and to "deepseek-chat"
    only when that cannot be read; so the name assigned to a worker is empty
    only if the provider configuration itself names no model.  The synthesis
    model is taken from the multi-model configuration as it is, empty or
    not, whatever the provider configuration is. *)
Theorem X24_workers_get_a_model_name
    (w : World) (self : TaskOrchestrator) (i : Z) :
  let provider :=
    match get_provider_config w with
    | Ok pc => pc_model pc
    | Raise _ => "deepseek-chat"
    end in
  (forall mm, multi_model_config self = Some mm ->
              get_agent_model mm i <> "" ->
              _get_agent_model w self i = get_agent_model mm i)
  /\ (forall mm, multi_model_config self = Some mm ->
                 get_agent_model mm i = "" ->
                 _get_agent_model w self i = provider)
  /\ (multi_model_config self = None ->
      _get_agent_model w self i = provider /\ _get_synthesis_model w self = provider)
  /\ (forall mm, multi_model_config self = Some mm ->
                 _get_synthesis_model w self = synthesis_model mm)
  /\ (_get_agent_model w self i = "" ->
      exists pc, get_provider_config w = Ok pc /\ pc_model pc = "").
Proof.
  cbn zeta. unfold _get_agent_model, _get_synthesis_model, provider_model_or_default.
  split; [|split; [|split; [|split]]].
  - intros mm -> Hne. destruct (get_agent_model mm i); [contradiction|reflexivity].
  - intros mm -> ->. reflexivity.
  - intros ->. split; reflexivity.
  - intros mm ->. reflexivity.
  - destruct (multi_model_config self) as [mm|].
    + destruct (nonempty (get_agent_model mm i)) eqn:Hne.
      * intros Hempty. rewrite Hempty in Hne. discriminate.
      * destruct (get_provider_config w) as [pc|e]; [eauto|discriminate].
    + destruct (get_provider_config w) as [pc|e]; [eauto|discriminate].
Qed.

(** The slot of worker 2 is empty: it gets the model of the provider
    configuration, while the synthesis keeps the model of its slot. *)
Lemma X24_witness :
  _get_agent_model Cases.named_provider (Cases.orchestrator_with_models 4) 2
  = "provider-model"
  /\ _get_agent_model Cases.named_provider (Cases.orchestrator_with_models 4) 1
     = "model-b"
  /\ _get_synthesis_model Cases.named_provider (Cases.orchestrator_with_models 4)
     = "model-s".
Proof.
  split; [|split].
  - destruct (X24_workers_get_a_model_name Cases.named_provider
                (Cases.orchestrator_with_models 4) 2) as (_ & Hempty & _).
    exact (Hempty Cases.models eq_refl eq_refl).
  - destruct (X24_workers_get_a_model_name Cases.named_provider
                (Cases.orchestrator_with_models 4) 1) as (Hslot & _).
    apply (Hslot Cases.models eq_refl). discriminate.
  - destruct (X24_workers_get_a_model_name Cases.named_provider
                (Cases.orchestrator_with_models 4) 2) as (_ & _ & _ & Hsynthesis & _).
    exact (Hsynthesis Cases.models eq_refl).
Defined.
Import Observations.

(** ** The two validations *)

(** X25. The validation of the factory is the stricter one: a provider
    configuration read by [get_provider_config] whose section the factory
    accepts also passes [ProviderConfig.validate] and the
    [validate_provider_config] of the configuration manager. *)
Theorem X25_the_factory_validates_more
    (repr : json -> string) (config : option (gmap string json))
    (pc : Provider.ProviderConfig) :
  Provider.get_provider_config repr config = Ok pc ->
  Provider.validate_provider_config (Provider.provider_type pc)
    (Provider.additional_params pc) = Ok true ->
  Provider.validate pc = Ok true
  /\ Provider.manager_validate_provider_config repr config (Provider.provider_type pc)
     = Ok true.
Proof.
  intros Hpc Hvalid.
  destruct (get_provider_config_spec repr config) as [Hfields _].
  destruct (Hfields pc Hpc) as (c & _ & Hsupported & _ & _ & Hkey & Hurl & Hmodel).
  apply (proj1 (validate_provider_config_spec _ _)) in Hvalid. cbn zeta in Hvalid.
  assert (Hdefault : forall x : option json,
             Provider.truthy (default JNull x) = true ->
             Provider.truthy (default (JStr "") x) = true).
  { intros [v|]; [auto|discriminate]. }
  assert (Htruthy : Provider.truthy (Provider.api_key pc) = true
                    /\ Provider.truthy (Provider.base_url pc) = true
                    /\ Provider.truthy (Provider.model pc) = true).
  { rewrite Hkey, Hurl, Hmodel. destruct Hvalid as [Hk Hrest].
    split; [apply Hdefault, Hk|].
    destruct Hrest as [(_ & Hu & Hm) | (_ & Hu & Hm)].
    - split; apply Hdefault; [rewrite Hu; reflexivity|].
      destruct Hm as [Hm | Hm]; rewrite Hm; reflexivity.
    - split; apply Hdefault; [|exact Hm].
      destruct Hu as [Hu | Hu]; rewrite Hu; reflexivity. }
  destruct Htruthy as (Hk & Hu & Hm).
  assert (Hv : Provider.validate pc = Ok true).
  { unfold Provider.validate. rewrite Hk, Hu, Hm. reflexivity. }
  split; [exact Hv|].
  unfold Provider.manager_validate_provider_config. rewrite Hpc. cbn [and_then].
  rewrite String.eqb_refl. cbn [negb].
  destruct Hsupported as [-> | ->]; cbn; exact Hv.
Qed.

Lemma X25_witness :
  exists pc,
    Provider.get_provider_config Cases.repr
      (Cases.deepseek_file "https://api.deepseek.com") = Ok pc
    /\ Provider.validate pc = Ok true.
Proof.
  destruct (Provider.get_provider_config Cases.repr
              (Cases.deepseek_file "https://api.deepseek.com")) as [pc|e] eqn:Hpc;
    [|vm_compute in Hpc; discriminate].
  exists pc. split; [reflexivity|].
  apply (X25_the_factory_validates_more Cases.repr
           (Cases.deepseek_file "https://api.deepseek.com") pc Hpc).
  vm_compute in Hpc. injection Hpc as <-. vm_compute. reflexivity.
Defined.

(** ** Profiles and workers *)

Lemma get_agent_model_uniform (model profile : string) (i : Z) :
  DataModels.get_agent_model (DataModels.uniform model profile) i = model
  /\ get_agent_model (DataModels.as_loaded (DataModels.uniform model profile)) i = model.
Proof.
  split.
  - unfold DataModels.get_agent_model. cbn [list_to_map foldr uncurry fst snd
      DataModels.uniform DataModels.agent_0_model DataModels.agent_1_model
      DataModels.agent_2_model DataModels.agent_3_model DataModels.default_model].
    destruct (decide (i = 0)) as [->|H0]; [rewrite lookup_insert_eq; reflexivity|].
    rewrite lookup_insert_ne by congruence.
    destruct (decide (i = 1)) as [->|H1]; [rewrite lookup_insert_eq; reflexivity|].
    rewrite lookup_insert_ne by congruence.
    destruct (decide (i = 2)) as [->|H2]; [rewrite lookup_insert_eq; reflexivity|].
    rewrite lookup_insert_ne by congruence.
    destruct (decide (i = 3)) as [->|H3]; [rewrite lookup_insert_eq; reflexivity|].
    rewrite lookup_insert_ne by congruence. rewrite lookup_empty. reflexivity.
  - unfold get_agent_model. cbn.
    destruct (i =? 0)%Z; [reflexivity|]. destruct (i =? 1)%Z; [reflexivity|].
    destruct (i =? 2)%Z; [reflexivity|]. destruct (i =? 3)%Z; reflexivity.
Qed.

(** X26. A profile decides the model of every worker.  When the models
    of the catalogue passed the check of [ModelInfo] and one of the three
    profiles is created and loaded by the orchestrator, every worker, with
    whatever index, and the synthesis are assigned the one model of the
    profile: a model of the catalogue with function calling, whose id is not
    empty, so that the model of the provider configuration is never used. *)
Theorem X26_a_profile_decides_every_model
    (available : list DataModels.ModelInfo) (p : DataModels.ConfigurationProfile)
    (w : World) (self : TaskOrchestrator) :
  (forall m, m ∈ available -> DataModels.__post_init__ m = Ok tt) ->
  DataModels.create_budget_profile available = Ok p
  \/ DataModels.create_balanced_profile available = Ok p
  \/ DataModels.create_premium_profile available = Ok p ->
  multi_model_config self = Some (DataModels.as_loaded (DataModels.config p)) ->
  exists m,
    m ∈ available
    /\ DataModels.supports_function_calling m = true
    /\ DataModels.id m <> ""
    /\ (forall i, DataModels.get_agent_model (DataModels.config p) i = DataModels.id m
                  /\ _get_agent_model w self i = DataModels.id m)
    /\ _get_synthesis_model w self = DataModels.id m.
Proof.
  intros Hchecked Hcreated Hloaded.
  assert (Hm : exists m profile,
             m ∈ available
             /\ DataModels.supports_function_calling m = true
             /\ DataModels.config p = DataModels.uniform (DataModels.id m) profile).
  { destruct Hcreated as [H | [H | H]].
    - pose proof (budget_profile_spec available) as Hs. rewrite H in Hs.
      destruct Hs as (m & Hin & Hfc & _ & Hc & _). eauto.
    - pose proof (balanced_profile_spec available) as Hs. rewrite H in Hs.
      destruct Hs as (m & Hin & Hfc & Hc & _). eauto.
    - pose proof (premium_profile_spec available) as Hs. rewrite H in Hs.
      destruct Hs as (m & Hin & Hfc & Hc & _). eauto. }
  destruct Hm as (m & profile & Hin & Hfc & Hc).
  assert (Hid : DataModels.id m <> "").
  { specialize (Hchecked m Hin). unfold DataModels.__post_init__ in Hchecked.
    destruct (DataModels.id m); [discriminate|]. discriminate. }
  exists m. split; [exact Hin|]. split; [exact Hfc|]. split; [exact Hid|].
  rewrite Hc in *. split.
  - intros i. destruct (get_agent_model_uniform (DataModels.id m) profile i) as [H1 H2].
    split; [exact H1|].
    unfold _get_agent_model. rewrite Hloaded, H2.
    destruct (DataModels.id m); [contradiction|reflexivity].
  - unfold _get_synthesis_model. rewrite Hloaded. reflexivity.
Qed.

Lemma X26_witness :
  _get_agent_model Cases.unconfigured Cases.budget_orchestrator 7 = "paid".
Proof.
  destruct (DataModels.create_budget_profile Cases.catalogue) as [p|e] eqn:Hp;
    [|vm_compute in Hp; discriminate].
  destruct (X26_a_profile_decides_every_model Cases.catalogue p Cases.unconfigured
              Cases.budget_orchestrator) as (m & _ & _ & _ & Hworkers & _).
  - intros m Hm.
    repeat (apply elem_of_cons in Hm as [-> | Hm]; [reflexivity|]). inversion Hm.
  - left. exact Hp.
  - vm_compute in Hp. injection Hp as <-. reflexivity.
  - destruct (Hworkers 7) as [Hprofile Hworker].
    rewrite Hworker, <- Hprofile.
    vm_compute in Hp. injection Hp as <-.
    exact (proj1 (get_agent_model_uniform "paid" "budget" 7)).
Defined.

(** ** The order of the fallback *)

Lemma imap_lookups {A B} (g : nat -> A -> B) (d : A) (l : list A) :
  imap g l = (fun k : nat => g k (default d (l !! k))) <$> seq 0 (List.length l).
Proof.
  apply list_eq. intros k. rewrite list_lookup_imap, list_lookup_fmap.
  destruct (l !! k) as [x|] eqn:Hk.
  - rewrite (lookup_seq_lt 0 (List.length l) k) by (eapply lookup_lt_Some; exact Hk).
    cbn. rewrite Hk. reflexivity.
  - rewrite (lookup_seq_ge 0 (List.length l) k) by (apply lookup_ge_None; exact Hk).
    reflexivity.
Qed.

(** The futures of a decomposition into one question per worker: worker
    [i] is submitted with the question [i], in the order of the indices. *)
Lemma submit_all_questions (rt : Runtime) (w : World) (self : TaskOrchestrator)
    (questions : list json) :
  Z.of_nat (List.length questions) = num_agents self ->
  submit_all rt w self (JArr questions) (range (num_agents self))
  = (imap (fun (i : nat) question =>
             (Z.of_nat i, run_agent_parallel rt w self (Z.of_nat i) question)) questions,
     None).
Proof.
  intros Hlen.
  assert (Hids : forall ids : list nat,
             (forall k, k ∈ ids -> (k < List.length questions)%nat) ->
             submit_all rt w self (JArr questions) ((fun k : nat => Z.of_nat k) <$> ids)
             = ((fun k : nat =>
                   (Z.of_nat k,
                    run_agent_parallel rt w self (Z.of_nat k)
                      (default JNull (questions !! k)))) <$> ids, None)).
  { induction ids as [|k ids IH]; intros Hin; [reflexivity|].
    rewrite fmap_cons. cbn [submit_all].
    assert (Hk : (k < List.length questions)%nat) by (apply Hin; left).
    destruct (lookup_lt_is_Some_2 questions k Hk) as [q Hq].
    assert (Hitem : item (JArr questions) (Z.of_nat k) = Ok q).
    { unfold item. destruct (Z.ltb_spec (Z.of_nat k) 0) as [|_]; [lia|].
      destruct (Z.ltb_spec (Z.of_nat k) 0) as [|_]; [lia|].
      rewrite Nat2Z.id, Hq. reflexivity. }
    rewrite Hitem, IH by (intros k' Hk'; apply Hin; right; exact Hk').
    rewrite fmap_cons, Hq. reflexivity. }
  unfold range. rewrite <- Hlen, Nat2Z.id, Hids.
  - rewrite (imap_lookups _ JNull). reflexivity.
  - intros k Hk. apply elem_of_seq in Hk. lia.
Qed.

Lemma worker_records_ids (rt : Runtime) (w : World) (self : TaskOrchestrator)
    (questions : list json) :
  agent_id <$> worker_records rt w self questions
  = range (Z.of_nat (List.length questions)).
Proof.
  unfold worker_records, range. rewrite Nat2Z.id.
  rewrite (imap_lookups _ JNull), <- list_fmap_compose.
  apply list_fmap_ext. intros _ k _. cbn.
  destruct (worker_returns rt w self (Z.of_nat k) (default JNull (questions !! k)))
    as (r & -> & Hr). exact Hr.
Qed.

Lemma StronglySorted_range (n : Z) : StronglySorted Z.lt (range n).
Proof.
  unfold range. generalize 0%nat as k.
  induction (Z.to_nat n) as [|m IH]; intros k; [constructor|].
  cbn [seq]. rewrite fmap_cons. constructor; [apply IH|].
  apply List.Forall_forall. intros j Hj. apply list_elem_of_In in Hj.
  apply list_elem_of_fmap in Hj as (i & -> & Hi). apply elem_of_seq in Hi. lia.
Qed.

Lemma StronglySorted_lt_le (l : list Z) :
  StronglySorted Z.lt l -> StronglySorted Z.le l.
Proof.
  induction 1 as [|x l _ IH Hx]; constructor; [exact IH|].
  eapply Forall_impl; [exact Hx|]. intros y Hy. cbn in Hy. lia.
Qed.

Lemma StronglySorted_ids (R : Z -> Z -> Prop) (l : list AgentResult) :
  StronglySorted R (agent_id <$> l) ->
  StronglySorted (fun x y => R (agent_id x) (agent_id y)) l.
Proof.
  induction l as [|x l IH]; intros Hs; [constructor|].
  rewrite fmap_cons in Hs. inversion Hs as [|? ? Hl Hx]; subst.
  constructor; [apply IH, Hl|].
  apply List.Forall_forall. intros y Hy.
  apply (proj1 (List.Forall_forall _ _) Hx).
  apply list_elem_of_In, list_elem_of_fmap. exists y. split; [reflexivity|].
  apply list_elem_of_In, Hy.
Qed.

Lemma StronglySorted_filter_ids (l : list AgentResult) :
  StronglySorted Z.lt (agent_id <$> l) ->
  StronglySorted Z.lt (List.map agent_id (List.filter is_success l)).
Proof.
  induction l as [|x l IH]; intros Hs; [constructor|].
  rewrite fmap_cons in Hs. inversion Hs as [|? ? Hl Hx]; subst.
  cbn [List.filter]. destruct (is_success x); [|apply IH, Hl].
  cbn [List.map]. constructor; [apply IH, Hl|].
  apply List.Forall_forall. intros k Hk.
  apply in_map_iff in Hk as (y & <- & Hy). apply filter_In in Hy as [Hy _].
  apply (proj1 (List.Forall_forall _ _) Hx).
  apply list_elem_of_In, list_elem_of_fmap. exists y. split; [reflexivity|].
  apply list_elem_of_In, Hy.
Qed.

(** What [orchestrate] aggregates: whatever the order in which the workers
    complete, the sort leaves the records of the workers by index. *)
Lemma fan_out_sorted (rt : Runtime) (w : World) (self : TaskOrchestrator)
    (questions : list json) :
  0 < num_agents self ->
  Z.of_nat (List.length questions) = num_agents self ->
  (forall i, 0 <= i < num_agents self -> i ∈ arrival w) ->
  exists rs,
    value (fan_out rt w self (JArr questions)) = Ok rs
    /\ sort_by_agent_id rs = worker_records rt w self questions.
Proof.
  intros Hpos Hlen Harrived. unfold fan_out.
  destruct (Z.leb_spec (num_agents self) 0) as [|_]; [lia|].
  rewrite (submit_all_questions rt w self questions Hlen).
  set (futures := imap (fun (i : nat) question =>
                          (Z.of_nat i, run_agent_parallel rt w self (Z.of_nat i) question))
                       questions).
  assert (Hids : futures.*1 = range (num_agents self)).
  { unfold futures. rewrite fmap_imap. unfold range.
    rewrite <- Hlen, Nat2Z.id, (imap_lookups _ JNull). reflexivity. }
  destruct (collect_complete w self futures) as (rs & Hcollect & Hperm).
  { rewrite Hids. apply NoDup_range. }
  { rewrite Hids. intros i Hi. apply Harrived, elem_of_range, Hi. }
  exists rs. cbn [value fst]. split; [exact Hcollect|].
  assert (Hrecords : List.map (fun '(i, m) => match value m with
                                              | Ok r => r
                                              | Raise e => timeout_result self i e
                                              end) futures
                     = worker_records rt w self questions).
  { unfold futures, worker_records.
    change (List.map ?f ?l) with (f <$> l). rewrite fmap_imap. reflexivity. }
  rewrite Hrecords in Hperm.
  symmetry. apply sorted_by_agent_id_unique.
  - apply (StronglySorted_ids Z.le).
    rewrite worker_records_ids.
    apply StronglySorted_lt_le, StronglySorted_range.
  - apply sort_by_agent_id_sorted.
  - rewrite worker_records_ids. apply NoDup_range.
  - rewrite sort_by_agent_id_Permutation, Hperm. reflexivity.
Qed.

(** C6. With at least two successful results, when the run of the
    synthesis agent raises, aggregation returns the successful responses in
    the order of the list it is given, each under the header
    [=== Agent i Response ===] with [i] counting the successful responses
    from 1, one block per response, joined by line feeds, and nothing else.
    In [orchestrate] that list is the records of the workers by ascending
    agent id, whatever the order in which the workers complete: the sort
    puts the record of worker [i] at position [i], so the blocks of the
    string that [orchestrate] returns follow the indices of the workers. *)
Theorem C6_synthesis_failure_falls_back_to_concatenation
    (rt : Runtime) (w : World) (self : TaskOrchestrator) :
  (forall (rs : list AgentResult) (agent : UniversalAgent) (prompt : string) (e : exn),
      let successes := List.filter is_success rs in
      let responses := List.map response successes in
      (2 <= List.length successes)%nat ->
      value (prepare_synthesis rt w self responses) = Ok (agent, prompt) ->
      value (run rt agent (JStr prompt)) = Raise e ->
      value (aggregate_results rt w self rs)
      = Ok (join nl
              (imap (fun (i : nat) text =>
                       ("=== Agent " ++ pretty (S i) ++ " Response ===")
                       ++ nl ++ text ++ nl)
                    responses)))
  /\ (forall (user_input : string) (questions : list json)
             (agent : UniversalAgent) (prompt : string) (e : exn),
         let records := worker_records rt w self questions in
         let successes := List.filter is_success records in
         let responses := List.map response successes in
         value (decompose_task rt w self user_input (num_agents self))
           = Ok (JArr questions) ->
         Z.of_nat (List.length questions) = num_agents self ->
         (forall i, 0 <= i < num_agents self -> i ∈ arrival w) ->
         (2 <= List.length successes)%nat ->
         value (prepare_synthesis rt w self responses) = Ok (agent, prompt) ->
         value (run rt agent (JStr prompt)) = Raise e ->
         log_execution_summary self = Ok tt ->
         (exists rs, value (fan_out rt w self (JArr questions)) = Ok rs
                     /\ sort_by_agent_id rs = records)
         /\ value (orchestrate rt w self user_input)
            = Ok (join nl
                    (imap (fun (i : nat) text =>
                             ("=== Agent " ++ pretty (S i) ++ " Response ===")
                             ++ nl ++ text ++ nl)
                          responses))
         /\ List.map agent_id records = range (num_agents self)
         /\ StronglySorted Z.lt (List.map agent_id successes)).
Proof.
  split; [intros rs agent prompt e; apply aggregation_falls_back_to_concatenation|].
  intros user_input questions agent prompt e records successes responses
    Hdecompose Hlen Harrived Htwo Hprepare Hrun Hlog.
  assert (Hids : agent_id <$> records = range (num_agents self)).
  { unfold records. rewrite worker_records_ids, Hlen. reflexivity. }
  assert (Hpos : 0 < num_agents self).
  { assert (Hle : (List.length successes <= List.length records)%nat)
      by apply List.filter_length_le.
    unfold records, worker_records in Hle. rewrite length_imap in Hle. lia. }
  destruct (fan_out_sorted rt w self questions Hpos Hlen Harrived) as (rs & Hfan & Hsort).
  split; [exists rs; split; [exact Hfan|exact Hsort]|].
  split; [|split; [exact Hids|]].
  - pose proof (aggregation_falls_back_to_concatenation rt w self records agent prompt e
                  Htwo Hprepare Hrun) as Hvalue.
    unfold orchestrate.
    rewrite value_bind, Hdecompose, value_bind, Hfan, value_bind, Hsort.
    fold records. rewrite Hvalue, value_bind, Hlog. reflexivity.
  - apply StronglySorted_filter_ids. rewrite Hids. apply StronglySorted_range.
Qed.

(** Two workers answer "Answer 1" and "Answer 2", worker 1 before worker
    0, and the synthesis model is unreachable. *)
Lemma C6_witness :
  value (orchestrate Scenarios.runtime Scenarios.synthesis_down
           (Scenarios.orchestrator_for 2) "q")
  = Ok ("=== Agent 1 Response ===" ++ nl ++ "Answer 1" ++ nl ++ nl
        ++ "=== Agent 2 Response ===" ++ nl ++ "Answer 2" ++ nl).
Proof.
  refine (proj1 (proj2
            (proj2 (C6_synthesis_failure_falls_back_to_concatenation
                      Scenarios.runtime Scenarios.synthesis_down
                      (Scenarios.orchestrator_for 2))
               "q" [JStr "a"; JStr "b"]
               (with_tools
                  (Scenarios.agent_with "deepseek" (Some 1) (Scenarios.fails "boom"))
                  [dummy_tool])
               "Synthesize the responses."
               (mk_exn DeepSeekAPIError "DeepSeek API call failed: boom")
               _ _ _ _ _ _ _))).
  - vm_compute. reflexivity.
  - reflexivity.
  - intros i Hi. assert (Hcases : i = 0 \/ i = 1) by (simpl in Hi; lia).
    destruct Hcases as [-> | ->]; simpl; [right; left | left].
  - vm_compute. lia.
  - vm_compute. reflexivity.
  - vm_compute. reflexivity.
  - reflexivity.
Defined.
